(** * bolt_financial_ai: the client-side aggregation, export and assistant logic

    A shallow embedding of the pure parts of the Reports, Transactions and
    Dashboard pages and of the assistant ([src/pages/Reports.tsx],
    [src/components/AIAssistant.tsx]).

    Modelling conventions.
    - A JavaScript [number] is a value of a type [num] that carries the
      arithmetic the code uses (class [JSNumber]).  The instance the browser
      runs is IEEE-754 binary64, [binary64]; [exactQ] is exact rational
      arithmetic and [exactZ] that of the whole numbers, with which binary64
      agrees below 2^53 ([Number_of_Z]).  Definitions and theorems are
      stated for every instance unless they name one.
    - A JavaScript string is the [string] of the bytes of its UTF-8
      encoding.  Its [length] counts UTF-16 code units ([length_utf16]),
      [trim] removes the white space of ECMAScript ([whiteSpace]), and
      [toLowerCase] acts on the letters A to Z.  Of the characters
      outside ASCII only U+0130 and U+212A lower-case to a text with an
      ASCII letter, [i] before a combining dot and [k]; no keyword of the
      assistant ends in [i] or has a [k], so the keywords found are the
      same.
    - A [Date] is the calendar triple that [getFullYear], [getMonth] (0 to
      11) and [getDate] return in local time.  The [date] column of a row is
      a calendar date, which the store serialises as ['yyyy-MM-dd'];
      [new Date(text)] reads such a text as midnight UTC, so the local triple
      depends on the time zone ([TimeZone], [new_Date]).
    - A plain object used as a dictionary is modelled by its own
      properties, together with the names that every object inherits from
      [Object.prototype] ([Object_prototype]) where the code probes the
      object with [o[k]].
    - React state setters are modelled by returning the value that is set.
    - Locale formatting of numbers ([toLocaleString], [toFixed], the
      number-to-text conversion of [Array.prototype.join]) is left abstract:
      it is a parameter of the definitions that print numbers. *)

From Stdlib Require Import ZArith QArith List String Ascii Floats Lia Bool.
From Stdlib Require Import DecimalString.
From Stdlib Require DecimalN.
From stdpp Require Import gmap strings.

Import ListNotations.
Local Open Scope string_scope.
Local Open Scope Z_scope.

(** ** JavaScript numbers *)

Class JSNumber (num : Type) := {
  zero : num;                  (* the literal 0 *)
  hundred : num;               (* the literal 100 *)
  add : num -> num -> num;     (* a + b *)
  sub : num -> num -> num;     (* a - b *)
  mul : num -> num -> num;     (* a * b *)
  div : num -> num -> num;     (* a / b *)
  gtb : num -> num -> bool;    (* a > b *)
  truthy : num -> bool         (* ToBoolean(a): false for 0, -0 and NaN *)
}.

(** The numbers of the JavaScript runtime: IEEE-754 binary64. *)
#[export] Instance binary64 : JSNumber float := {
  zero := 0%float;
  hundred := 100%float;
  add := PrimFloat.add;
  sub := PrimFloat.sub;
  mul := PrimFloat.mul;
  div := PrimFloat.div;
  gtb a b := PrimFloat.ltb b a;
  truthy a := negb (PrimFloat.is_zero a || PrimFloat.is_nan a)
}.

(** Exact decimal arithmetic, as rationals. *)
#[export] Instance exactQ : JSNumber Q := {
  zero := 0%Q;
  hundred := 100%Q;
  add := Qplus;
  sub := Qminus;
  mul := Qmult;
  div := Qdiv;
  gtb a b := negb (Qle_bool a b);
  truthy a := negb (Qeq_bool a 0%Q)
}.

(** [array.reduce((sum, x) => sum + Number(f(x)), 0)] *)
Definition reduce_sum {num} `{JSNumber num} {A} (f : A -> num) (l : list A) : num :=
  fold_left (fun sum x => add sum (f x)) l zero.

(** ** Dates and date-fns formatting *)

Record Date := { getFullYear : Z; getMonth : Z; getDate : Z }.

Definition month_abbr : list string :=
  ["Jan"; "Feb"; "Mar"; "Apr"; "May"; "Jun";
   "Jul"; "Aug"; "Sep"; "Oct"; "Nov"; "Dec"].

(** date-fns [addLeadingZeros(number, targetLength)] on a number >= 0. *)
Fixpoint pad_left (n : nat) (s : string) : string :=
  match n with
  | O => s
  | S n' => String "0" (pad_left n' s)
  end.

Definition addLeadingZeros (number : Z) (targetLength : nat) : string :=
  let output := NilZero.string_of_uint (N.to_uint (Z.to_N number)) in
  pad_left (targetLength - String.length output) output.

(** The token [MMM]: the abbreviated month name. *)
Definition format_MMM (d : Date) : string :=
  nth (Z.to_nat (getMonth d)) month_abbr "".

(** The token [yyyy]: the year of the era, at least four digits. *)
Definition format_yyyy (d : Date) : string :=
  let signedYear := getFullYear d in
  let year := if signedYear >? 0 then signedYear else 1 - signedYear in
  addLeadingZeros year 4.

(** [format(d, 'MMM yyyy')] *)
Definition format_MMM_yyyy (d : Date) : string :=
  format_MMM d ++ " " ++ format_yyyy d.

(** [format(d, 'yyyy-MM-dd')] *)
Definition format_yyyy_MM_dd (d : Date) : string :=
  format_yyyy d ++ "-" ++ addLeadingZeros (getMonth d + 1) 2
                ++ "-" ++ addLeadingZeros (getDate d) 2.

Definition isLeapYear (y : Z) : bool :=
  ((y mod 4 =? 0) && negb (y mod 100 =? 0)) || (y mod 400 =? 0).

Definition getDaysInMonth (y m : Z) : Z :=
  if m =? 1 then (if isLeapYear y then 29 else 28)
  else if (m =? 3) || (m =? 5) || (m =? 8) || (m =? 10) then 30
  else 31.

(** date-fns [subMonths(d, amount)]: the same day of the month [amount]
    months earlier, or the last day of that month when it is shorter. *)
Definition subMonths (d : Date) (amount : Z) : Date :=
  let t := getFullYear d * 12 + getMonth d - amount in
  let y := t / 12 in
  let m := t mod 12 in
  {| getFullYear := y; getMonth := m;
     getDate := Z.min (getDate d) (getDaysInMonth y m) |}.

(** The time zone of the browser: [getTimezoneOffset] is the value of
    [new Date(text).getTimezoneOffset()] for the date-only text of a calendar
    date, that is the number of minutes by which local time is behind UTC at
    midnight UTC of that date (180 in Sao Paulo, 0 in London in winter, -60
    or -120 in Berlin).  It lies strictly between -1440 and 1440. *)
Class TimeZone := { getTimezoneOffset : Date -> Z }.

Definition UTC : TimeZone := {| getTimezoneOffset := fun _ => 0 |}.

(** Brazil's main zone, three hours behind UTC the whole year. *)
Definition America_Sao_Paulo : TimeZone := {| getTimezoneOffset := fun _ => 180 |}.

(** India, five and a half hours ahead of UTC. *)
Definition Asia_Kolkata : TimeZone := {| getTimezoneOffset := fun _ => -330 |}.

(** The calendar day before [d]. *)
Definition previousDay (d : Date) : Date :=
  if 1 <? getDate d then
    {| getFullYear := getFullYear d; getMonth := getMonth d; getDate := getDate d - 1 |}
  else if 0 <? getMonth d then
    {| getFullYear := getFullYear d; getMonth := getMonth d - 1;
       getDate := getDaysInMonth (getFullYear d) (getMonth d - 1) |}
  else
    {| getFullYear := getFullYear d - 1; getMonth := 11; getDate := 31 |}.

(** [new Date(text)] on the date-only text ['yyyy-MM-dd'] of the calendar
    date [stored]: the text denotes midnight UTC of that date, and the local
    fields of the resulting [Date] are those of the same day where local
    time is at or ahead of UTC, and of the evening before where it is behind
    UTC. *)
Definition new_Date {tz : TimeZone} (stored : Date) : Date :=
  if 0 <? getTimezoneOffset stored then previousDay stored else stored.

Example format_example :
  format_MMM_yyyy (subMonths {| getFullYear := 2024; getMonth := 2; getDate := 31 |} 5)
  = "Oct 2023"
  /\ format_yyyy_MM_dd (subMonths {| getFullYear := 2024; getMonth := 2; getDate := 31 |} 1)
  = "2024-02-29".
Proof. split; reflexivity. Qed.

Example float_example : add 0.5%float 0.25%float = 0.75%float /\ gtb 1%float zero = true.
Proof. split; reflexivity. Qed.

(** ** JavaScript strings and objects *)

(** The line feed of ['\n']. *)
Definition LF : string := String (ascii_of_nat 10) EmptyString.

(** [array.join(sep)] on an array of strings. *)
Definition join (sep : string) (l : list string) : string := String.concat sep l.

(** [c || d] on a possibly absent string: null, undefined and the empty
    string are falsy. *)
Definition or_else (c : option string) (d : string) : string :=
  match c with
  | Some (String a s) => String a s
  | _ => d
  end.

(** The names that every plain object inherits from [Object.prototype]:
    for these [o[k]] is a function (or, for [__proto__], the prototype
    itself), hence truthy, on an object that has no own property [k]. *)
Definition Object_prototype : list string :=
  ["constructor"; "hasOwnProperty"; "isPrototypeOf"; "propertyIsEnumerable";
   "toLocaleString"; "toString"; "valueOf"; "__proto__";
   "__defineGetter__"; "__defineSetter__"; "__lookupGetter__"; "__lookupSetter__"].

(** Whether [k] names a member of [Object.prototype]. *)
Definition inherited (k : string) : bool := existsb (String.eqb k) Object_prototype.

(** A plain object with string keys that are not array indices: its own
    properties, in insertion order (the order of [Object.values]). *)
Section JSObject.
Context {A : Type}.

(** [o[k]] *)
Fixpoint obj_get (o : list (string * A)) (k : string) : option A :=
  match o with
  | [] => None
  | (k', v) :: r => if String.eqb k' k then Some v else obj_get r k
  end.

(** [o[k] = v]: an existing property keeps its place. *)
Fixpoint obj_set (o : list (string * A)) (k : string) (v : A) : list (string * A) :=
  match o with
  | [] => [(k, v)]
  | (k', v') :: r =>
      if String.eqb k' k then (k', v) :: r else (k', v') :: obj_set r k v
  end.

(** A change of the object stored at [o[k]], as [o[k].field += x] makes. *)
Fixpoint obj_update (f : A -> A) (o : list (string * A)) (k : string) : list (string * A) :=
  match o with
  | [] => []
  | (k', v) :: r =>
      if String.eqb k' k then (k', f v) :: r else (k', v) :: obj_update f r k
  end.

(** [Object.values(o)] *)
Definition Object_values (o : list (string * A)) : list A := map snd o.

End JSObject.

(** ** Reports page: [src/pages/Reports.tsx] *)

Module Reports.
Section Reports.
Context {num : Type} `{JSNumber num} {tz : TimeZone}.

(** The number-to-text conversion that [Array.prototype.join] applies. *)
Variable Number_toString : num -> string.

Record ChartData := { name : string; income : num; expense : num }.

Record CategoryData := { cd_name : string; cd_value : num; cd_color : string }.

(** The joined row [category:categories(name, color)]. *)
Record CategoryRef := { category_name : string; category_color : option string }.

(** A row of [transactions], with the fields the page reads; [date] is the
    calendar date of the column, which arrives as the text ['yyyy-MM-dd']. *)
Record Transaction := {
  type : string;
  amount : num;
  date : Date;
  category : option CategoryRef
}.

Definition COLORS : list string :=
  ["#3B82F6"; "#10B981"; "#F59E0B"; "#EF4444"; "#8B5CF6"; "#EC4899"; "#06B6D4"; "#84CC16"].

(** The loop [for (let i = 5; i >= 0; i--)] that creates the six months. *)
Definition initMonths (now : Date) : list (string * ChartData) :=
  fold_left
    (fun monthsData i =>
       let monthKey := format_MMM_yyyy (subMonths now i) in
       obj_set monthsData monthKey {| name := monthKey; income := zero; expense := zero |})
    [5; 4; 3; 2; 1; 0] [].

(** The body of [transactions.forEach] in [processMonthlyData].  The test
    [monthsData[monthKey]] also holds for a key inherited from
    [Object.prototype]; the [+=] then writes on the inherited object and
    [monthsData] keeps its own properties, as in the last case here. *)
Definition addToMonth (monthsData : list (string * ChartData)) (transaction : Transaction)
  : list (string * ChartData) :=
  let monthKey := format_MMM_yyyy (new_Date (date transaction)) in
  match obj_get monthsData monthKey with
  | Some _ =>
      if String.eqb (type transaction) "income" then
        obj_update (fun m => {| name := name m;
                                income := add (income m) (amount transaction);
                                expense := expense m |}) monthsData monthKey
      else if String.eqb (type transaction) "expense" then
        obj_update (fun m => {| name := name m;
                                income := income m;
                                expense := add (expense m) (amount transaction) |}) monthsData monthKey
      else monthsData
  | None => monthsData
  end.

Definition processMonthlyData (now : Date) (transactions : list Transaction) : list ChartData :=
  Object_values (fold_left addToMonth transactions (initMonths now)).

(** An entry of [categoryMap]. *)
Record Slice := { value : num; color : string }.

(** The body of [forEach] in [processCategoryData]; it runs on rows that
    passed the filter, so [transaction.category] is an object there.
    [categoryMap] holds the own properties of the object.  The test
    [!categoryMap[categoryName]] fails when the name is an own property, and
    also when it is inherited from [Object.prototype]: then no entry is made
    and [categoryMap[categoryName].value += ...] writes on the inherited
    object, so the own properties stay as they are ([alter] changes nothing
    at a key that is absent). *)
Definition addToCategory (categoryMap : gmap string Slice) (transaction : Transaction)
  : gmap string Slice :=
  match category transaction with
  | None => categoryMap
  | Some c =>
      let categoryName := category_name c in
      let categoryColor := or_else (category_color c) (nth 0 COLORS "") in
      let categoryMap :=
        match categoryMap !! categoryName with
        | Some _ => categoryMap
        | None =>
            if inherited categoryName then categoryMap
            else <[categoryName := {| value := zero; color := categoryColor |}]> categoryMap
        end in
      alter (fun e => {| value := add (value e) (amount transaction); color := color e |})
            categoryName categoryMap
  end.

(** [t.type === 'expense' && t.category] *)
Definition isCategorizedExpense (t : Transaction) : bool :=
  String.eqb (type t) "expense" && bool_decide (is_Some (category t)).

Definition categoryMapOf (transactions : list Transaction) : gmap string Slice :=
  fold_left addToCategory (List.filter isCategorizedExpense transactions) ∅.

(** [Object.entries(categoryMap).map(...)]; the model leaves the order of the
    entries open. *)
Definition processCategoryData (transactions : list Transaction) : list CategoryData :=
  (fun e => {| cd_name := fst e; cd_value := value (snd e); cd_color := color (snd e) |})
    <$> map_to_list (categoryMapOf transactions).

Record Stats := { totalIncome : num; totalExpense : num; netBalance : num }.

Definition calculateStats (transactions : list Transaction) : Stats :=
  let totalIncome :=
    reduce_sum amount (List.filter (fun t => String.eqb (type t) "income") transactions) in
  let totalExpense :=
    reduce_sum amount (List.filter (fun t => String.eqb (type t) "expense") transactions) in
  {| totalIncome := totalIncome;
     totalExpense := totalExpense;
     netBalance := sub totalIncome totalExpense |}.

(** The file that [exportCSV] hands to the browser. *)
Record Download := { csvContent : string; blob_type : string; download : string }.

Definition csvRow (row : ChartData) : string :=
  join "," [name row; Number_toString (income row); Number_toString (expense row);
            Number_toString (sub (income row) (expense row))].

Definition exportCSV (now : Date) (monthlyData : list ChartData) : Download :=
  {| csvContent := join LF (join "," ["Month"; "Income"; "Expense"; "Net"]
                             :: map csvRow monthlyData);
     blob_type := "text/csv";
     download := "financial-report-" ++ format_yyyy_MM_dd now ++ ".csv" |}.

End Reports.
End Reports.

(** ** Transactions page: the second component of [src/pages/Reports.tsx] *)

Module Transactions.

(** A row of [categories] as the page selects it: [id, name, type]. *)
Record Category := { cat_id : string; cat_name : string; cat_type : string }.

(** The state [formData] of the transaction form. *)
Record FormData := {
  type : string;
  amount : string;
  description : string;
  date : string;
  wallet_id : string;
  category_id : string
}.

(** [setFormData({ ...formData, type: newType, category_id: '' })], the
    click handler of both type buttons. *)
Definition setType (newType : string) (formData : FormData) : FormData :=
  {| type := newType;
     amount := amount formData;
     description := description formData;
     date := date formData;
     wallet_id := wallet_id formData;
     category_id := "" |}.

(** The Income button. *)
Definition onClickIncome (formData : FormData) : FormData := setType "income" formData.

(** The Expense button. *)
Definition onClickExpense (formData : FormData) : FormData := setType "expense" formData.

Definition availableCategories (categories : list Category) (formData : FormData)
  : list Category :=
  List.filter (fun c => String.eqb (cat_type c) (type formData)) categories.

(** The values of the options of the category select: "No category", then
    one option per available category. *)
Definition categoryOptions (categories : list Category) (formData : FormData) : list string :=
  "" :: map cat_id (availableCategories categories formData).

End Transactions.

(** ** Dashboard page: [src/pages/Dashboard.tsx] *)

Module Dashboard.
Section Dashboard.
Context {num : Type} `{JSNumber num}.

(** A row of [wallets]; the statistics read its balance only. *)
Record WalletData := { balance : num }.

(** A row of the query [select('type, amount')]. *)
Record StatRow := { type : string; amount : num }.

Record Stats := { totalBalance : num; income : num; expenses : num }.

(** The initial state of [stats]. *)
Definition initialStats : Stats :=
  {| totalBalance := zero; income := zero; expenses := zero |}.

(** The statistics part of [fetchData]: the new state of [stats], given the
    results of the wallets query and of the statistics query (null when the
    store returned no data). *)
Definition fetchData (walletsData : option (list WalletData))
    (statsData : option (list StatRow)) (stats : Stats) : Stats :=
  match statsData with
  | Some statsData =>
      let totalBalance :=
        match walletsData with
        | Some ws => let r := reduce_sum balance ws in if truthy r then r else zero
        | None => zero
        end in
      let income :=
        reduce_sum amount (List.filter (fun t => String.eqb (type t) "income") statsData) in
      let expenses :=
        reduce_sum amount (List.filter (fun t => String.eqb (type t) "expense") statsData) in
      {| totalBalance := totalBalance; income := income; expenses := expenses |}
  | None => stats
  end.

End Dashboard.
End Dashboard.

(** ** Assistant: [src/components/AIAssistant.tsx] *)

(** [s.toLowerCase()] on ASCII text. *)
Definition toLowerCase_ascii (c : ascii) : ascii :=
  let n := nat_of_ascii c in
  if ((65 <=? n) && (n <=? 90))%nat then ascii_of_nat (n + 32) else c.

Fixpoint toLowerCase (s : string) : string :=
  match s with
  | EmptyString => EmptyString
  | String c r => String (toLowerCase_ascii c) (toLowerCase r)
  end.

(** [s.includes(search)] *)
Fixpoint includes (s search : string) : bool :=
  if String.prefix search s then true
  else match s with
       | EmptyString => false
       | String _ r => includes r search
       end.

(** The text of a non-negative integer, as a template literal prints it. *)
Definition nat_toString (n : nat) : string := NilZero.string_of_uint (Nat.to_uint n).

(** The double quote character. *)
Definition dquote : string := String (ascii_of_nat 34) EmptyString.

Module AIAssistant.
Section AIAssistant.
Context {num : Type} `{JSNumber num}.

(** [n.toLocaleString('pt-BR', { minimumFractionDigits: 2 })] *)
Variable toLocaleString_ptBR : num -> string.
(** [n.toFixed(1)] *)
Variable toFixed_1 : num -> string.

(** Rows of [wallets] and [transactions], with the fields the assistant
    reads; [date] is the column the store would order by. *)
Record Wallet := { balance : num }.
Record Transaction := { type : string; amount : num; date : Date }.

(** The value [getFinancialContext] resolves to. *)
Record FinancialContext := {
  walletsCount : nat;
  totalBalance : num;
  recentIncome : num;
  recentExpenses : num;
  transactionsCount : nat
}.

(** [supabase.from(t).select(...)]: the rows in the order the store returns
    them, here the order of the list [table]. *)
Definition select {A} (table : list A) : option (list A) := Some table.

(** [.limit(n)] on a query: at most the first [n] rows of its result. *)
Definition limit {A} (n : nat) (res : option (list A)) : option (list A) :=
  option_map (firstn n) res.

(** The body of [getFinancialContext] after both queries resolved. *)
Definition financialContextOf (walletsRes : option (list Wallet))
    (transactionsRes : option (list Transaction)) : FinancialContext :=
  let wallets := match walletsRes with Some d => d | None => [] end in
  let transactions := match transactionsRes with Some d => d | None => [] end in
  let totalBalance := reduce_sum balance wallets in
  let recentIncome :=
    reduce_sum amount (List.filter (fun t => String.eqb (type t) "income") transactions) in
  let recentExpenses :=
    reduce_sum amount (List.filter (fun t => String.eqb (type t) "expense") transactions) in
  {| walletsCount := length wallets;
     totalBalance := totalBalance;
     recentIncome := recentIncome;
     recentExpenses := recentExpenses;
     transactionsCount := length transactions |}.

(** [getFinancialContext] over a store holding the two tables; the queries
    are [select('*')] on wallets and [select(...).limit(20)] on
    transactions, with no [order]. *)
Definition getFinancialContext (walletsTable : list Wallet)
    (transactionsTable : list Transaction) : FinancialContext :=
  financialContextOf (select walletsTable) (limit 20 (select transactionsTable)).

Definition plural (n : nat) : string := if Nat.eqb n 1 then "" else "s".

Definition balanceResponse (context : FinancialContext) : string :=
  "Your current total balance is R$ " ++ toLocaleString_ptBR (totalBalance context)
  ++ " across " ++ nat_toString (walletsCount context) ++ " wallet"
  ++ plural (walletsCount context) ++ ".".

Definition incomeResponse (context : FinancialContext) : string :=
  "Your recent income is R$ " ++ toLocaleString_ptBR (recentIncome context) ++ ". "
  ++ (if gtb (recentIncome context) (recentExpenses context)
      then "Great job! Your income is higher than your expenses."
      else "Consider increasing your income streams or reducing expenses.").

Definition expenseResponse (context : FinancialContext) : string :=
  "Your recent expenses total R$ " ++ toLocaleString_ptBR (recentExpenses context) ++ ". "
  ++ (if gtb (recentExpenses context) (recentIncome context)
      then "You're spending more than you're earning. Consider reviewing your budget."
      else "Good job managing your expenses!").

Definition savings (context : FinancialContext) : num :=
  sub (recentIncome context) (recentExpenses context).

Definition savingsRate (context : FinancialContext) : num :=
  if gtb (recentIncome context) zero
  then mul (div (savings context) (recentIncome context)) hundred
  else zero.

Definition savingResponse (context : FinancialContext) : string :=
  "Based on your recent transactions, you're saving approximately R$ "
  ++ toLocaleString_ptBR (savings context) ++ " (" ++ toFixed_1 (savingsRate context)
  ++ "% of income). Financial experts recommend saving at least 20% of your income.".

Definition walletResponse (context : FinancialContext) : string :=
  "You currently have " ++ nat_toString (walletsCount context) ++ " wallet"
  ++ plural (walletsCount context)
  ++ " set up. Consider organizing your finances by creating separate wallets for different purposes like personal, business, or investments.".

Definition tips : list string :=
  ["Track every transaction to understand where your money goes.";
   "Create a budget and stick to it - allocate 50% to needs, 30% to wants, and 20% to savings.";
   "Build an emergency fund covering 3-6 months of expenses.";
   "Review your subscriptions and cancel unused ones.";
   "Use the envelope method - allocate specific amounts to different spending categories."].

Definition fallbackResponse (userMessage : string) : string :=
  "I understand you're asking about " ++ dquote ++ userMessage ++ dquote
  ++ ". Here's what I can help you with:" ++ LF ++ LF
  ++ "• Check your balance and financial overview" ++ LF
  ++ "• Analyze your income and expenses" ++ LF
  ++ "• Calculate your savings rate" ++ LF
  ++ "• Provide budgeting tips and advice" ++ LF
  ++ "• Help manage your wallets" ++ LF ++ LF
  ++ "Feel free to ask me anything about your finances!".

Definition unavailableResponse : string :=
  "I apologize, but I'm having trouble accessing your financial data at the moment. Please try again later.".

(** [generateAIResponse]; [context] is null when fetching it threw, and
    [tipIndex] is the value of [Math.floor(Math.random() * tips.length)]. *)
Definition generateAIResponse (context : option FinancialContext) (tipIndex : nat)
    (userMessage : string) : string :=
  match context with
  | None => unavailableResponse
  | Some context =>
      let lowerMessage := toLowerCase userMessage in
      if includes lowerMessage "balance" || includes lowerMessage "total" then
        balanceResponse context
      else if includes lowerMessage "income" then
        incomeResponse context
      else if includes lowerMessage "expense" || includes lowerMessage "spending" then
        expenseResponse context
      else if includes lowerMessage "save" || includes lowerMessage "saving" then
        savingResponse context
      else if includes lowerMessage "wallet" then
        walletResponse context
      else if includes lowerMessage "advice" || includes lowerMessage "tip"
              || includes lowerMessage "help" then
        nth tipIndex tips ""
      else fallbackResponse userMessage
  end.

End AIAssistant.
End AIAssistant.

(** * Properties *)

(** ** Month labels of the six-month window *)

Lemma month_abbr_prefix_inj (n1 n2 : nat) (s1 s2 : string) :
  (n1 < 12)%nat -> (n2 < 12)%nat ->
  nth n1 month_abbr "" ++ s1 = nth n2 month_abbr "" ++ s2 -> n1 = n2.
Proof.
  intros H1 H2.
  destruct n1 as [|[|[|[|[|[|[|[|[|[|[|[|n1]]]]]]]]]]]]; try lia;
    destruct n2 as [|[|[|[|[|[|[|[|[|[|[|[|n2]]]]]]]]]]]]; try lia;
    simpl; intros E; first [reflexivity | discriminate E].
Qed.

Lemma format_MMM_yyyy_month (d1 d2 : Date) :
  0 <= getMonth d1 < 12 -> 0 <= getMonth d2 < 12 ->
  format_MMM_yyyy d1 = format_MMM_yyyy d2 -> getMonth d1 = getMonth d2.
Proof.
  intros H1 H2 E. unfold format_MMM_yyyy, format_MMM in E.
  apply month_abbr_prefix_inj in E; lia.
Qed.

Lemma subMonths_month_index (d : Date) (i : Z) :
  getFullYear (subMonths d i) * 12 + getMonth (subMonths d i)
  = getFullYear d * 12 + getMonth d - i
  /\ 0 <= getMonth (subMonths d i) < 12.
Proof.
  unfold subMonths; simpl.
  pose proof (Z.div_mod (getFullYear d * 12 + getMonth d - i) 12 ltac:(lia)).
  pose proof (Z.mod_pos_bound (getFullYear d * 12 + getMonth d - i) 12 ltac:(lia)).
  lia.
Qed.

Lemma window_labels_distinct (now : Date) (i j : Z) :
  0 <= i <= 5 -> 0 <= j <= 5 -> i <> j ->
  format_MMM_yyyy (subMonths now i) <> format_MMM_yyyy (subMonths now j).
Proof.
  intros Hi Hj Hne E.
  destruct (subMonths_month_index now i) as [Ei Bi].
  destruct (subMonths_month_index now j) as [Ej Bj].
  apply format_MMM_yyyy_month in E; [|assumption|assumption].
  lia.
Qed.

Lemma append_empty_l (s : string) : "" ++ s = s.
Proof. reflexivity. Qed.

Lemma append_String (c : ascii) (a b : string) : String c a ++ b = String c (a ++ b).
Proof. reflexivity. Qed.

Lemma append_associative (a b c : string) : (a ++ b) ++ c = a ++ (b ++ c).
Proof.
  induction a as [|x a IH]; [reflexivity|].
  rewrite !append_String, IH. reflexivity.
Qed.

(** The year that a [yyyy] text denotes. *)
Definition yearOfText (s : string) : option N :=
  option_map N.of_uint (NilEmpty.uint_of_string s).

Lemma yearOfText_pad (k : nat) (s : string) :
  yearOfText (pad_left k s) = yearOfText s.
Proof.
  induction k as [|k IH]; [reflexivity|].
  cbn [pad_left]. unfold yearOfText in *. cbn [NilEmpty.uint_of_string].
  destruct (NilEmpty.uint_of_string (pad_left k s)) as [d|];
    destruct (NilEmpty.uint_of_string s) as [d'|]; simpl in *; congruence.
Qed.

Lemma yearOfText_addLeadingZeros (n : Z) (len : nat) :
  0 <= n -> yearOfText (addLeadingZeros n len) = Some (Z.to_N n).
Proof.
  intros Hn. unfold addLeadingZeros. rewrite yearOfText_pad.
  unfold yearOfText, NilZero.string_of_uint.
  destruct (N.to_uint (Z.to_N n)) eqn:E;
    try (rewrite <- E, NilEmpty.usu; simpl; rewrite DecimalN.Unsigned.of_to; reflexivity).
  apply (f_equal N.of_uint) in E. rewrite DecimalN.Unsigned.of_to in E.
  rewrite E. reflexivity.
Qed.

Lemma append_cancel_l (a b c : string) : a ++ b = a ++ c -> b = c.
Proof.
  induction a as [|x a IH]; [auto|].
  rewrite !append_String. intros E. injection E as E. auto.
Qed.

(** In the years AD a label names one calendar month. *)
Lemma format_MMM_yyyy_inj (d1 d2 : Date) :
  1 <= getFullYear d1 -> 1 <= getFullYear d2 ->
  0 <= getMonth d1 < 12 -> 0 <= getMonth d2 < 12 ->
  format_MMM_yyyy d1 = format_MMM_yyyy d2 ->
  getFullYear d1 = getFullYear d2 /\ getMonth d1 = getMonth d2.
Proof.
  intros Hy1 Hy2 Hm1 Hm2 E.
  pose proof (format_MMM_yyyy_month d1 d2 Hm1 Hm2 E) as Em.
  split; [|exact Em].
  unfold format_MMM_yyyy, format_MMM in E. rewrite Em in E.
  apply append_cancel_l, append_cancel_l in E.
  apply (f_equal yearOfText) in E. unfold format_yyyy in E.
  destruct (Z.gtb_spec (getFullYear d1) 0); [|lia].
  destruct (Z.gtb_spec (getFullYear d2) 0); [|lia].
  rewrite !yearOfText_addLeadingZeros in E by lia.
  injection E as E. lia.
Qed.

(** The number of the calendar month of a date, counted from year 0. *)
Definition monthIndex (d : Date) : Z := getFullYear d * 12 + getMonth d.

(** ** Objects as insertion-ordered property lists *)

Section JSObjectFacts.
Context {A : Type}.
Implicit Types (o : list (string * A)) (k : string).

Lemma obj_get_absent o k : obj_get o k = None -> ~ In k (map fst o).
Proof.
  induction o as [|[k' v] r IH]; simpl; [tauto|].
  destruct (String.eqb_spec k' k) as [->|Hne]; [discriminate|].
  intros E [Hk|Hk]; [contradiction|exact (IH E Hk)].
Qed.

Lemma obj_set_fresh o k v : ~ In k (map fst o) -> obj_set o k v = (o ++ [(k, v)])%list.
Proof.
  induction o as [|[k' v'] r IH]; simpl; intros Hn; [reflexivity|].
  destruct (String.eqb_spec k' k) as [->|Hne]; [tauto|].
  rewrite IH by tauto. reflexivity.
Qed.

Lemma fold_obj_set_fresh (mk : string -> A) (ks : list string) o :
  List.NoDup (map fst o ++ ks)%list ->
  fold_left (fun o k => obj_set o k (mk k)) ks o
  = (o ++ map (fun k => (k, mk k)) ks)%list.
Proof.
  revert o. induction ks as [|k ks IH]; intros o Hnd; simpl.
  - rewrite app_nil_r. reflexivity.
  - pose proof (NoDup_remove_2 _ _ _ Hnd) as Hk.
    rewrite obj_set_fresh by (intros Hin; apply Hk, in_or_app; auto).
    rewrite IH.
    + rewrite <- app_assoc. reflexivity.
    + rewrite map_app, <- app_assoc. exact Hnd.
Qed.

(** One step on the entry [e] of a change made at key [k]. *)
Definition at_key (f : A -> A) (k : string) (e : string * A) : string * A :=
  if String.eqb (fst e) k then (fst e, f (snd e)) else e.

Lemma map_at_key_absent f k o : ~ In k (map fst o) -> map (at_key f k) o = o.
Proof.
  induction o as [|[k' v] r IH]; simpl; intros Hn; [reflexivity|].
  unfold at_key at 1; simpl.
  destruct (String.eqb_spec k' k) as [->|Hne]; [tauto|].
  rewrite IH by tauto. reflexivity.
Qed.

Lemma obj_update_map f o k :
  List.NoDup (map fst o) -> obj_update f o k = map (at_key f k) o.
Proof.
  induction o as [|[k' v] r IH]; simpl; intros Hnd; [reflexivity|].
  inversion Hnd as [|? ? Hn Hr]; subst.
  unfold at_key at 1; simpl.
  destruct (String.eqb_spec k' k) as [->|Hne].
  - rewrite map_at_key_absent by assumption. reflexivity.
  - rewrite IH by assumption. reflexivity.
Qed.

End JSObjectFacts.

(** ** Monthly bucketing *)

Section MonthlyFacts.
Import Reports.
Context {num : Type} `{JSNumber num} {tz : TimeZone}.
Implicit Types (t : @Transaction num) (txs : list (@Transaction num))
  (m : @ChartData num) (md : list (string * @ChartData num)).

(** The labels of the window, oldest first. *)
Definition windowLabels (now : Date) : list string :=
  map (fun i => format_MMM_yyyy (subMonths now i)) [5; 4; 3; 2; 1; 0].

(** The amounts of the transactions of type [ty] whose month label is [k],
    in the order of the list. *)
Definition amountsOf (ty k : string) txs : list num :=
  map amount
    (List.filter (fun t => String.eqb (type t) ty && String.eqb k (format_MMM_yyyy (new_Date (date t))))
       txs).

(** The running sum [init + a1 + ... + an], added from the left. *)
Definition sumFrom (init : num) (l : list num) : num := fold_left add l init.

(** The bucket of label [k] after the transactions [txs], starting from [m]. *)
Definition bucketAfter (k : string) txs m : ChartData :=
  {| name := name m;
     income := sumFrom (income m) (amountsOf "income" k txs);
     expense := sumFrom (expense m) (amountsOf "expense" k txs) |}.

Definition emptyBucket (k : string) : ChartData :=
  {| name := k; income := zero; expense := zero |}.

(** What one transaction does to a bucket of its own month. *)
Definition applyTo t m : ChartData :=
  if String.eqb (type t) "income" then
    {| name := name m; income := add (income m) (amount t); expense := expense m |}
  else if String.eqb (type t) "expense" then
    {| name := name m; income := income m; expense := add (expense m) (amount t) |}
  else m.

Lemma windowLabels_NoDup (now : Date) : List.NoDup (windowLabels now).
Proof.
  unfold windowLabels; simpl.
  repeat (constructor; [simpl; intuition; eapply window_labels_distinct; try eassumption; lia|]).
  constructor.
Qed.

Lemma initMonths_eq (now : Date) :
  initMonths now = map (fun k => (k, emptyBucket k)) (windowLabels now).
Proof.
  pose proof (fold_obj_set_fresh emptyBucket (windowLabels now) []) as E.
  exact (E (windowLabels_NoDup now)).
Qed.
Lemma addToMonth_map md t :
  List.NoDup (map fst md) ->
  addToMonth md t = map (at_key (applyTo t) (format_MMM_yyyy (new_Date (date t)))) md.
Proof.
  intros Hnd. unfold addToMonth.
  destruct (obj_get md (format_MMM_yyyy (new_Date (date t)))) as [m0|] eqn:Hget.
  - unfold applyTo.
    destruct (String.eqb (type t) "income").
    + apply obj_update_map; assumption.
    + destruct (String.eqb (type t) "expense").
      * apply obj_update_map; assumption.
      * rewrite <- (map_id md) at 1. apply map_ext. intros [k m].
        unfold at_key; simpl. destruct (String.eqb k _); reflexivity.
  - symmetry. apply map_at_key_absent, obj_get_absent. exact Hget.
Qed.

Lemma addToMonth_keys md t : map fst (addToMonth md t) = map fst md.
Proof.
  unfold addToMonth.
  assert (Hu : forall f, map fst (obj_update f md (format_MMM_yyyy (new_Date (date t)))) = map fst md).
  { intros f. induction md as [|[k' v] r IH]; simpl; [reflexivity|].
    destruct (String.eqb k' _); simpl; [reflexivity|]. rewrite IH. reflexivity. }
  destruct (obj_get md _); [|reflexivity].
  destruct (String.eqb (type t) "income"); [apply Hu|].
  destruct (String.eqb (type t) "expense"); [apply Hu|reflexivity].
Qed.

(** The transactions act on each bucket separately. *)
Lemma fold_addToMonth_map txs md :
  List.NoDup (map fst md) ->
  fold_left addToMonth txs md
  = map (fun e => fold_left (fun e t => at_key (applyTo t) (format_MMM_yyyy (new_Date (date t))) e) txs e) md.
Proof.
  revert md. induction txs as [|t txs IH]; intros md Hnd; simpl.
  - rewrite map_id. reflexivity.
  - rewrite IH by (rewrite addToMonth_keys; assumption).
    rewrite addToMonth_map by assumption. rewrite map_map. reflexivity.
Qed.

Lemma fold_at_key_bucket txs k m :
  fold_left (fun e t => at_key (applyTo t) (format_MMM_yyyy (new_Date (date t))) e) txs (k, m)
  = (k, bucketAfter k txs m).
Proof.
  revert m. induction txs as [|t txs IH]; intros m; simpl.
  - destruct m; reflexivity.
  - unfold at_key at 2; simpl.
    unfold bucketAfter, amountsOf; simpl.
    destruct (String.eqb k (format_MMM_yyyy (new_Date (date t)))) eqn:Ek.
    + rewrite IH. unfold applyTo, bucketAfter, amountsOf.
      destruct (String.eqb_spec (type t) "income") as [Ei|Ei].
      * rewrite Ei; simpl. reflexivity.
      * destruct (String.eqb_spec (type t) "expense") as [Ee|Ee]; simpl; reflexivity.
    + rewrite IH. unfold bucketAfter, amountsOf.
      rewrite !andb_false_r. reflexivity.
Qed.

(** The buckets in closed form: one per label of the window, each the
    left-to-right sum of the amounts of its own month, from zero. *)
Lemma processMonthlyData_closed (now : Date) txs :
  processMonthlyData now txs
  = map (fun k => bucketAfter k txs (emptyBucket k)) (windowLabels now).
Proof.
  unfold processMonthlyData, Object_values.
  rewrite fold_addToMonth_map.
  - rewrite initMonths_eq, !map_map. apply map_ext. intros k.
    rewrite fold_at_key_bucket. reflexivity.
  - rewrite initMonths_eq, map_map.
    rewrite (map_ext _ (fun k => k)) by reflexivity.
    rewrite map_id. apply windowLabels_NoDup.
Qed.

Lemma amountsOf_app ty k txs1 txs2 :
  amountsOf ty k (txs1 ++ txs2) = (amountsOf ty k txs1 ++ amountsOf ty k txs2)%list.
Proof. unfold amountsOf. rewrite List.filter_app, map_app. reflexivity. Qed.

Lemma amountsOf_skip ty k t txs :
  String.eqb (type t) ty && String.eqb k (format_MMM_yyyy (new_Date (date t))) = false ->
  amountsOf ty k (t :: txs) = amountsOf ty k txs.
Proof. intros E. unfold amountsOf. simpl. rewrite E. reflexivity. Qed.

Lemma amountsOf_one ty k t :
  amountsOf ty k [t]
  = if String.eqb (type t) ty && String.eqb k (format_MMM_yyyy (new_Date (date t)))
    then [amount t] else [].
Proof.
  unfold amountsOf; simpl.
  destruct (String.eqb (type t) ty && String.eqb k (format_MMM_yyyy (new_Date (date t)))); reflexivity.
Qed.

Lemma bucketAfter_snoc k txs t m :
  bucketAfter k (txs ++ [t]) m
  = if String.eqb k (format_MMM_yyyy (new_Date (date t)))
    then applyTo t (bucketAfter k txs m) else bucketAfter k txs m.
Proof.
  unfold bucketAfter, sumFrom.
  rewrite !amountsOf_app, !fold_left_app, !amountsOf_one.
  destruct (String.eqb k (format_MMM_yyyy (new_Date (date t)))).
  - rewrite !andb_true_r. unfold applyTo.
    destruct (String.eqb_spec (type t) "income") as [Ei|Ei].
    + rewrite Ei. reflexivity.
    + destruct (String.eqb (type t) "expense"); reflexivity.
  - rewrite !andb_false_r. reflexivity.
Qed.

Lemma processMonthlyData_names (now : Date) txs :
  map name (processMonthlyData now txs) = windowLabels now.
Proof.
  rewrite processMonthlyData_closed, map_map.
  rewrite (map_ext _ (fun k => k)) by reflexivity. apply map_id.
Qed.

Lemma processMonthlyData_snoc (now : Date) txs t :
  processMonthlyData now (txs ++ [t])
  = map (fun m => if String.eqb (name m) (format_MMM_yyyy (new_Date (date t))) then applyTo t m else m)
        (processMonthlyData now txs).
Proof.
  rewrite !processMonthlyData_closed, map_map.
  apply map_ext. intros k. rewrite bucketAfter_snoc. reflexivity.
Qed.

Lemma reduce_sum_map {A} (f : A -> num) (l : list A) :
  reduce_sum f l = sumFrom zero (map f l).
Proof.
  unfold reduce_sum, sumFrom. generalize zero.
  induction l as [|x l IH]; intros init; simpl; [reflexivity|apply IH].
Qed.

(** *** Local months *)

(** The amounts of the transactions of type [ty] whose local date lies in
    the calendar month of number [mi], in list order. *)
Definition amountsInMonth (ty : string) (mi : Z) txs : list num :=
  map amount
    (List.filter (fun t => String.eqb (type t) ty && (monthIndex (new_Date (date t)) =? mi))
       txs).

(** Where local time is behind UTC a stored date that is the first of its
    month is read in the month before; every other date keeps its month. *)
Lemma monthIndex_new_Date (d : Date) :
  0 <= getMonth d < 12 ->
  monthIndex (new_Date d)
  = (if (0 <? getTimezoneOffset d) && (getDate d <=? 1) then monthIndex d - 1
     else monthIndex d)
  /\ 0 <= getMonth (new_Date d) < 12.
Proof.
  intros Hm. unfold new_Date, previousDay, monthIndex.
  destruct (0 <? getTimezoneOffset d); cbn [andb]; [|lia].
  destruct (Z.ltb_spec 1 (getDate d)) as [H1|H1].
  - destruct (Z.leb_spec (getDate d) 1); cbn [getFullYear getMonth]; lia.
  - destruct (Z.leb_spec (getDate d) 1); [|lia].
    destruct (Z.ltb_spec 0 (getMonth d)); cbn [getFullYear getMonth]; lia.
Qed.

Lemma new_Date_east (d : Date) : getTimezoneOffset d <= 0 -> new_Date d = d.
Proof.
  intros Hd. unfold new_Date.
  destruct (Z.ltb_spec 0 (getTimezoneOffset d)); [lia|reflexivity].
Qed.

(** In the years AD the label of a local date picks the bucket of its
    calendar month. *)
Lemma label_eqb_monthIndex (now : Date) (i : Z) (d : Date) :
  12 <= monthIndex now - i ->
  1 <= getFullYear d -> 0 <= getMonth d < 12 ->
  String.eqb (format_MMM_yyyy (subMonths now i)) (format_MMM_yyyy d)
  = (monthIndex d =? monthIndex now - i).
Proof.
  intros Hw Hy Hm.
  destruct (subMonths_month_index now i) as [Ei Bi].
  assert (Hwy : 1 <= getFullYear (subMonths now i)) by (unfold monthIndex in *; lia).
  destruct (String.eqb_spec (format_MMM_yyyy (subMonths now i)) (format_MMM_yyyy d)) as [E|E].
  - apply format_MMM_yyyy_inj in E; try assumption.
    symmetry. apply Z.eqb_eq. unfold monthIndex in *. lia.
  - symmetry. apply Z.eqb_neq. intros Emi. apply E.
    assert (getFullYear d = getFullYear (subMonths now i)
            /\ getMonth d = getMonth (subMonths now i)) as [Ey Emo]
      by (unfold monthIndex in *; lia).
    unfold format_MMM_yyyy, format_MMM, format_yyyy. rewrite Ey, Emo. reflexivity.
Qed.

(** The buckets by calendar month: when the window and the local dates lie
    in the years AD, the bucket [i] months before the current month sums the
    transactions whose local date lies in that month. *)
Lemma processMonthlyData_by_month (now : Date) txs :
  12 <= monthIndex now - 5 ->
  (forall t, In t txs ->
     1 <= getFullYear (new_Date (date t)) /\ 0 <= getMonth (new_Date (date t)) < 12) ->
  processMonthlyData now txs
  = map (fun i =>
           {| name := format_MMM_yyyy (subMonths now i);
              income := sumFrom zero (amountsInMonth "income" (monthIndex now - i) txs);
              expense := sumFrom zero (amountsInMonth "expense" (monthIndex now - i) txs) |})
        [5; 4; 3; 2; 1; 0].
Proof.
  intros Hw Htx. rewrite processMonthlyData_closed. unfold windowLabels.
  rewrite map_map. apply map_ext_in. intros i Hi.
  assert (Hi' : 0 <= i <= 5) by (simpl in Hi; lia).
  assert (Hsame : forall ty,
    amountsOf ty (format_MMM_yyyy (subMonths now i)) txs
    = amountsInMonth ty (monthIndex now - i) txs).
  { intros ty. unfold amountsOf, amountsInMonth. f_equal.
    apply List.filter_ext_in. intros t Ht. f_equal.
    destruct (Htx t Ht) as [Hty Htm].
    apply label_eqb_monthIndex; [lia|assumption|assumption]. }
  unfold bucketAfter, emptyBucket; simpl. rewrite !Hsame. reflexivity.
Qed.

(** A transaction whose label is not a label of the window changes nothing. *)
Lemma processMonthlyData_drop (now : Date) txs1 t txs2 :
  ~ In (format_MMM_yyyy (new_Date (date t))) (windowLabels now) ->
  processMonthlyData now (txs1 ++ t :: txs2) = processMonthlyData now (txs1 ++ txs2).
Proof.
  intros Hout. rewrite !processMonthlyData_closed.
  apply map_ext_in. intros k Hk.
  assert (Ek : String.eqb k (format_MMM_yyyy (new_Date (date t))) = false).
  { destruct (String.eqb_spec k (format_MMM_yyyy (new_Date (date t))));
      [subst; contradiction|reflexivity]. }
  unfold bucketAfter. rewrite !amountsOf_app.
  rewrite !amountsOf_skip by (rewrite Ek; apply andb_false_r).
  reflexivity.
Qed.

(** A transaction whose local month lies outside the window changes
    nothing. *)
Lemma processMonthlyData_drop_month (now : Date) txs1 t txs2 :
  12 <= monthIndex now - 5 ->
  1 <= getFullYear (new_Date (date t)) -> 0 <= getMonth (new_Date (date t)) < 12 ->
  monthIndex (new_Date (date t)) < monthIndex now - 5
  \/ monthIndex now < monthIndex (new_Date (date t)) ->
  processMonthlyData now (txs1 ++ t :: txs2) = processMonthlyData now (txs1 ++ txs2).
Proof.
  intros Hw Hy Hm Hout. apply processMonthlyData_drop.
  unfold windowLabels. rewrite in_map_iff. intros (i & E & Hi).
  assert (Hi' : 0 <= i <= 5) by (simpl in Hi; lia).
  apply String.eqb_eq in E.
  rewrite label_eqb_monthIndex in E by (assumption || lia).
  apply Z.eqb_eq in E. lia.
Qed.

End MonthlyFacts.

(** The month label in the words of the specification: the short name of
    the month, a space, and the year, for the calendar month of number [mi]
    in the years 1000 to 9999. *)
Definition decimal (n : Z) : string := NilZero.string_of_uint (N.to_uint (Z.to_N n)).

Definition monthLabel (mi : Z) : string :=
  nth (Z.to_nat (mi mod 12))
      ["Jan"; "Feb"; "Mar"; "Apr"; "May"; "Jun"; "Jul"; "Aug"; "Sep"; "Oct"; "Nov"; "Dec"] ""
  ++ " " ++ decimal (mi / 12).

Lemma addLeadingZeros_four_digits (y : Z) :
  1000 <= y <= 9999 -> addLeadingZeros y 4 = decimal y.
Proof.
  intros Hy.
  assert (Hall : forallb (fun i => String.eqb (addLeadingZeros (1000 + Z.of_nat i) 4)
                                               (decimal (1000 + Z.of_nat i)))
                   (seq 0 (Z.to_nat 9000)) = true) by (vm_compute; reflexivity).
  rewrite forallb_forall in Hall.
  specialize (Hall (Z.to_nat (y - 1000))).
  rewrite Z2Nat.id in Hall by lia.
  replace (1000 + (y - 1000)) with y in Hall by lia.
  apply String.eqb_eq, Hall, in_seq. lia.
Qed.

Lemma format_MMM_yyyy_monthLabel (d : Date) :
  1000 <= getFullYear d <= 9999 -> 0 <= getMonth d < 12 ->
  format_MMM_yyyy d = monthLabel (monthIndex d).
Proof.
  intros Hy Hm. unfold format_MMM_yyyy, format_MMM, format_yyyy, monthLabel, monthIndex.
  replace ((getFullYear d * 12 + getMonth d) mod 12) with (getMonth d)
    by (apply Z.mod_unique with (q := getFullYear d); lia).
  replace ((getFullYear d * 12 + getMonth d) / 12) with (getFullYear d)
    by (apply Z.div_unique with (r := getMonth d); lia).
  destruct (Z.gtb_spec (getFullYear d) 0); [|lia].
  rewrite addLeadingZeros_four_digits by lia. reflexivity.
Qed.

Lemma windowLabels_monthLabel (now : Date) :
  12000 <= monthIndex now - 5 -> monthIndex now < 120000 ->
  windowLabels now
  = map monthLabel [monthIndex now - 5; monthIndex now - 4; monthIndex now - 3;
                    monthIndex now - 2; monthIndex now - 1; monthIndex now].
Proof.
  intros Hlo Hhi. unfold windowLabels.
  assert (E : forall i, 0 <= i <= 5 ->
            format_MMM_yyyy (subMonths now i) = monthLabel (monthIndex now - i)).
  { intros i Hi. destruct (subMonths_month_index now i) as [Ei Bi].
    rewrite format_MMM_yyyy_monthLabel by (unfold monthIndex in *; lia).
    unfold monthIndex in *. rewrite Ei. reflexivity. }
  cbn [map]. rewrite !E by lia. rewrite Z.sub_0_r. reflexivity.
Qed.

Module Sample.
Import Reports.

Definition mkDate (y m d : Z) : Date :=
  {| getFullYear := y; getMonth := m; getDate := d |}.

(** 15 June 2024. *)
Definition now : Date := mkDate 2024 5 15.

Definition tx {num} (ty : string) (a : num) (d : Date) : @Transaction num :=
  {| type := ty; amount := a; date := d; category := None |}.

(** Incomes of 0.1 in January and of 0.2 and 0.3 in February 2024, as the
    binary64 numbers closest to these decimals. *)
Definition tenths : list (@Transaction float) :=
  [tx "income" 0x1.999999999999ap-4%float (mkDate 2024 0 10);
   tx "income" 0x1.999999999999ap-3%float (mkDate 2024 1 10);
   tx "income" 0x1.3333333333333p-2%float (mkDate 2024 1 11)].

(** The six buckets of June 2024 with the given incomes, no expense. *)
Definition buckets (jan feb mar apr may jun : float) : list (@ChartData float) :=
  [{| name := "Jan 2024"; income := jan; expense := 0%float |};
   {| name := "Feb 2024"; income := feb; expense := 0%float |};
   {| name := "Mar 2024"; income := mar; expense := 0%float |};
   {| name := "Apr 2024"; income := apr; expense := 0%float |};
   {| name := "May 2024"; income := may; expense := 0%float |};
   {| name := "Jun 2024"; income := jun; expense := 0%float |}].

End Sample.

(** C1.  For every number system, time zone, clock and transaction list
    the monthly bucketing yields six buckets, oldest first, one per calendar
    month from five months before the current month to the current month;
    in the years 1000 to 9999 their names are the short month name and the
    year of these months; with no transaction every bucket is 0/0; the income
    (expense) of a bucket is the sum, from 0 and in list order, of the
    amounts of the income (expense) transactions whose local date lies in
    the month of the bucket, and a transaction whose local date lies in a
    month outside the window changes nothing.  The function is total.  The
    local date is the stored date where local time is at or ahead of UTC.
    Where local time is behind UTC it is the day before, so a transaction
    dated on the first of a month is counted in the month before: in Sao
    Paulo, on 15 June 2024, an income of 100 dated 2024-07-01, outside the
    window, is added to June, one dated 2024-06-01 is added to May and one
    dated 2024-01-01, inside the window, is left out. *)
Theorem processMonthlyData_six_buckets :
  (forall num (N : JSNumber num) (tz : TimeZone) (now : Date)
          (txs : list (@Reports.Transaction num)),
      let out := Reports.processMonthlyData now txs in
      let mi := monthIndex now in
      length out = 6%nat
      /\ (12000 <= mi - 5 -> mi < 120000 ->
          map Reports.name out
          = map monthLabel [mi - 5; mi - 4; mi - 3; mi - 2; mi - 1; mi])
      /\ List.NoDup (map Reports.name out)
      /\ Reports.processMonthlyData now []
         = map (fun k => {| Reports.name := k; Reports.income := zero;
                            Reports.expense := zero |})
               (map Reports.name out)
      /\ (12 <= mi - 5 ->
          (forall t, In t txs ->
             1 <= getFullYear (new_Date (Reports.date t))
             /\ 0 <= getMonth (new_Date (Reports.date t)) < 12) ->
          map (fun m => (Reports.income m, Reports.expense m)) out
          = map (fun i => (sumFrom zero (amountsInMonth "income" (mi - i) txs),
                           sumFrom zero (amountsInMonth "expense" (mi - i) txs)))
                [5; 4; 3; 2; 1; 0])
      /\ (forall txs1 t txs2,
            12 <= mi - 5 ->
            1 <= getFullYear (new_Date (Reports.date t)) ->
            0 <= getMonth (new_Date (Reports.date t)) < 12 ->
            monthIndex (new_Date (Reports.date t)) < mi - 5
            \/ mi < monthIndex (new_Date (Reports.date t)) ->
            Reports.processMonthlyData now (txs1 ++ t :: txs2)
            = Reports.processMonthlyData now (txs1 ++ txs2))
      /\ (forall d, 0 <= getMonth d < 12 ->
            monthIndex (new_Date d)
            = if (0 <? getTimezoneOffset d) && (getDate d <=? 1)
              then monthIndex d - 1 else monthIndex d)
      /\ (forall d, getTimezoneOffset d <= 0 -> new_Date d = d))
  /\ map Reports.name
       (Reports.processMonthlyData (num := float) (tz := UTC) (Sample.mkDate 2024 1 10) [])
     = ["Sep 2023"; "Oct 2023"; "Nov 2023"; "Dec 2023"; "Jan 2024"; "Feb 2024"]
  /\ Reports.processMonthlyData (tz := America_Sao_Paulo) Sample.now
       [Sample.tx "income" 100%float (Sample.mkDate 2024 6 1)]
     = Sample.buckets 0 0 0 0 0 100
  /\ Reports.processMonthlyData (tz := America_Sao_Paulo) Sample.now
       [Sample.tx "income" 100%float (Sample.mkDate 2024 5 1)]
     = Sample.buckets 0 0 0 0 100 0
  /\ Reports.processMonthlyData (tz := America_Sao_Paulo) Sample.now
       [Sample.tx "income" 100%float (Sample.mkDate 2024 0 1)]
     = Sample.buckets 0 0 0 0 0 0
  /\ Reports.processMonthlyData (tz := UTC) Sample.now
       [Sample.tx "income" 100%float (Sample.mkDate 2024 6 1);
        Sample.tx "income" 100%float (Sample.mkDate 2024 5 1);
        Sample.tx "income" 100%float (Sample.mkDate 2024 0 1)]
     = Sample.buckets 100 0 0 0 0 100.
Proof.
  split.
  { intros num N tz now txs. cbv zeta.
    pose proof (processMonthlyData_names now txs) as Hn.
    split; [rewrite processMonthlyData_closed, length_map; reflexivity|].
    split; [intros Hlo Hhi; rewrite Hn; apply windowLabels_monthLabel; assumption|].
    split; [rewrite Hn; apply windowLabels_NoDup|].
    split; [rewrite Hn, processMonthlyData_closed; reflexivity|].
    split.
    { intros Hw Htx. rewrite (processMonthlyData_by_month now txs Hw Htx), map_map.
      reflexivity. }
    split; [intros txs1 t txs2; apply processMonthlyData_drop_month|].
    split; [intros d Hd; apply monthIndex_new_Date; assumption|].
    intros d; apply new_Date_east. }
  repeat split; vm_compute; reflexivity.
Qed.


(** ** Whole numbers on binary64 *)

(** The binary64 number of the integer [z], rounded to nearest (ties to
    even) when [z] has more than 53 bits: the number that [Number(z)] and
    the literal [z] denote. *)
Definition Number_of_Z (z : Z) : float := SF2Prim (binary_normalize prec emax z 0 false).

Example Number_of_Z_example :
  Number_of_Z 200 = 200%float /\ Number_of_Z (-75) = (-75)%float
  /\ Number_of_Z 0 = 0%float /\ Number_of_Z (2 ^ 53 + 1) = Number_of_Z (2 ^ 53).
Proof. repeat split; vm_compute; reflexivity. Qed.

Lemma digits2_pos_size (p : positive) : digits2_pos p = Pos.size p.
Proof. induction p; simpl; congruence. Qed.

Lemma shiftl_value (p k : positive) : Zpos (Pos.iter xO p k) = Zpos p * 2 ^ Zpos k.
Proof.
  induction k as [|k IH] using Pos.peano_ind.
  - simpl. lia.
  - rewrite Pos.iter_succ, Pos2Z.inj_succ, Z.pow_succ_r by lia.
    rewrite Pos2Z.inj_xO, IH. ring.
Qed.

Lemma shiftl_digits (p k : positive) :
  digits2_pos (Pos.iter xO p k) = (digits2_pos p + k)%positive.
Proof.
  induction k as [|k IH] using Pos.peano_ind.
  - simpl. rewrite Pos.add_1_r. reflexivity.
  - rewrite Pos.iter_succ. simpl. rewrite IH, Pos.add_succ_r. reflexivity.
Qed.

Lemma digits_bounds (p : positive) :
  2 ^ (Zpos (digits2_pos p) - 1) <= Zpos p < 2 ^ Zpos (digits2_pos p).
Proof.
  rewrite digits2_pos_size.
  pose proof (Pos.size_gt p) as Hgt. pose proof (Pos.size_le p) as Hle.
  apply Pos2Z.pos_lt_pos in Hgt. apply Pos2Z.pos_le_pos in Hle.
  rewrite Pos2Z.inj_pow in Hgt, Hle. change (Zpos p~0) with (2 * Zpos p) in Hle.
  split; [|exact Hgt].
  replace (Zpos (Pos.size p)) with (Z.succ (Zpos (Pos.size p) - 1)) in Hle by lia.
  rewrite Z.pow_succ_r in Hle by lia. lia.
Qed.

Lemma iter_pos_iter {A} (f : A -> A) (n : positive) (x : A) :
  SpecFloat.iter_pos f n x = Pos.iter f x n.
Proof.
  revert x. induction n as [n IH|n IH|]; intros x; simpl.
  - rewrite !IH, !Pos.iter_swap. reflexivity.
  - rewrite !IH. reflexivity.
  - reflexivity.
Qed.

Definition exact_record (m : Z) : shr_record :=
  {| shr_m := m; shr_r := false; shr_s := false |}.

Lemma shr_1_double (q : Z) : 0 <= q -> shr_1 (exact_record (2 * q)) = exact_record q.
Proof. destruct q; [reflexivity|reflexivity|lia]. Qed.

Lemma shr_iter (k : positive) (q : Z) :
  0 <= q -> Pos.iter shr_1 (exact_record (2 ^ Zpos k * q)) k = exact_record q.
Proof.
  revert q. induction k as [|k IH] using Pos.peano_ind; intros q Hq.
  - change (2 ^ 1) with 2. simpl Pos.iter. apply shr_1_double. exact Hq.
  - rewrite Pos.iter_succ.
    replace (2 ^ Zpos (Pos.succ k) * q) with (2 ^ Zpos k * (2 * q))
      by (rewrite Pos2Z.inj_succ, Z.pow_succ_r by lia; ring).
    rewrite IH by lia. apply shr_1_double. exact Hq.
Qed.

(** The mantissa of 53 bits of the whole number [zp]. *)
Definition mantissa53 (zp : positive) : positive :=
  match (Zpos (digits2_pos zp) - 53)%Z with
  | Zneg c => Pos.iter xO zp c
  | _ => zp
  end.

Lemma mantissa53_value (zp : positive) :
  Zpos (digits2_pos zp) <= 53 ->
  Zpos (mantissa53 zp) = Zpos zp * 2 ^ (53 - Zpos (digits2_pos zp))
  /\ Zpos (digits2_pos (mantissa53 zp)) = 53.
Proof.
  intros Hd. unfold mantissa53.
  destruct (Zpos (digits2_pos zp) - 53) as [|c|c] eqn:E; try lia.
  - replace (53 - Zpos (digits2_pos zp)) with 0 by lia. simpl. lia.
  - rewrite shiftl_value, shiftl_digits, Pos2Z.inj_add.
    replace (53 - Zpos (digits2_pos zp)) with (Zpos c) by lia. lia.
Qed.

(** Rounding a mantissa of 53 bits changes nothing. *)
Lemma binary_round_aux_53 (s : bool) (m : positive) (e : Z) :
  Zpos (digits2_pos m) = 53 -> -1074 <= e <= 971 ->
  binary_round_aux prec emax s (Zpos m) e loc_Exact = S754_finite s m e.
Proof.
  intros Hd He. unfold binary_round_aux, shr_fexp, fexp, emin, prec, emax.
  cbn [Zdigits2 shr_record_of_loc]. rewrite Hd.
  replace (Z.max (53 + e - 53) (3 - 1024 - 53) - e) with 0 by lia.
  cbn [shr shr_m loc_of_shr_record round_nearest_even Zdigits2 shr_record_of_loc].
  rewrite Hd.
  replace (Z.max (53 + e - 53) (3 - 1024 - 53) - e) with 0 by lia.
  cbn [shr shr_m].
  destruct (Z.leb_spec e (1024 - 53)); [reflexivity|lia].
Qed.

Lemma binary_round_aux_shifted (s : bool) (m n : positive) (e : Z) :
  Zpos (digits2_pos m) = 53 -> -1074 <= e + Zpos n <= 971 ->
  binary_round_aux prec emax s (2 ^ Zpos n * Zpos m) e loc_Exact
  = S754_finite s m (e + Zpos n).
Proof.
  intros Hd He.
  assert (Ep : 2 ^ Zpos n * Zpos m = Zpos (Pos.iter xO m n))
    by (rewrite shiftl_value; ring).
  assert (Hdig : Zdigits2 (2 ^ Zpos n * Zpos m) = 53 + Zpos n).
  { rewrite Ep. cbn [Zdigits2]. rewrite shiftl_digits, Pos2Z.inj_add, Hd. reflexivity. }
  unfold binary_round_aux, shr_fexp, fexp, emin, prec, emax.
  rewrite Hdig. cbn [shr_record_of_loc].
  replace (Z.max (53 + Zpos n + e - 53) (3 - 1024 - 53) - e) with (Zpos n) by lia.
  cbn [shr]. rewrite iter_pos_iter.
  fold (exact_record (2 ^ Zpos n * Zpos m)). rewrite shr_iter by lia.
  cbn [exact_record shr_m loc_of_shr_record round_nearest_even Zdigits2 shr_record_of_loc].
  rewrite Hd.
  replace (Z.max (53 + (e + Zpos n) - 53) (3 - 1024 - 53) - (e + Zpos n)) with 0 by lia.
  cbn [shr shr_m].
  destruct (Z.leb_spec (e + Zpos n) (1024 - 53)); [reflexivity|lia].
Qed.

Lemma digits_whole (zp : positive) : Zpos zp < 2 ^ 53 -> Zpos (digits2_pos zp) <= 53.
Proof.
  intros Hz. destruct (digits_bounds zp) as [Hlo _].
  destruct (Z_le_gt_dec (Zpos (digits2_pos zp)) 53) as [|Hgt]; [assumption|].
  pose proof (Z.pow_le_mono_r 2 53 (Zpos (digits2_pos zp) - 1) ltac:(lia) ltac:(lia)). lia.
Qed.

(** Rounding the whole number [zp], given as [zp * 2 ^ k] with exponent
    [- k], yields its mantissa of 53 bits: nothing is rounded off. *)
Lemma binary_round_whole (s : bool) (p zp : positive) (k : Z) :
  0 <= k -> Zpos p = Zpos zp * 2 ^ k -> Zpos zp < 2 ^ 53 ->
  binary_round prec emax s p (- k)
  = S754_finite s (mantissa53 zp) (Zpos (digits2_pos zp) - 53).
Proof.
  intros Hk Hp Hz.
  pose proof (digits_whole zp Hz) as Hd.
  destruct (mantissa53_value zp Hd) as [Hmv Hmd].
  assert (Hdp : Zpos (digits2_pos p) = Zpos (digits2_pos zp) + k).
  { destruct k as [|kp|kp]; [|clear Hk|lia].
    - rewrite Z.pow_0_r, Z.mul_1_r in Hp. injection Hp as ->. lia.
    - rewrite <- shiftl_value in Hp. injection Hp as ->.
      rewrite shiftl_digits, Pos2Z.inj_add. reflexivity. }
  unfold binary_round, shl_align, fexp, emin, prec, emax. rewrite Hdp.
  replace (Z.max (Zpos (digits2_pos zp) + k + - k - 53) (3 - 1024 - 53))
    with (Zpos (digits2_pos zp) - 53) by lia.
  destruct (Zpos (digits2_pos zp) - 53 - - k) as [|n|c] eqn:E.
  - assert (p = mantissa53 zp) as ->.
    { apply Pos2Z.inj. rewrite Hmv, Hp. f_equal. f_equal. lia. }
    replace (- k) with (Zpos (digits2_pos zp) - 53) by lia.
    apply binary_round_aux_53; [assumption|lia].
  - assert (Ep : Zpos p = 2 ^ Zpos n * Zpos (mantissa53 zp)).
    { rewrite Hmv, Hp. replace k with (Zpos n + (53 - Zpos (digits2_pos zp))) at 1 by lia.
      rewrite Z.pow_add_r by lia. ring. }
    rewrite Ep, binary_round_aux_shifted by (assumption || lia).
    f_equal. lia.
  - assert (Pos.iter xO p c = mantissa53 zp) as ->.
    { apply Pos2Z.inj. rewrite shiftl_value, Hmv, Hp.
      replace (53 - Zpos (digits2_pos zp)) with (k + Zpos c) by lia.
      rewrite Z.pow_add_r by lia. ring. }
    apply binary_round_aux_53; [assumption|lia].
Qed.

(** The binary64 number of a whole number, as a specification float. *)
Definition SF_of_Z (z : Z) : spec_float := binary_normalize prec emax z 0 false.

(** The canonical form of a whole number other than 0. *)
Definition whole_form (s : bool) (zp : positive) : spec_float :=
  S754_finite s (mantissa53 zp) (Zpos (digits2_pos zp) - 53).

Lemma SF_of_Z_pos (zp : positive) :
  Zpos zp < 2 ^ 53 -> SF_of_Z (Zpos zp) = whole_form false zp.
Proof.
  intros Hz. apply (binary_round_whole false zp zp 0); [lia|simpl; lia|assumption].
Qed.

Lemma SF_of_Z_neg (zp : positive) :
  Zpos zp < 2 ^ 53 -> SF_of_Z (Zneg zp) = whole_form true zp.
Proof.
  intros Hz. apply (binary_round_whole true zp zp 0); [lia|simpl; lia|assumption].
Qed.

Lemma whole_form_valid (s : bool) (zp : positive) :
  Zpos zp < 2 ^ 53 -> valid_binary (whole_form s zp) = true.
Proof.
  intros Hz. pose proof (digits_whole zp Hz) as Hd.
  destruct (mantissa53_value zp Hd) as [_ Hmd].
  unfold whole_form. cbn [SpecFloat.valid_binary].
  unfold bounded, canonical_mantissa, fexp, emin, prec, emax.
  rewrite Hmd. apply andb_true_intro. split.
  - apply Z.eqb_eq. lia.
  - apply Z.leb_le. lia.
Qed.

Lemma SF_of_Z_valid (z : Z) : Z.abs z < 2 ^ 53 -> valid_binary (SF_of_Z z) = true.
Proof.
  intros Hz. destruct z as [|zp|zp].
  - reflexivity.
  - rewrite SF_of_Z_pos by lia. apply whole_form_valid. lia.
  - rewrite SF_of_Z_neg by lia. apply whole_form_valid. lia.
Qed.

Lemma binary_normalize_whole (z N k : Z) :
  0 <= k -> N = z * 2 ^ k -> Z.abs z < 2 ^ 53 ->
  binary_normalize prec emax N (- k) false = SF_of_Z z.
Proof.
  intros Hk HN Hz. pose proof (Z.pow_pos_nonneg 2 k ltac:(lia) Hk) as Hpow.
  destruct z as [|zp|zp].
  - subst N. reflexivity.
  - rewrite SF_of_Z_pos by lia. destruct N as [|np|np]; try nia.
    apply binary_round_whole; [assumption|assumption|lia].
  - rewrite SF_of_Z_neg by lia. destruct N as [|np|np]; try nia.
    apply binary_round_whole; [assumption| |lia].
    change (Zneg np) with (- Zpos np) in HN. change (Zneg zp) with (- Zpos zp) in HN. nia.
Qed.

(** The mantissa of a whole number, aligned to a smaller exponent. *)
Lemma shl_align_whole (zp : positive) (ez : Z) :
  Zpos zp < 2 ^ 53 -> ez <= Zpos (digits2_pos zp) - 53 ->
  Zpos (fst (shl_align (mantissa53 zp) (Zpos (digits2_pos zp) - 53) ez))
  = Zpos zp * 2 ^ (- ez).
Proof.
  intros Hz He. pose proof (digits_whole zp Hz) as Hd.
  destruct (mantissa53_value zp Hd) as [Hmv _].
  unfold shl_align.
  destruct (ez - (Zpos (digits2_pos zp) - 53)) as [|n|c] eqn:E; cbn [fst]; try lia.
  - rewrite Hmv. f_equal. f_equal. lia.
  - rewrite shiftl_value, Hmv, <- Z.mul_assoc, <- Z.pow_add_r by lia.
    f_equal. f_equal. lia.
Qed.

Lemma SFadd_whole_forms (sa sb : bool) (ap bp : positive) :
  Zpos ap < 2 ^ 53 -> Zpos bp < 2 ^ 53 ->
  Z.abs (cond_Zopp sa (Zpos ap) + cond_Zopp sb (Zpos bp)) < 2 ^ 53 ->
  SFadd prec emax (whole_form sa ap) (whole_form sb bp)
  = SF_of_Z (cond_Zopp sa (Zpos ap) + cond_Zopp sb (Zpos bp)).
Proof.
  intros Ha Hb Hs. unfold whole_form, SFadd.
  pose proof (digits_whole ap Ha) as Hda. pose proof (digits_whole bp Hb) as Hdb.
  set (ez := Z.min (Zpos (digits2_pos ap) - 53) (Zpos (digits2_pos bp) - 53)).
  rewrite !shl_align_whole by (assumption || (subst ez; lia)).
  replace ez with (- (- ez)) at 3 by lia.
  apply binary_normalize_whole; [subst ez; lia| |assumption].
  destruct sa, sb; cbn [cond_Zopp]; ring.
Qed.

Lemma SFadd_whole (a b : Z) :
  Z.abs a < 2 ^ 53 -> Z.abs b < 2 ^ 53 -> Z.abs (a + b) < 2 ^ 53 ->
  SFadd prec emax (SF_of_Z a) (SF_of_Z b) = SF_of_Z (a + b).
Proof.
  intros Ha Hb Hs.
  destruct a as [|ap|ap], b as [|bp|bp]; rewrite ?Z.add_0_l, ?Z.add_0_r;
    try (rewrite (SF_of_Z_pos ap) by lia); try (rewrite (SF_of_Z_neg ap) by lia);
    try (rewrite (SF_of_Z_pos bp) by lia); try (rewrite (SF_of_Z_neg bp) by lia);
    try reflexivity.
  - apply (SFadd_whole_forms false false ap bp); [lia|lia|exact Hs].
  - apply (SFadd_whole_forms false true ap bp); [lia|lia|exact Hs].
  - apply (SFadd_whole_forms true false ap bp); [lia|lia|exact Hs].
  - apply (SFadd_whole_forms true true ap bp); [lia|lia|exact Hs].
Qed.

Lemma SFsub_as_add (x y : spec_float) :
  SFsub prec emax x y = SFadd prec emax x (SFopp y) \/ exists s, y = S754_zero s.
Proof.
  destruct x as [sx|sx| |sx mx ex], y as [sy|sy| |sy my ey]; eauto; left;
    try reflexivity; destruct sx, sy; reflexivity.
Qed.

Lemma SFopp_SF_of_Z (b : Z) : b <> 0 -> Z.abs b < 2 ^ 53 -> SFopp (SF_of_Z b) = SF_of_Z (- b).
Proof.
  intros Hb0 Hb. destruct b as [|bp|bp]; [contradiction| |].
  - change (- Zpos bp) with (Zneg bp). rewrite SF_of_Z_pos, SF_of_Z_neg by lia. reflexivity.
  - change (- Zneg bp) with (Zpos bp). rewrite SF_of_Z_pos, SF_of_Z_neg by lia. reflexivity.
Qed.

Lemma SFsub_whole (a b : Z) :
  Z.abs a < 2 ^ 53 -> Z.abs b < 2 ^ 53 -> Z.abs (a - b) < 2 ^ 53 ->
  SFsub prec emax (SF_of_Z a) (SF_of_Z b) = SF_of_Z (a - b).
Proof.
  intros Ha Hb Hs. destruct (Z.eq_dec b 0) as [->|Hb0].
  - rewrite Z.sub_0_r. destruct a as [|ap|ap]; [reflexivity| |].
    + rewrite SF_of_Z_pos by lia. reflexivity.
    + rewrite SF_of_Z_neg by lia. reflexivity.
  - destruct (SFsub_as_add (SF_of_Z a) (SF_of_Z b)) as [E|[s E]].
    + rewrite E, SFopp_SF_of_Z by assumption.
      apply SFadd_whole; [assumption|lia|].
      replace (a + - b) with (a - b) by lia. exact Hs.
    + exfalso. destruct b as [|bp|bp]; [contradiction| |].
      * rewrite SF_of_Z_pos in E by lia. discriminate E.
      * rewrite SF_of_Z_neg in E by lia. discriminate E.
Qed.

(** Whole numbers below 2^53 in absolute value add and subtract without
    rounding on binary64 numbers. *)
Theorem binary64_add_whole (a b : Z) :
  Z.abs a < 2 ^ 53 -> Z.abs b < 2 ^ 53 -> Z.abs (a + b) < 2 ^ 53 ->
  PrimFloat.add (Number_of_Z a) (Number_of_Z b) = Number_of_Z (a + b).
Proof.
  intros Ha Hb Hs. apply Prim2SF_inj. rewrite add_spec. unfold Number_of_Z.
  rewrite !Prim2SF_SF2Prim by (apply SF_of_Z_valid; assumption).
  apply SFadd_whole; assumption.
Qed.

Theorem binary64_sub_whole (a b : Z) :
  Z.abs a < 2 ^ 53 -> Z.abs b < 2 ^ 53 -> Z.abs (a - b) < 2 ^ 53 ->
  PrimFloat.sub (Number_of_Z a) (Number_of_Z b) = Number_of_Z (a - b).
Proof.
  intros Ha Hb Hs. apply Prim2SF_inj. rewrite sub_spec. unfold Number_of_Z.
  rewrite !Prim2SF_SF2Prim by (apply SF_of_Z_valid; assumption).
  apply SFsub_whole; assumption.
Qed.

(** ** Monthly sums against the global totals *)

Section ExactSums.
Import Reports.
Context {num : Type} `{JSNumber num} {tz : TimeZone}.
Implicit Types (t : @Transaction num) (txs : list (@Transaction num))
  (m : @ChartData num).

(** Addition without rounding: a commutative monoid. *)
Hypothesis add_assoc : forall a b c : num, add a (add b c) = add (add a b) c.
Hypothesis add_comm : forall a b : num, add a b = add b a.
Hypothesis add_zero_l : forall a : num, add zero a = a.

Lemma sumFrom_add (init : num) (l : list num) :
  sumFrom init l = add init (sumFrom zero l).
Proof.
  revert init. induction l as [|a l IH]; intros init; unfold sumFrom in *; simpl.
  - rewrite add_comm, add_zero_l. reflexivity.
  - rewrite IH, (IH (add zero a)), add_zero_l, add_assoc. reflexivity.
Qed.

Lemma sumFrom_cons (a : num) (l : list num) :
  sumFrom zero (a :: l) = add a (sumFrom zero l).
Proof.
  unfold sumFrom at 1; simpl. fold (sumFrom (add zero a) l).
  rewrite sumFrom_add, add_zero_l. reflexivity.
Qed.

Lemma sumFrom_snoc (l : list num) (a : num) :
  sumFrom zero (l ++ [a]) = add (sumFrom zero l) a.
Proof. unfold sumFrom. rewrite fold_left_app. reflexivity. Qed.

(** Raising one bucket of a list with distinct names raises the sum. *)
Lemma sum_raise_one (f : ChartData -> num) (g : ChartData -> ChartData)
    (k : string) (a : num) (bs : list ChartData) :
  (forall m, name (g m) = name m) ->
  (forall m, f (g m) = add (f m) a) ->
  List.NoDup (map name bs) -> In k (map name bs) ->
  sumFrom zero (map f (map (fun m => if String.eqb (name m) k then g m else m) bs))
  = add (sumFrom zero (map f bs)) a.
Proof.
  intros Hname Hf. induction bs as [|b bs IH]; cbn [map In]; intros Hnd Hin; [tauto|].
  inversion Hnd as [|? ? Hn Hr]; subst.
  rewrite !sumFrom_cons.
  destruct (String.eqb_spec (name b) k) as [E|E].
  - rewrite Hf. subst k.
    assert (Hid : map (fun m => if String.eqb (name m) (name b) then g m else m) bs = bs).
    { clear -Hn. induction bs as [|c bs IH]; simpl in *; [reflexivity|].
      destruct (String.eqb_spec (name c) (name b)) as [E|E]; [tauto|].
      rewrite IH by tauto. reflexivity. }
    rewrite Hid.
    rewrite <- !add_assoc. f_equal. apply add_comm.
  - destruct Hin as [Hin|Hin]; [contradiction|].
    rewrite IH by assumption. apply add_assoc.
Qed.

Lemma sum_keep (f : ChartData -> num) (g : ChartData -> ChartData)
    (k : string) (bs : list ChartData) :
  (forall m, f (g m) = f m) ->
  map f (map (fun m => if String.eqb (name m) k then g m else m) bs) = map f bs.
Proof.
  intros Hf. rewrite map_map. apply map_ext. intros m.
  destruct (String.eqb (name m) k); [apply Hf|reflexivity].
Qed.

Lemma monthly_income_sum (now : Date) txs :
  (forall t, In t txs -> In (format_MMM_yyyy (new_Date (date t))) (windowLabels now)) ->
  sumFrom zero (map income (processMonthlyData now txs))
  = sumFrom zero (map amount (List.filter (fun t => String.eqb (type t) "income") txs)).
Proof.
  induction txs as [|t txs IH] using rev_ind; intros Hwin.
  - rewrite processMonthlyData_closed. unfold windowLabels, sumFrom; simpl.
    rewrite !add_zero_l. reflexivity.
  - rewrite processMonthlyData_snoc, List.filter_app, map_app. simpl.
    assert (Hin : In (format_MMM_yyyy (new_Date (date t))) (map name (processMonthlyData now txs))).
    { rewrite processMonthlyData_names. apply Hwin, in_or_app. right. left. reflexivity. }
    assert (IH' := IH (fun t' Ht' => Hwin t' (in_or_app _ _ _ (or_introl Ht')))).
    pose proof (windowLabels_NoDup now) as Hnd.
    rewrite <- (processMonthlyData_names now txs) in Hnd.
    unfold applyTo.
    destruct (String.eqb_spec (type t) "income") as [Ei|Ei].
    + simpl. rewrite sumFrom_snoc, <- IH'.
      apply sum_raise_one; auto.
    + rewrite app_nil_r, <- IH'. f_equal.
      destruct (String.eqb (type t) "expense").
      * apply sum_keep. reflexivity.
      * rewrite map_map. apply map_ext. intros m.
        destruct (String.eqb (name m) _); reflexivity.
Qed.

Lemma monthly_expense_sum (now : Date) txs :
  (forall t, In t txs -> In (format_MMM_yyyy (new_Date (date t))) (windowLabels now)) ->
  sumFrom zero (map expense (processMonthlyData now txs))
  = sumFrom zero (map amount (List.filter (fun t => String.eqb (type t) "expense") txs)).
Proof.
  induction txs as [|t txs IH] using rev_ind; intros Hwin.
  - rewrite processMonthlyData_closed. unfold windowLabels, sumFrom; simpl.
    rewrite !add_zero_l. reflexivity.
  - rewrite processMonthlyData_snoc, List.filter_app, map_app. simpl.
    assert (Hin : In (format_MMM_yyyy (new_Date (date t))) (map name (processMonthlyData now txs))).
    { rewrite processMonthlyData_names. apply Hwin, in_or_app. right. left. reflexivity. }
    assert (IH' := IH (fun t' Ht' => Hwin t' (in_or_app _ _ _ (or_introl Ht')))).
    pose proof (windowLabels_NoDup now) as Hnd.
    rewrite <- (processMonthlyData_names now txs) in Hnd.
    unfold applyTo.
    destruct (String.eqb_spec (type t) "income") as [Ei|Ei].
    + rewrite Ei. simpl. rewrite app_nil_r, <- IH'. f_equal.
      apply sum_keep. reflexivity.
    + destruct (String.eqb_spec (type t) "expense") as [Ee|Ee].
      * simpl. rewrite sumFrom_snoc, <- IH'.
        apply sum_raise_one; auto.
      * rewrite app_nil_r, <- IH'. f_equal.
        rewrite map_map. apply map_ext. intros m.
        destruct (String.eqb (name m) _); reflexivity.
Qed.

End ExactSums.

(** Whole numbers with their exact arithmetic; [div] is the quotient rounded
    down, which the aggregates do not use. *)
#[export] Instance exactZ : JSNumber Z := {
  zero := 0;
  hundred := 100;
  add := Z.add;
  sub := Z.sub;
  mul := Z.mul;
  div := Z.div;
  gtb a b := b <? a;
  truthy a := negb (a =? 0)
}.

Lemma exactZ_add_assoc (a b c : Z) : add a (add b c) = add (add a b) c.
Proof. apply Z.add_assoc. Qed.

Lemma exactZ_add_comm (a b : Z) : add a b = add b a.
Proof. apply Z.add_comm. Qed.

Lemma exactZ_add_zero_l (a : Z) : add zero a = a.
Proof. reflexivity. Qed.

(** *** Sums of whole amounts on binary64 *)

(** The sum of the absolute values of a list of whole numbers. *)
Definition absSum (zs : list Z) : Z := fold_right (fun z w => Z.abs z + w) 0 zs.

Lemma absSum_nonneg (zs : list Z) : 0 <= absSum zs.
Proof. induction zs as [|z zs IH]; simpl; lia. Qed.

Lemma absSum_app (l1 l2 : list Z) : absSum (l1 ++ l2) = absSum l1 + absSum l2.
Proof. induction l1 as [|z l1 IH]; simpl; lia. Qed.

Lemma absSum_filter {A} (f : A -> Z) (p : A -> bool) (l : list A) :
  absSum (map f (List.filter p l)) <= absSum (map f l).
Proof.
  induction l as [|x l IH]; simpl; [lia|].
  destruct (p x); simpl; lia.
Qed.

Lemma absSum_filter_disjoint {A} (f : A -> Z) (p q : A -> bool) (l : list A) :
  (forall x, p x && q x = false) ->
  absSum (map f (List.filter p l)) + absSum (map f (List.filter q l)) <= absSum (map f l).
Proof.
  intros Hd. induction l as [|x l IH]; simpl; [lia|].
  specialize (Hd x). destruct (p x), (q x); simpl in *; try discriminate; lia.
Qed.

Lemma absSum_Permutation (l l' : list Z) : Permutation l l' -> absSum l = absSum l'.
Proof. induction 1; simpl; lia. Qed.

Lemma sumFrom_Z_bound (s : Z) (zs : list Z) :
  Z.abs (sumFrom s zs) <= Z.abs s + absSum zs.
Proof.
  revert s. induction zs as [|z zs IH]; intros s; simpl; [lia|].
  specialize (IH (s + z)). lia.
Qed.

(** A running sum of whole numbers is computed without rounding as long as
    the absolute values add up to less than 2^53. *)
Lemma sumFrom_whole (s : Z) (zs : list Z) :
  Z.abs s + absSum zs < 2 ^ 53 ->
  sumFrom (Number_of_Z s) (map Number_of_Z zs) = Number_of_Z (sumFrom s zs).
Proof.
  revert s. induction zs as [|z zs IH]; intros s Hb; [reflexivity|].
  simpl in Hb. pose proof (absSum_nonneg zs).
  unfold sumFrom. cbn [map fold_left]. unfold add at 2 4; cbn [binary64 exactZ].
  rewrite binary64_add_whole by lia.
  apply IH. lia.
Qed.

Lemma sumFrom_zero_whole (zs : list Z) :
  absSum zs < 2 ^ 53 ->
  sumFrom zero (map Number_of_Z zs) = Number_of_Z (sumFrom zero zs).
Proof. intros Hb. apply (sumFrom_whole 0 zs). simpl. lia. Qed.

Section WholeAmounts.
Import Reports.
Context {tz : TimeZone}.
Implicit Types (txs : list (@Transaction Z)).

(** A transaction with a whole amount, as the page receives it: the amount
    is the binary64 number of that whole number. *)
Definition toBinary64 (t : @Transaction Z) : @Transaction float :=
  {| type := type t; amount := Number_of_Z (amount t); date := date t;
     category := category t |}.

Definition bucket64 (m : @ChartData Z) : @ChartData float :=
  {| name := name m; income := Number_of_Z (income m); expense := Number_of_Z (expense m) |}.

Definition stats64 (s : @Stats Z) : @Stats float :=
  {| totalIncome := Number_of_Z (totalIncome s);
     totalExpense := Number_of_Z (totalExpense s);
     netBalance := Number_of_Z (netBalance s) |}.

Lemma filter_toBinary64 (p : forall num, @Transaction num -> bool) txs :
  (forall t, p float (toBinary64 t) = p Z t) ->
  map amount (List.filter (p float) (map toBinary64 txs))
  = map Number_of_Z (map amount (List.filter (p Z) txs)).
Proof.
  intros Hp. induction txs as [|t txs IH]; [reflexivity|].
  cbn [map List.filter]. rewrite Hp.
  destruct (p Z t); cbn [map]; rewrite IH; reflexivity.
Qed.

Lemma amountsOf_toBinary64 (ty k : string) txs :
  amountsOf ty k (map toBinary64 txs) = map Number_of_Z (amountsOf ty k txs).
Proof.
  unfold amountsOf.
  apply (filter_toBinary64
           (fun num t => String.eqb (type t) ty
                         && String.eqb k (format_MMM_yyyy (new_Date (date t))))).
  reflexivity.
Qed.

(** The six buckets of whole amounts, computed on binary64 numbers, are the
    exact buckets. *)
Lemma processMonthlyData_whole (now : Date) txs :
  absSum (map amount txs) < 2 ^ 53 ->
  processMonthlyData now (map toBinary64 txs) = map bucket64 (processMonthlyData now txs).
Proof.
  intros Hb. rewrite !processMonthlyData_closed, map_map.
  apply map_ext. intros k.
  unfold bucketAfter, bucket64, emptyBucket; cbn [name income expense].
  rewrite !amountsOf_toBinary64.
  rewrite !sumFrom_zero_whole; [reflexivity| |].
  - eapply Z.le_lt_trans; [apply absSum_filter|exact Hb].
  - eapply Z.le_lt_trans; [apply absSum_filter|exact Hb].
Qed.

Lemma calculateStats_Z_bounds txs :
  Z.abs (totalIncome (calculateStats txs)) + Z.abs (totalExpense (calculateStats txs))
  <= absSum (map amount txs).
Proof.
  unfold calculateStats; cbn [totalIncome totalExpense]. rewrite !reduce_sum_map.
  pose proof (sumFrom_Z_bound 0
                (map amount (List.filter (fun t => String.eqb (type t) "income") txs))).
  pose proof (sumFrom_Z_bound 0
                (map amount (List.filter (fun t => String.eqb (type t) "expense") txs))).
  pose proof (absSum_filter_disjoint amount
                (fun t : @Transaction Z => String.eqb (type t) "income")
                (fun t => String.eqb (type t) "expense") txs) as Hd.
  cbn [zero exactZ] in *.
  assert (forall t : @Transaction Z,
            String.eqb (type t) "income" && String.eqb (type t) "expense" = false).
  { intros t. destruct (String.eqb_spec (type t) "income") as [E|E]; [|reflexivity].
    rewrite E. reflexivity. }
  specialize (Hd H1). lia.
Qed.

(** The totals of whole amounts, computed on binary64 numbers, are the
    exact totals. *)
Lemma calculateStats_whole txs :
  absSum (map amount txs) < 2 ^ 53 ->
  calculateStats (map toBinary64 txs) = stats64 (calculateStats txs).
Proof.
  intros Hb. pose proof (calculateStats_Z_bounds txs) as Hs.
  unfold calculateStats, stats64 in *.
  cbn [totalIncome totalExpense netBalance] in *. rewrite !reduce_sum_map in *.
  rewrite (filter_toBinary64 (fun num t => String.eqb (type t) "income")) by reflexivity.
  rewrite (filter_toBinary64 (fun num t => String.eqb (type t) "expense")) by reflexivity.
  rewrite !sumFrom_zero_whole.
  - unfold sub at 1; cbn [binary64]. rewrite binary64_sub_whole; [reflexivity|lia|lia|].
    unfold sub; cbn [exactZ]. lia.
  - eapply Z.le_lt_trans; [apply absSum_filter|exact Hb].
  - eapply Z.le_lt_trans; [apply absSum_filter|exact Hb].
Qed.

Lemma absSum_raise_one (f : @ChartData Z -> Z) (g : ChartData -> ChartData)
    (k : string) (delta : Z) (bs : list ChartData) :
  0 <= delta ->
  (forall m, Z.abs (f (g m)) <= Z.abs (f m) + delta) ->
  List.NoDup (map name bs) ->
  absSum (map f (map (fun m => if String.eqb (name m) k then g m else m) bs))
  <= absSum (map f bs) + delta.
Proof.
  intros Hd Hf. induction bs as [|b bs IH]; cbn [map absSum fold_right]; intros Hnd; [lia|].
  inversion Hnd as [|? ? Hn Hr]; subst.
  fold (absSum (map f bs)).
  fold (absSum (map f (map (fun m => if String.eqb (name m) k then g m else m) bs))).
  destruct (String.eqb_spec (name b) k) as [E|E].
  - subst k.
    assert (Hid : map (fun m => if String.eqb (name m) (name b) then g m else m) bs = bs).
    { clear -Hn. induction bs as [|c bs IH]; simpl in *; [reflexivity|].
      destruct (String.eqb_spec (name c) (name b)) as [E|E]; [tauto|].
      rewrite IH by tauto. reflexivity. }
    rewrite Hid. specialize (Hf b). lia.
  - specialize (IH Hr). lia.
Qed.

(** The six exact buckets hold no more than the transactions brought. *)
Lemma processMonthlyData_Z_bounds (now : Date) txs :
  absSum (map income (processMonthlyData now txs))
  + absSum (map expense (processMonthlyData now txs))
  <= absSum (map amount txs).
Proof.
  induction txs as [|t txs IH] using rev_ind.
  - rewrite processMonthlyData_closed. simpl. lia.
  - rewrite processMonthlyData_snoc, map_app, absSum_app. cbn [map absSum fold_right].
    pose proof (windowLabels_NoDup now) as Hnd.
    rewrite <- (processMonthlyData_names now txs) in Hnd.
    set (k := format_MMM_yyyy (new_Date (date t))).
    pose proof (absSum_raise_one income (applyTo t) k
                  (if String.eqb (type t) "income" then Z.abs (amount t) else 0)
                  (processMonthlyData now txs)) as Hi.
    pose proof (absSum_raise_one expense (applyTo t) k
                  (if String.eqb (type t) "income" then 0
                   else if String.eqb (type t) "expense" then Z.abs (amount t) else 0)
                  (processMonthlyData now txs)) as He.
    unfold applyTo in *.
    destruct (String.eqb (type t) "income").
    + assert (Hi' := Hi ltac:(lia) ltac:(intros m; cbn [income]; unfold add; cbn [exactZ]; lia) Hnd).
      assert (He' := He ltac:(lia) ltac:(intros m; cbn [expense]; lia) Hnd).
      lia.
    + destruct (String.eqb (type t) "expense").
      * assert (Hi' := Hi ltac:(lia) ltac:(intros m; cbn [income]; lia) Hnd).
        assert (He' := He ltac:(lia)
                         ltac:(intros m; cbn [expense]; unfold add; cbn [exactZ]; lia) Hnd).
        lia.
      * assert (Hi' := Hi ltac:(lia) ltac:(intros m; lia) Hnd).
        assert (He' := He ltac:(lia) ltac:(intros m; lia) Hnd).
        lia.
Qed.

(** In a time zone at or ahead of UTC, a transaction dated in a month of
    the window has its label among the labels of the window. *)
Lemma label_in_window (now : Date) (d : Date) :
  (forall d', getTimezoneOffset d' <= 0) ->
  12 <= monthIndex now - 5 ->
  0 <= getMonth d < 12 ->
  monthIndex now - 5 <= monthIndex d <= monthIndex now ->
  In (format_MMM_yyyy (new_Date d)) (windowLabels now).
Proof.
  intros Heast Hw Hm Hin. rewrite new_Date_east by apply Heast.
  unfold windowLabels. apply in_map_iff.
  exists (monthIndex now - monthIndex d). split.
  - apply String.eqb_eq. rewrite label_eqb_monthIndex.
    + apply Z.eqb_eq. lia.
    + lia.
    + unfold monthIndex in *. lia.
    + assumption.
  - assert (Hc : monthIndex now - monthIndex d = 5 \/ monthIndex now - monthIndex d = 4
                 \/ monthIndex now - monthIndex d = 3 \/ monthIndex now - monthIndex d = 2
                 \/ monthIndex now - monthIndex d = 1 \/ monthIndex now - monthIndex d = 0)
      by lia.
    simpl. intuition.
Qed.

End WholeAmounts.

(** C4, as amended: in a time zone at or ahead of UTC, when every
    transaction is dated in one of the six months of the window and the
    amounts are whole numbers whose absolute values add up to less than
    2^53, so that no addition rounds, the sum of the six monthly incomes
    equals the total income of [calculateStats], and likewise for
    expenses, on the binary64 numbers that the page computes with. *)
Theorem monthly_sums_equal_totals (tz : TimeZone) (now : Date)
    (txs : list (@Reports.Transaction Z)) :
  (forall d, getTimezoneOffset d <= 0) ->
  12 <= monthIndex now - 5 ->
  (forall t, In t txs ->
     0 <= getMonth (Reports.date t) < 12
     /\ monthIndex now - 5 <= monthIndex (Reports.date t) <= monthIndex now) ->
  absSum (map Reports.amount txs) < 2 ^ 53 ->
  let transactions : list (@Reports.Transaction float) := map toBinary64 txs in
  reduce_sum Reports.income (Reports.processMonthlyData now transactions)
  = Reports.totalIncome (Reports.calculateStats transactions)
  /\ reduce_sum Reports.expense (Reports.processMonthlyData now transactions)
     = Reports.totalExpense (Reports.calculateStats transactions).
Proof.
  intros Heast Hw Hin Hb. cbv zeta.
  assert (Hwin : forall t, In t txs ->
            In (format_MMM_yyyy (new_Date (Reports.date t))) (windowLabels now)).
  { intros t Ht. destruct (Hin t Ht) as [Hm Hmi].
    apply label_in_window; assumption. }
  pose proof (processMonthlyData_Z_bounds now txs) as Hbs.
  pose proof (absSum_nonneg (map Reports.income (Reports.processMonthlyData now txs))).
  pose proof (absSum_nonneg (map Reports.expense (Reports.processMonthlyData now txs))).
  rewrite processMonthlyData_whole, calculateStats_whole by assumption.
  rewrite !reduce_sum_map, !map_map.
  split.
  - rewrite <- (map_map Reports.income Number_of_Z), sumFrom_zero_whole by lia.
    cbn [stats64 Reports.totalIncome]. f_equal.
    rewrite (monthly_income_sum exactZ_add_assoc exactZ_add_comm exactZ_add_zero_l now txs Hwin).
    unfold Reports.calculateStats; cbn [Reports.totalIncome].
    rewrite reduce_sum_map. reflexivity.
  - rewrite <- (map_map Reports.expense Number_of_Z), sumFrom_zero_whole by lia.
    cbn [stats64 Reports.totalExpense]. f_equal.
    rewrite (monthly_expense_sum exactZ_add_assoc exactZ_add_comm exactZ_add_zero_l now txs Hwin).
    unfold Reports.calculateStats; cbn [Reports.totalExpense].
    rewrite reduce_sum_map. reflexivity.
Qed.

Module SampleWhole.
Import Reports.

(** Whole amounts in four months of the window of June 2024. *)
Definition rows : list (@Transaction Z) :=
  [Sample.tx "income" 200 (Sample.mkDate 2024 0 1);
   Sample.tx "expense" 75 (Sample.mkDate 2024 1 10);
   Sample.tx "income" 1250 (Sample.mkDate 2024 4 31);
   Sample.tx "expense" 40 (Sample.mkDate 2024 5 1);
   Sample.tx "income" 9007199254739426 (Sample.mkDate 2024 5 15)].

End SampleWhole.

Lemma monthly_sums_equal_totals_witness :
  let transactions := map toBinary64 SampleWhole.rows in
  reduce_sum Reports.income
    (Reports.processMonthlyData (tz := Asia_Kolkata) Sample.now transactions)
  = Reports.totalIncome (Reports.calculateStats transactions)
  /\ reduce_sum Reports.expense
       (Reports.processMonthlyData (tz := Asia_Kolkata) Sample.now transactions)
     = Reports.totalExpense (Reports.calculateStats transactions).
Proof.
  apply (monthly_sums_equal_totals Asia_Kolkata Sample.now SampleWhole.rows).
  - intros d. simpl. lia.
  - vm_compute. discriminate.
  - intros t Ht. simpl in Ht.
    repeat (destruct Ht as [<-|Ht]; [vm_compute; intuition discriminate|]).
    destruct Ht.
  - vm_compute. reflexivity.
Defined.

(** C4 fails on binary64 numbers: with incomes 0.1 in January and 0.2, 0.3
    in February, all inside the window of June 2024, in the time zone UTC,
    the six monthly incomes add up to 0.6 and the total income is
    0.6000000000000001. *)
Lemma monthly_sums_differ_binary64 :
  (forall t, In t Sample.tenths ->
     monthIndex Sample.now - 5 <= monthIndex (Reports.date t) <= monthIndex Sample.now)
  /\ reduce_sum Reports.income
       (Reports.processMonthlyData (tz := UTC) Sample.now Sample.tenths)
     = 0x1.3333333333333p-1%float
  /\ Reports.totalIncome (Reports.calculateStats Sample.tenths)
     = 0x1.3333333333334p-1%float
  /\ reduce_sum Reports.income
       (Reports.processMonthlyData (tz := UTC) Sample.now Sample.tenths)
     <> Reports.totalIncome (Reports.calculateStats Sample.tenths).
Proof.
  split; [|split; [|split]].
  - intros t Ht. simpl in Ht.
    repeat (destruct Ht as [<-|Ht]; [vm_compute; intuition discriminate|]).
    destruct Ht.
  - vm_compute. reflexivity.
  - vm_compute. reflexivity.
  - intros E.
    apply (f_equal (PrimFloat.ltb 0x1.3333333333333p-1%float)) in E.
    vm_compute in E. discriminate E.
Qed.

(** ** Global statistics *)

Section StatsFacts.
Import Reports.
Context {num : Type} `{JSNumber num}.
Implicit Types (t : @Transaction num) (txs : list (@Transaction num)).

Lemma calculateStats_sums txs :
  totalIncome (calculateStats txs)
  = sumFrom zero (map amount (List.filter (fun t => String.eqb (type t) "income") txs))
  /\ totalExpense (calculateStats txs)
     = sumFrom zero (map amount (List.filter (fun t => String.eqb (type t) "expense") txs))
  /\ netBalance (calculateStats txs)
     = sub (totalIncome (calculateStats txs)) (totalExpense (calculateStats txs)).
Proof.
  unfold calculateStats; simpl. rewrite !reduce_sum_map. auto.
Qed.

Lemma dashboard_sums (ws : option (list (@Dashboard.WalletData num)))
    (rows : list (@Dashboard.StatRow num)) (st : @Dashboard.Stats num) :
  Dashboard.income (Dashboard.fetchData ws (Some rows) st)
  = sumFrom zero (map Dashboard.amount
       (List.filter (fun r => String.eqb (Dashboard.type r) "income") rows))
  /\ Dashboard.expenses (Dashboard.fetchData ws (Some rows) st)
     = sumFrom zero (map Dashboard.amount
          (List.filter (fun r => String.eqb (Dashboard.type r) "expense") rows)).
Proof.
  unfold Dashboard.fetchData; simpl. rewrite !reduce_sum_map. auto.
Qed.

End StatsFacts.

Module SampleStats.

(** The example of the specification: two wallets and two transactions. *)
Definition wallets : list (@Dashboard.WalletData float) :=
  [{| Dashboard.balance := 100%float |}; {| Dashboard.balance := 50%float |}].

Definition rows : list (@Dashboard.StatRow float) :=
  [{| Dashboard.type := "income"; Dashboard.amount := 200%float |};
   {| Dashboard.type := "expense"; Dashboard.amount := 75%float |}].

Definition transactions : list (@Reports.Transaction float) :=
  [Sample.tx "income" 200%float (Sample.mkDate 2024 4 2);
   Sample.tx "expense" 75%float (Sample.mkDate 2024 4 3)].

End SampleStats.

(** C3: for every transaction list the global statistics give total income
    = sum of the amounts of the income transactions, total expense = sum of
    the amounts of the expense transactions and net balance = total income
    minus total expense; on the empty list the net is 0; the dashboard sums
    income and expenses the same way, and on the example with wallets 100
    and 50, an income of 200 and an expense of 75 the figures are total
    balance 150, income 200, expenses 75 and net 125. *)
Theorem global_stats_net_balance :
  (forall num (N : JSNumber num) (txs : list (@Reports.Transaction num)),
      Reports.totalIncome (Reports.calculateStats txs)
      = sumFrom zero (map Reports.amount
           (List.filter (fun t => String.eqb (Reports.type t) "income") txs))
      /\ Reports.totalExpense (Reports.calculateStats txs)
         = sumFrom zero (map Reports.amount
              (List.filter (fun t => String.eqb (Reports.type t) "expense") txs))
      /\ Reports.netBalance (Reports.calculateStats txs)
         = sub (Reports.totalIncome (Reports.calculateStats txs))
               (Reports.totalExpense (Reports.calculateStats txs)))
  /\ (forall num (N : JSNumber num) ws (rows : list (@Dashboard.StatRow num)) st,
         Dashboard.income (Dashboard.fetchData ws (Some rows) st)
         = sumFrom zero (map Dashboard.amount
              (List.filter (fun r => String.eqb (Dashboard.type r) "income") rows))
         /\ Dashboard.expenses (Dashboard.fetchData ws (Some rows) st)
            = sumFrom zero (map Dashboard.amount
                 (List.filter (fun r => String.eqb (Dashboard.type r) "expense") rows)))
  /\ Reports.calculateStats (num := float) []
     = {| Reports.totalIncome := 0%float; Reports.totalExpense := 0%float;
          Reports.netBalance := 0%float |}
  /\ Reports.calculateStats (num := Q) []
     = {| Reports.totalIncome := 0%Q; Reports.totalExpense := 0%Q;
          Reports.netBalance := 0%Q |}
  /\ Dashboard.fetchData (Some SampleStats.wallets) (Some SampleStats.rows)
       Dashboard.initialStats
     = {| Dashboard.totalBalance := 150%float; Dashboard.income := 200%float;
          Dashboard.expenses := 75%float |}
  /\ Reports.calculateStats SampleStats.transactions
     = {| Reports.totalIncome := 200%float; Reports.totalExpense := 75%float;
          Reports.netBalance := 125%float |}.
Proof.
  split; [intros; apply calculateStats_sums|].
  split; [intros; apply dashboard_sums|].
  repeat split; vm_compute; reflexivity.
Qed.

(** ** Transactions of another type *)

Section OtherTypes.
Import Reports.
Context {num : Type} `{JSNumber num} {tz : TimeZone}.
Implicit Types (t : @Transaction num) (txs : list (@Transaction num)).

Lemma addToMonth_other md t :
  type t <> "income" -> type t <> "expense" -> addToMonth md t = md.
Proof.
  intros Hi He. unfold addToMonth.
  destruct (obj_get md _); [|reflexivity].
  destruct (String.eqb_spec (type t) "income"); [contradiction|].
  destruct (String.eqb_spec (type t) "expense"); [contradiction|].
  reflexivity.
Qed.

Lemma filter_drop {A} (p : A -> bool) (l1 l2 : list A) (x : A) :
  p x = false -> List.filter p (l1 ++ x :: l2) = List.filter p (l1 ++ l2).
Proof.
  intros E. rewrite !List.filter_app. simpl. rewrite E. reflexivity.
Qed.

Lemma categoryMapOf_drop txs1 t txs2 :
  isCategorizedExpense t = false ->
  categoryMapOf (txs1 ++ t :: txs2) = categoryMapOf (txs1 ++ txs2).
Proof.
  intros E. unfold categoryMapOf. rewrite filter_drop by assumption. reflexivity.
Qed.

(** C10: a transaction whose type is neither ['income'] nor ['expense']
    leaves every aggregate as it is without it: the six monthly buckets, the
    category map and the category list, and the global totals and net. *)
Theorem other_type_contributes_nothing t (now : Date) txs1 txs2 :
  type t <> "income" -> type t <> "expense" ->
  processMonthlyData now (txs1 ++ t :: txs2) = processMonthlyData now (txs1 ++ txs2)
  /\ categoryMapOf (txs1 ++ t :: txs2) = categoryMapOf (txs1 ++ txs2)
  /\ processCategoryData (txs1 ++ t :: txs2) = processCategoryData (txs1 ++ txs2)
  /\ calculateStats (txs1 ++ t :: txs2) = calculateStats (txs1 ++ txs2).
Proof.
  intros Hi He.
  assert (Ei : String.eqb (type t) "income" = false)
    by (destruct (String.eqb_spec (type t) "income"); [contradiction|reflexivity]).
  assert (Ee : String.eqb (type t) "expense" = false)
    by (destruct (String.eqb_spec (type t) "expense"); [contradiction|reflexivity]).
  assert (Ec : isCategorizedExpense t = false)
    by (unfold isCategorizedExpense; rewrite Ee; reflexivity).
  repeat split.
  - unfold processMonthlyData. rewrite !fold_left_app. simpl.
    rewrite addToMonth_other by assumption. reflexivity.
  - apply categoryMapOf_drop; assumption.
  - unfold processCategoryData. rewrite categoryMapOf_drop by assumption. reflexivity.
  - unfold calculateStats. rewrite !(filter_drop _ txs1 txs2 t) by assumption. reflexivity.
Qed.

End OtherTypes.

Lemma other_type_contributes_nothing_witness :
  let t := Sample.tx "transfer" 40%float (Sample.mkDate 2024 1 20) in
  Reports.processMonthlyData (tz := America_Sao_Paulo) Sample.now
    (Sample.tenths ++ t :: Sample.tenths)
  = Reports.processMonthlyData (tz := America_Sao_Paulo) Sample.now
      (Sample.tenths ++ Sample.tenths)
  /\ Reports.categoryMapOf (Sample.tenths ++ t :: Sample.tenths)
     = Reports.categoryMapOf (Sample.tenths ++ Sample.tenths)
  /\ Reports.processCategoryData (Sample.tenths ++ t :: Sample.tenths)
     = Reports.processCategoryData (Sample.tenths ++ Sample.tenths)
  /\ Reports.calculateStats (Sample.tenths ++ t :: Sample.tenths)
     = Reports.calculateStats (Sample.tenths ++ Sample.tenths).
Proof.
  apply (other_type_contributes_nothing (tz := America_Sao_Paulo)
           (Sample.tx "transfer" 40%float (Sample.mkDate 2024 1 20))
           Sample.now Sample.tenths Sample.tenths); simpl; discriminate.
Defined.

(** ** Category aggregation *)

Section CategoryFacts.
Import Reports.
Context {num : Type} `{JSNumber num}.
Implicit Types (t : @Transaction num) (txs : list (@Transaction num))
  (cm : gmap string (@Slice num)) (k : string).

(** The category name of a transaction that has a category. *)
Definition categoryNameOf t : string :=
  match category t with Some c => category_name c | None => "" end.

(** The colour its category brings: the stored colour, or the first of
    [COLORS] when the stored colour is null or empty. *)
Definition categoryColorOf t : string :=
  or_else (match category t with Some c => category_color c | None => None end) "#3B82F6".

(** The transactions that the aggregation includes under the name [k], in
    the order of the list. *)
Definition groupOf k txs : list Transaction :=
  List.filter (fun t => String.eqb (categoryNameOf t) k)
    (List.filter isCategorizedExpense txs).

Lemma isCategorizedExpense_true t :
  isCategorizedExpense t = true <-> type t = "expense" /\ category t <> None.
Proof.
  unfold isCategorizedExpense. rewrite andb_true_iff, String.eqb_eq, bool_decide_eq_true.
  split; intros [Ht Hc]; split; auto.
  - destruct Hc as [c Hc]. congruence.
  - destruct (category t) as [c|]; [eauto|contradiction].
Qed.

Lemma addToCategory_lookup cm t c k :
  category t = Some c ->
  addToCategory cm t !! k
  = if String.eqb (category_name c) k then
      match cm !! k with
      | Some e => Some {| value := add (value e) (amount t); color := color e |}
      | None =>
          if inherited k then None
          else Some {| value := add zero (amount t); color := categoryColorOf t |}
      end
    else cm !! k.
Proof.
  intros Hc. unfold addToCategory, categoryColorOf. rewrite Hc.
  destruct (String.eqb_spec (category_name c) k) as [->|Hne].
  - rewrite lookup_alter_eq.
    destruct (cm !! k) as [e|] eqn:Hk.
    + rewrite Hk. reflexivity.
    + destruct (inherited k).
      * rewrite Hk. reflexivity.
      * rewrite lookup_insert_eq. reflexivity.
  - rewrite lookup_alter_ne by assumption.
    destruct (cm !! category_name c); [reflexivity|].
    destruct (inherited (category_name c)); [reflexivity|].
    apply lookup_insert_ne. assumption.
Qed.

(** The entry of [k] after the included transactions [l], from the map [cm]. *)
Lemma fold_addToCategory_lookup (l : list Transaction) cm k :
  Forall (fun t => category t <> None) l ->
  fold_left addToCategory l cm !! k
  = let g := List.filter (fun t => String.eqb (categoryNameOf t) k) l in
    match cm !! k with
    | Some e => Some {| value := sumFrom (value e) (map amount g); color := color e |}
    | None =>
        if inherited k then None
        else
          match g with
          | [] => None
          | t0 :: _ =>
              Some {| value := sumFrom zero (map amount g); color := categoryColorOf t0 |}
          end
    end.
Proof.
  intros Hall. revert cm. induction Hall as [|t l Ht Hall IH]; intros cm; simpl.
  - destruct (cm !! k) as [[v c]|]; [reflexivity|]. destruct (inherited k); reflexivity.
  - destruct (category t) as [c|] eqn:Hc; [|contradiction].
    assert (En : categoryNameOf t = category_name c)
      by (unfold categoryNameOf; rewrite Hc; reflexivity).
    rewrite IH. rewrite (addToCategory_lookup cm t c k Hc). rewrite En.
    destruct (String.eqb (category_name c) k).
    + destruct (cm !! k) as [e|]; [reflexivity|].
      destruct (inherited k); reflexivity.
    + reflexivity.
Qed.

(** The category map in closed form: no entry at a name inherited from
    [Object.prototype]; at any other name the group of that name. *)
Lemma categoryMapOf_lookup txs k :
  categoryMapOf txs !! k
  = if inherited k then None
    else
      match groupOf k txs with
      | [] => None
      | t0 :: _ =>
          Some {| value := sumFrom zero (map amount (groupOf k txs));
                  color := categoryColorOf t0 |}
      end.
Proof.
  unfold categoryMapOf, groupOf.
  rewrite fold_addToCategory_lookup.
  - rewrite lookup_empty. reflexivity.
  - apply List.Forall_forall. intros t Ht. apply List.filter_In in Ht.
    destruct Ht as [_ Ht]. apply isCategorizedExpense_true in Ht. tauto.
Qed.

Lemma processCategoryData_elem txs (d : CategoryData) :
  d ∈ processCategoryData txs
  <-> categoryMapOf txs !! cd_name d = Some {| value := cd_value d; color := cd_color d |}.
Proof.
  unfold processCategoryData. rewrite list_elem_of_fmap. split.
  - intros [[k e] [-> Hin]]. apply elem_of_map_to_list in Hin. simpl.
    rewrite Hin. destruct e; reflexivity.
  - intros Hk. exists (cd_name d, {| value := cd_value d; color := cd_color d |}).
    split; [destruct d; reflexivity|]. apply elem_of_map_to_list. assumption.
Qed.

Lemma categoryColorOf_cases t c :
  category t = Some c ->
  (forall s, category_color c = Some s -> s <> "" -> categoryColorOf t = s)
  /\ (category_color c = None \/ category_color c = Some "" ->
      categoryColorOf t = "#3B82F6").
Proof.
  intros Hc. unfold categoryColorOf. rewrite Hc. split.
  - intros s -> Hs. destruct s; [contradiction|reflexivity].
  - intros [->| ->]; reflexivity.
Qed.

Lemma processCategoryData_names_NoDup txs :
  List.NoDup (map cd_name (processCategoryData txs)).
Proof.
  unfold processCategoryData. apply NoDup_ListNoDup.
  assert (E : map cd_name
                ((fun e => {| cd_name := fst e; cd_value := value (snd e);
                              cd_color := color (snd e) |})
                   <$> map_to_list (categoryMapOf txs))
              = (map_to_list (categoryMapOf txs)).*1).
  { induction (map_to_list (categoryMapOf txs)) as [|e l IH]; [reflexivity|].
    cbn [fmap list_fmap map cd_name] in *. f_equal. exact IH. }
  rewrite E. apply NoDup_fst_map_to_list.
Qed.

(** C2, as amended: the category aggregation takes exactly the expense
    transactions that have a category; for every category name that is not
    a name inherited from [Object.prototype] it groups them by that name,
    sums their amounts (from 0, in list order) and gives the bucket the
    colour of the first transaction seen for that name, or [#3B82F6] when
    that colour is null or empty; the output list has exactly the entries of
    the map, one per name; an income transaction or a transaction without
    category changes neither the map nor the list. *)
Theorem category_aggregation txs :
  (forall t, In t (List.filter isCategorizedExpense txs)
             <-> In t txs /\ type t = "expense" /\ category t <> None)
  /\ (forall k,
         inherited k = false ->
         categoryMapOf txs !! k
         = match groupOf k txs with
           | [] => None
           | t0 :: _ =>
               Some {| value := sumFrom zero (map amount (groupOf k txs));
                       color := categoryColorOf t0 |}
           end)
  /\ (forall t c,
         category t = Some c ->
         (forall s, category_color c = Some s -> s <> "" -> categoryColorOf t = s)
         /\ (category_color c = None \/ category_color c = Some "" ->
             categoryColorOf t = "#3B82F6"))
  /\ (forall d : CategoryData,
         d ∈ processCategoryData txs
         <-> categoryMapOf txs !! cd_name d
             = Some {| value := cd_value d; color := cd_color d |})
  /\ List.NoDup (map cd_name (processCategoryData txs))
  /\ (forall txs1 t txs2,
         txs = (txs1 ++ t :: txs2)%list ->
         type t = "income" \/ category t = None ->
         categoryMapOf txs = categoryMapOf (txs1 ++ txs2)
         /\ processCategoryData txs = processCategoryData (txs1 ++ txs2)).
Proof.
  split; [|split; [|split; [|split; [|split]]]].
  - intros t. rewrite List.filter_In, isCategorizedExpense_true. tauto.
  - intros k Hk. rewrite categoryMapOf_lookup, Hk. reflexivity.
  - apply categoryColorOf_cases.
  - apply processCategoryData_elem.
  - apply processCategoryData_names_NoDup.
  - intros txs1 t txs2 -> Hex.
    assert (Ec : isCategorizedExpense t = false).
    { apply not_true_is_false. rewrite isCategorizedExpense_true.
      intros [Ht Hc]. destruct Hex as [Hi|Hn]; [|contradiction].
      rewrite Ht in Hi. discriminate Hi. }
    unfold processCategoryData. rewrite categoryMapOf_drop by assumption. auto.
Qed.

End CategoryFacts.

Module SampleCategories.
Import Reports.

Definition expenseIn (c : CategoryRef) (a : float) : @Transaction float :=
  {| type := "expense"; amount := a; date := Sample.mkDate 2024 4 2; category := Some c |}.

(** A category whose colour is null, one whose colour is the empty string,
    and two categories that share the name Food. *)
Definition noColor : CategoryRef := {| category_name := "Rent"; category_color := None |}.
Definition emptyColor : CategoryRef := {| category_name := "Fuel"; category_color := Some "" |}.
Definition foodRed : CategoryRef := {| category_name := "Food"; category_color := Some "#EF4444" |}.
Definition foodGreen : CategoryRef := {| category_name := "Food"; category_color := Some "#10B981" |}.

End SampleCategories.

(** C2 as stated fails where the first transaction of a name has no colour:
    the bucket gets the default [#3B82F6], which is not the colour of that
    transaction (null, or the empty string). *)
Lemma category_color_default_applies :
  Reports.color <$> (Reports.categoryMapOf
                       [SampleCategories.expenseIn SampleCategories.noColor 10%float]
                     !! "Rent")
  = Some "#3B82F6"
  /\ Some "#3B82F6" <> Reports.category_color SampleCategories.noColor
  /\ Reports.color <$> (Reports.categoryMapOf
                          [SampleCategories.expenseIn SampleCategories.emptyColor 10%float]
                        !! "Fuel")
     = Some "#3B82F6"
  /\ Some "#3B82F6" <> Reports.category_color SampleCategories.emptyColor.
Proof.
  repeat split; try discriminate; rewrite categoryMapOf_lookup; reflexivity.
Qed.

(** Two categories that share a name make one bucket, with the colour of
    the first. *)
Example categories_merge_by_name :
  Reports.categoryMapOf
    [SampleCategories.expenseIn SampleCategories.foodRed 10%float;
     Sample.tx "income" 99%float (Sample.mkDate 2024 4 2);
     SampleCategories.expenseIn SampleCategories.foodGreen 5%float] !! "Food"
  = Some {| Reports.value := 15%float; Reports.color := "#EF4444" |}.
Proof. rewrite categoryMapOf_lookup. vm_compute. reflexivity. Qed.

(** ** Transaction form *)

Section FormFacts.
Import Transactions.

(** C8: whatever the form holds, switching its type sets the selected
    category to the empty value and the type to the new one, keeps the
    other fields, and leaves as selectable categories exactly those whose
    type is the new type; the Income and Expense buttons are the two
    instances. *)
Theorem switching_type_clears_category
    (formData : FormData) (categories : list Category) (newType : string) :
  let formData' := setType newType formData in
  category_id formData' = ""
  /\ type formData' = newType
  /\ (amount formData', description formData', date formData', wallet_id formData')
     = (amount formData, description formData, date formData, wallet_id formData)
  /\ availableCategories categories formData'
     = List.filter (fun c => String.eqb (cat_type c) newType) categories
  /\ (forall c, In c (availableCategories categories formData')
                <-> In c categories /\ cat_type c = newType)
  /\ categoryOptions categories formData'
     = "" :: map cat_id (List.filter (fun c => String.eqb (cat_type c) newType) categories)
  /\ onClickIncome formData = setType "income" formData
  /\ onClickExpense formData = setType "expense" formData.
Proof.
  cbv zeta. unfold categoryOptions, availableCategories, onClickIncome, onClickExpense.
  simpl.
  split; [reflexivity|]. split; [reflexivity|]. split; [reflexivity|].
  split; [reflexivity|]. split; [|repeat split].
  intros c. rewrite List.filter_In, String.eqb_eq. tauto.
Qed.

End FormFacts.

Example switching_type_example :
  let cats := [{| Transactions.cat_id := "c1"; Transactions.cat_name := "Salary";
                  Transactions.cat_type := "income" |};
               {| Transactions.cat_id := "c2"; Transactions.cat_name := "Food";
                  Transactions.cat_type := "expense" |}] in
  let form := {| Transactions.type := "expense"; Transactions.amount := "12.50";
                 Transactions.description := "Lunch"; Transactions.date := "2024-05-02";
                 Transactions.wallet_id := "w1"; Transactions.category_id := "c2" |} in
  Transactions.categoryOptions cats (Transactions.onClickIncome form) = [""; "c1"]
  /\ Transactions.category_id (Transactions.onClickIncome form) = "".
Proof. split; reflexivity. Qed.

(** ** The savings rate of the assistant *)

(** The binary64 numbers with another division. *)
Definition withDiv (d : float -> float -> float) : JSNumber float :=
  {| zero := 0%float;
     hundred := 100%float;
     add := PrimFloat.add;
     sub := PrimFloat.sub;
     mul := PrimFloat.mul;
     div := d;
     gtb a b := PrimFloat.ltb b a;
     truthy a := negb (PrimFloat.is_zero a || PrimFloat.is_nan a) |}.

Lemma positive_not_zero (x : float) :
  PrimFloat.ltb 0 x = true -> PrimFloat.is_zero x = false.
Proof.
  unfold PrimFloat.is_zero. rewrite FloatAxioms.ltb_spec, FloatAxioms.eqb_spec.
  change (Prim2SF 0) with (S754_zero false).
  change (Prim2SF PrimFloat.zero) with (S754_zero false).
  unfold SFltb, SFeqb.
  destruct (Prim2SF x) as [s|s| |s m e]; simpl; try destruct s; simpl;
    intros E; first [discriminate E | reflexivity].
Qed.

Section SavingsRate.
Import AIAssistant.

(** C9: the division of the savings branch is guarded.  For every number
    system, the rate is (income - expenses) / income * 100 when
    [recentIncome > 0] holds and 0 otherwise; on binary64 numbers a recent
    income of 0 (or -0) gives the rate 0, and the rate does not depend on
    what division yields for a zero denominator: it is never evaluated
    there.  The reply prints this rate. *)
Theorem savingsRate_guarded :
  (forall num (N : JSNumber num) (context : @FinancialContext num),
      (gtb (recentIncome context) zero = true ->
       savingsRate context
       = mul (div (sub (recentIncome context) (recentExpenses context))
                  (recentIncome context)) hundred)
      /\ (gtb (recentIncome context) zero = false -> savingsRate context = zero))
  /\ (forall context : @FinancialContext float,
         recentIncome context = 0%float \/ recentIncome context = (-0)%float ->
         savingsRate context = 0%float)
  /\ (forall (context : @FinancialContext float) (d : float -> float -> float),
         (forall a b, PrimFloat.is_zero b = false -> d a b = PrimFloat.div a b) ->
         savingsRate (H := withDiv d) context = savingsRate (H := binary64) context)
  /\ (forall num (N : JSNumber num) (fmt fixed : num -> string)
             (context : @FinancialContext num),
         savingResponse fmt fixed context
         = "Based on your recent transactions, you're saving approximately R$ "
           ++ fmt (sub (recentIncome context) (recentExpenses context))
           ++ " (" ++ fixed (savingsRate context)
           ++ "% of income). Financial experts recommend saving at least 20% of your income.").
Proof.
  split; [|split; [|split]].
  - intros num N context. unfold savingsRate, savings.
    split; intros ->; reflexivity.
  - intros context [E|E]; unfold savingsRate; rewrite E; reflexivity.
  - intros context d Hd. unfold savingsRate, savings. simpl.
    destruct (PrimFloat.ltb 0 (recentIncome context)) eqn:Hpos; [|reflexivity].
    rewrite Hd by (apply positive_not_zero; exact Hpos). reflexivity.
  - intros. reflexivity.
Qed.

End SavingsRate.

Example savingsRate_example :
  AIAssistant.savingsRate
    {| AIAssistant.walletsCount := 2; AIAssistant.totalBalance := 150%float;
       AIAssistant.recentIncome := 200%float; AIAssistant.recentExpenses := 75%float;
       AIAssistant.transactionsCount := 2 |} = 62.5%float
  /\ AIAssistant.savingsRate
       {| AIAssistant.walletsCount := 1; AIAssistant.totalBalance := 10%float;
          AIAssistant.recentIncome := 0%float; AIAssistant.recentExpenses := 75%float;
          AIAssistant.transactionsCount := 1 |} = 0%float.
Proof. split; reflexivity. Qed.

(** ** The assistant's replies *)

Lemma prefix_append (p s : string) : String.prefix p (p ++ s) = true.
Proof.
  induction p as [|c p IH]; [destruct s; reflexivity|].
  rewrite append_String. simpl.
  destruct (ascii_dec c c) as [_|Hn]; [exact IH|contradiction].
Qed.

Lemma prefix_split (p s : string) :
  String.prefix p s = true -> exists r, s = p ++ r.
Proof.
  revert s. induction p as [|c p IH]; intros s; simpl.
  - intros _. exists s. reflexivity.
  - destruct s as [|c' s]; simpl; [discriminate|].
    destruct (ascii_dec c c') as [<-|Hn]; [|discriminate].
    intros E. destruct (IH s E) as [r ->]. exists r. reflexivity.
Qed.

Lemma includes_prefix (s search : string) :
  String.prefix search s = true -> includes s search = true.
Proof. intros E. destruct s; simpl in *; rewrite E; reflexivity. Qed.

(** [includes] finds every occurrence. *)
Lemma includes_append (a search b : string) :
  includes (a ++ search ++ b) search = true.
Proof.
  induction a as [|c a IH].
  - rewrite append_empty_l. apply includes_prefix, prefix_append.
  - rewrite append_String. simpl. rewrite IH.
    destruct search; [reflexivity|].
    destruct (ascii_dec _ _); [|reflexivity].
    destruct (String.prefix _ _); reflexivity.
Qed.

(** [includes] finds occurrences only. *)
Lemma includes_split (s search : string) :
  includes s search = true -> exists a b, s = a ++ search ++ b.
Proof.
  induction s as [|c s IH]; cbn [includes].
  - destruct (String.prefix search "") eqn:E; [|discriminate].
    intros _. destruct (prefix_split _ _ E) as [r Hr]. exists "", r. exact Hr.
  - destruct (String.prefix search (String c s)) eqn:E.
    + intros _. destruct (prefix_split _ _ E) as [r Hr]. exists "", r. exact Hr.
    + intros Hi. destruct (IH Hi) as (a & b & ->). exists (String c a), b. reflexivity.
Qed.

Lemma toLowerCase_append (a b : string) :
  toLowerCase (a ++ b) = toLowerCase a ++ toLowerCase b.
Proof.
  induction a as [|c a IH]; [reflexivity|].
  rewrite !append_String. simpl. rewrite IH, append_String. reflexivity.
Qed.

(** The topics of the specification, in its priority order, each with its
    keywords.  This table follows the words of the specification; the
    theorem below compares it with the chain of tests of the code. *)
Inductive Topic := Balance | Income | Expense | Saving | Wallets | Advice.

Definition keywordTable : list (Topic * list string) :=
  [(Balance, ["balance"; "total"]);
   (Income, ["income"]);
   (Expense, ["expense"; "spending"]);
   (Saving, ["save"; "saving"]);
   (Wallets, ["wallet"]);
   (Advice, ["advice"; "tip"; "help"])].

(** The first topic of the table one of whose keywords occurs in the
    lower-cased message [lowerMessage]. *)
Definition topicOf (lowerMessage : string) : option Topic :=
  option_map fst
    (List.find (fun e => existsb (includes lowerMessage) (snd e)) keywordTable).

Lemma toLowerCase_chars (s : string) :
  list_ascii_of_string (toLowerCase s)
  = map (fun c => let n := nat_of_ascii c in
                  if ((65 <=? n) && (n <=? 90))%nat then ascii_of_nat (n + 32) else c)
        (list_ascii_of_string s).
Proof.
  induction s as [|c s IH]; [reflexivity|].
  cbn [toLowerCase list_ascii_of_string map]. rewrite IH. reflexivity.
Qed.

Lemma includes_occurs (s kw : string) :
  includes s kw = true <-> exists a b, s = a ++ kw ++ b.
Proof.
  split; [apply includes_split|]. intros (a & b & ->). apply includes_append.
Qed.

Section AssistantFacts.
Import AIAssistant.
Context {num : Type} `{JSNumber num}.
Variable toLocaleString_ptBR : num -> string.
Variable toFixed_1 : num -> string.

(** The reply by topic: the chain of tests of the code picks the first topic
    of the table. *)
Lemma generateAIResponse_topic (context : @FinancialContext num) (tipIndex : nat)
    (userMessage : string) :
  generateAIResponse toLocaleString_ptBR toFixed_1 (Some context) tipIndex userMessage
  = match topicOf (toLowerCase userMessage) with
    | Some Balance => balanceResponse toLocaleString_ptBR context
    | Some Income => incomeResponse toLocaleString_ptBR context
    | Some Expense => expenseResponse toLocaleString_ptBR context
    | Some Saving => savingResponse toLocaleString_ptBR toFixed_1 context
    | Some Wallets => walletResponse context
    | Some Advice => nth tipIndex tips ""
    | None => fallbackResponse userMessage
    end.
Proof.
  unfold generateAIResponse, topicOf, keywordTable.
  cbn [List.find existsb snd fst option_map].
  generalize (toLowerCase userMessage) as lower. intros lower.
  rewrite !orb_false_r.
  destruct (includes lower "balance" || includes lower "total"); [reflexivity|].
  destruct (includes lower "income"); [reflexivity|].
  destruct (includes lower "expense" || includes lower "spending"); [reflexivity|].
  destruct (includes lower "save" || includes lower "saving"); [reflexivity|].
  destruct (includes lower "wallet"); [reflexivity|].
  rewrite <- orb_assoc.
  destruct (includes lower "advice" || (includes lower "tip" || includes lower "help"));
    reflexivity.
Qed.

End AssistantFacts.

Module SampleAssistant.

(** A snapshot of two wallets, and stand-ins for the two locale printers. *)
Definition context (wallets : nat) : @AIAssistant.FinancialContext float :=
  {| AIAssistant.walletsCount := wallets; AIAssistant.totalBalance := 150%float;
     AIAssistant.recentIncome := 200%float; AIAssistant.recentExpenses := 75%float;
     AIAssistant.transactionsCount := 2 |}.

Definition reply (wallets : nat) (userMessage : string) : string :=
  AIAssistant.generateAIResponse (fun _ => "150,00") (fun _ => "62.5")
    (Some (context wallets)) 0 userMessage.

End SampleAssistant.

(** C6.  The input is lower-cased, letter by letter (in ASCII text A to Z
    become a to z and every other character stays); a keyword is found
    exactly when it occurs in the lower-cased input; the topic is the first
    in the order below that has a keyword in it, whatever the position of
    the keywords in the input; with a snapshot at hand the reply is the
    template of the first topic, in the order balance/total, income,
    expense/spending, save/saving, wallet, advice/tip/help, one of whose
    keywords occurs in the lower-cased input, each template filled from the
    snapshot, and the generic fallback, which quotes the input unchanged,
    when none occurs; an input that contains "balance" in any letter case
    gets the reply that embeds the formatted total balance.  Without a
    snapshot the reply is the fixed apology. *)
Theorem generateAIResponse_by_priority :
  (forall num (N : JSNumber num) (toLocaleString_ptBR toFixed_1 : num -> string)
          (context : @AIAssistant.FinancialContext num) (tipIndex : nat)
          (userMessage : string),
      let reply := AIAssistant.generateAIResponse toLocaleString_ptBR toFixed_1
                     (Some context) tipIndex userMessage in
      let lower := toLowerCase userMessage in
      let newline := String (ascii_of_nat 10) EmptyString in
      let quote := String (ascii_of_nat 34) EmptyString in
      let wallets := AIAssistant.walletsCount context in
      let income := AIAssistant.recentIncome context in
      let expenses := AIAssistant.recentExpenses context in
      (Forall (fun c => (nat_of_ascii c < 128)%nat) (list_ascii_of_string userMessage) ->
       list_ascii_of_string lower
       = map (fun c => let n := nat_of_ascii c in
                       if ((65 <=? n) && (n <=? 90))%nat then ascii_of_nat (n + 32) else c)
             (list_ascii_of_string userMessage))
      /\ (forall kw, includes lower kw = true <-> exists a b, lower = a ++ kw ++ b)
      /\ topicOf lower
         = (if includes lower "balance" || includes lower "total" then Some Balance
            else if includes lower "income" then Some Income
            else if includes lower "expense" || includes lower "spending" then Some Expense
            else if includes lower "save" || includes lower "saving" then Some Saving
            else if includes lower "wallet" then Some Wallets
            else if includes lower "advice" || includes lower "tip" || includes lower "help"
                 then Some Advice
            else None)
      /\ reply
         = match topicOf lower with
           | Some Balance =>
               "Your current total balance is R$ "
               ++ toLocaleString_ptBR (AIAssistant.totalBalance context)
               ++ " across " ++ nat_toString wallets ++ " wallet"
               ++ (if Nat.eqb wallets 1 then "" else "s") ++ "."
           | Some Income =>
               "Your recent income is R$ " ++ toLocaleString_ptBR income ++ ". "
               ++ (if gtb income expenses
                   then "Great job! Your income is higher than your expenses."
                   else "Consider increasing your income streams or reducing expenses.")
           | Some Expense =>
               "Your recent expenses total R$ " ++ toLocaleString_ptBR expenses ++ ". "
               ++ (if gtb expenses income
                   then "You're spending more than you're earning. Consider reviewing your budget."
                   else "Good job managing your expenses!")
           | Some Saving =>
               "Based on your recent transactions, you're saving approximately R$ "
               ++ toLocaleString_ptBR (sub income expenses)
               ++ " (" ++ toFixed_1 (AIAssistant.savingsRate context)
               ++ "% of income). Financial experts recommend saving at least 20% of your income."
           | Some Wallets =>
               "You currently have " ++ nat_toString wallets ++ " wallet"
               ++ (if Nat.eqb wallets 1 then "" else "s")
               ++ " set up. Consider organizing your finances by creating separate wallets for different purposes like personal, business, or investments."
           | Some Advice =>
               nth tipIndex
                 ["Track every transaction to understand where your money goes.";
                  "Create a budget and stick to it - allocate 50% to needs, 30% to wants, and 20% to savings.";
                  "Build an emergency fund covering 3-6 months of expenses.";
                  "Review your subscriptions and cancel unused ones.";
                  "Use the envelope method - allocate specific amounts to different spending categories."]
                 ""
           | None =>
               "I understand you're asking about " ++ quote ++ userMessage ++ quote
               ++ ". Here's what I can help you with:" ++ newline ++ newline
               ++ "• Check your balance and financial overview" ++ newline
               ++ "• Analyze your income and expenses" ++ newline
               ++ "• Calculate your savings rate" ++ newline
               ++ "• Provide budgeting tips and advice" ++ newline
               ++ "• Help manage your wallets" ++ newline ++ newline
               ++ "Feel free to ask me anything about your finances!"
           end
      /\ (forall a w b, userMessage = a ++ w ++ b -> toLowerCase w = "balance" ->
            reply = "Your current total balance is R$ "
                    ++ toLocaleString_ptBR (AIAssistant.totalBalance context)
                    ++ " across " ++ nat_toString wallets ++ " wallet"
                    ++ (if Nat.eqb wallets 1 then "" else "s") ++ ".")
      /\ ((forall kw, In kw ["balance"; "total"; "income"; "expense"; "spending"; "save";
                              "saving"; "wallet"; "advice"; "tip"; "help"] ->
                       includes lower kw = false) ->
            topicOf lower = None)
      /\ AIAssistant.generateAIResponse toLocaleString_ptBR toFixed_1 None tipIndex userMessage
         = "I apologize, but I'm having trouble accessing your financial data at the moment. Please try again later.")
  /\ toLowerCase "What is my BALANCE? Total: R$ 1.5 [Z@a`z{]"
     = "what is my balance? total: r$ 1.5 [z@a`z{]"
  /\ SampleAssistant.reply 2 "What is my BALANCE and income?"
     = "Your current total balance is R$ 150,00 across 2 wallets."
  /\ SampleAssistant.reply 1 "Balance"
     = "Your current total balance is R$ 150,00 across 1 wallet."
  /\ SampleAssistant.reply 12 "Any Saving Tip for my wallet?"
     = "Based on your recent transactions, you're saving approximately R$ 150,00 (62.5% of income). Financial experts recommend saving at least 20% of your income."
  /\ SampleAssistant.reply 2 "Help: expense before INCOME"
     = "Your recent income is R$ 150,00. Great job! Your income is higher than your expenses."
  /\ SampleAssistant.reply 2 "saving on Spending"
     = "Your recent expenses total R$ 150,00. Good job managing your expenses!"
  /\ SampleAssistant.reply 2 "a tip, please"
     = "Track every transaction to understand where your money goes."
  /\ SampleAssistant.reply 12 "WALLET advice"
     = "You currently have 12 wallets set up. Consider organizing your finances by creating separate wallets for different purposes like personal, business, or investments."
  /\ SampleAssistant.reply 2 "hello there"
     = "I understand you're asking about " ++ String (ascii_of_nat 34) "hello there"
       ++ String (ascii_of_nat 34) ". Here's what I can help you with:"
       ++ String (ascii_of_nat 10) (String (ascii_of_nat 10)
            "• Check your balance and financial overview")
       ++ String (ascii_of_nat 10) "• Analyze your income and expenses"
       ++ String (ascii_of_nat 10) "• Calculate your savings rate"
       ++ String (ascii_of_nat 10) "• Provide budgeting tips and advice"
       ++ String (ascii_of_nat 10) "• Help manage your wallets"
       ++ String (ascii_of_nat 10) (String (ascii_of_nat 10)
            "Feel free to ask me anything about your finances!").
Proof.
  split.
  { intros num N toLocaleString_ptBR toFixed_1 context tipIndex userMessage. cbv zeta.
    split; [intros _; apply toLowerCase_chars|].
    split; [intros kw; apply includes_occurs|].
    split.
    { unfold topicOf, keywordTable. cbn [List.find existsb snd fst].
      generalize (includes (toLowerCase userMessage)). intros found.
      destruct (found "balance"), (found "total"), (found "income"), (found "expense"),
        (found "spending"), (found "save"), (found "saving"), (found "wallet"),
        (found "advice"), (found "tip"), (found "help"); reflexivity. }
    split.
    { rewrite generateAIResponse_topic.
      destruct (topicOf (toLowerCase userMessage)) as [[]|]; reflexivity. }
    split.
    { intros a w b -> Hw. rewrite generateAIResponse_topic.
      unfold topicOf, keywordTable. cbn [List.find existsb snd fst option_map].
      rewrite !toLowerCase_append, Hw, includes_append. reflexivity. }
    split; [|reflexivity].
    intros Hnone. unfold topicOf, keywordTable.
    cbn [List.find existsb snd fst option_map].
    rewrite !Hnone by (simpl; tauto). reflexivity. }
  repeat split; vm_compute; reflexivity.
Qed.

(** ** CSV export *)

(** [s.split(sep)] for a one-character separator: how a reader of the file
    cuts it into lines, and a line into fields. *)
Fixpoint split_on (sep : ascii) (s : string) : list string :=
  match s with
  | EmptyString => [EmptyString]
  | String c r =>
      if Ascii.eqb c sep then EmptyString :: split_on sep r
      else match split_on sep r with
           | [] => [String c EmptyString]
           | h :: t => String c h :: t
           end
  end.

Fixpoint has_char (c : ascii) (s : string) : bool :=
  match s with
  | EmptyString => false
  | String a r => Ascii.eqb a c || has_char c r
  end.

(** The two separators of the file: line feed and comma. *)
Definition is_separator (c : ascii) : Prop := c = ascii_of_nat 10 \/ c = ","%char.

Lemma has_char_append (c : ascii) (a b : string) :
  has_char c (a ++ b) = has_char c a || has_char c b.
Proof.
  induction a as [|x a IH]; [reflexivity|].
  rewrite append_String. simpl. rewrite IH, orb_assoc. reflexivity.
Qed.

Lemma split_on_clean (sep : ascii) (x : string) :
  has_char sep x = false -> split_on sep x = [x].
Proof.
  induction x as [|c x IH]; simpl; [reflexivity|].
  intros E. apply orb_false_elim in E. destruct E as [Ec Ex].
  rewrite Ec, (IH Ex). reflexivity.
Qed.

Lemma split_on_append (sep : ascii) (x y : string) :
  has_char sep x = false ->
  split_on sep (x ++ String sep y) = x :: split_on sep y.
Proof.
  induction x as [|c x IH]; intros E.
  - rewrite append_empty_l. simpl. rewrite Ascii.eqb_refl. reflexivity.
  - simpl in E. apply orb_false_elim in E. destruct E as [Ec Ex].
    rewrite append_String. simpl. rewrite Ec, (IH Ex). reflexivity.
Qed.

Lemma join_cons (sep x y : string) (l : list string) :
  join sep (x :: y :: l) = x ++ sep ++ join sep (y :: l).
Proof. reflexivity. Qed.

(** Cutting a joined list gives the list back when no element holds the
    separator. *)
Lemma split_on_join (sep : ascii) (x : string) (l : list string) :
  Forall (fun y => has_char sep y = false) (x :: l) ->
  split_on sep (join (String sep EmptyString) (x :: l)) = x :: l.
Proof.
  revert x. induction l as [|y l IH]; intros x Hall.
  - inversion Hall; subst. apply split_on_clean. assumption.
  - inversion Hall as [|? ? Hx Hl]; subst.
    rewrite join_cons, append_String, append_empty_l.
    rewrite split_on_append by assumption.
    rewrite (IH y Hl). reflexivity.
Qed.

Lemma digits_clean (c : ascii) (d : Decimal.uint) :
  is_separator c -> has_char c (NilEmpty.string_of_uint d) = false.
Proof.
  intros [-> | ->]; induction d; simpl; auto.
Qed.

Lemma addLeadingZeros_clean (c : ascii) (n : Z) (len : nat) :
  is_separator c -> has_char c (addLeadingZeros n len) = false.
Proof.
  intros Hc. unfold addLeadingZeros.
  assert (Hd : has_char c (NilZero.string_of_uint (N.to_uint (Z.to_N n))) = false).
  { unfold NilZero.string_of_uint.
    destruct (N.to_uint (Z.to_N n)) eqn:E; try (rewrite <- E; apply digits_clean; assumption).
    destruct Hc as [-> | ->]; reflexivity. }
  induction (len - String.length _)%nat as [|k IH]; simpl; [exact Hd|].
  rewrite IH. destruct Hc as [-> | ->]; reflexivity.
Qed.

Lemma format_MMM_clean (c : ascii) (d : Date) :
  is_separator c -> has_char c (format_MMM d) = false.
Proof.
  intros Hc. unfold format_MMM.
  destruct (Z.to_nat (getMonth d)) as [|[|[|[|[|[|[|[|[|[|[|[|[|n]]]]]]]]]]]]];
    destruct Hc as [-> | ->]; reflexivity.
Qed.

Lemma format_MMM_yyyy_clean (c : ascii) (d : Date) :
  is_separator c -> has_char c (format_MMM_yyyy d) = false.
Proof.
  intros Hc. unfold format_MMM_yyyy, format_yyyy.
  rewrite !has_char_append, format_MMM_clean, addLeadingZeros_clean by assumption.
  destruct Hc as [-> | ->]; reflexivity.
Qed.

Section ExportFacts.
Import Reports.
Context {num : Type} `{JSNumber num} {tz : TimeZone}.
Variable Number_toString : num -> string.

(** The text of a number holds neither a line feed nor a comma. *)
Hypothesis Number_toString_clean :
  forall (x : num) (c : ascii), is_separator c -> has_char c (Number_toString x) = false.

Lemma csvRow_fields (row : @ChartData num) :
  has_char ","%char (name row) = false ->
  split_on ","%char (csvRow Number_toString row)
  = [name row; Number_toString (income row); Number_toString (expense row);
     Number_toString (sub (income row) (expense row))].
Proof.
  intros Hn. unfold csvRow. apply split_on_join.
  repeat constructor; try assumption;
    apply Number_toString_clean; right; reflexivity.
Qed.

Lemma csvRow_one_line (row : @ChartData num) :
  has_char (ascii_of_nat 10) (name row) = false ->
  has_char (ascii_of_nat 10) (csvRow Number_toString row) = false.
Proof.
  intros Hn. unfold csvRow. rewrite !join_cons. unfold join; cbn [String.concat].
  rewrite !has_char_append, Hn,
    !(Number_toString_clean _ (ascii_of_nat 10)) by (left; reflexivity).
  reflexivity.
Qed.

Lemma monthly_names_clean (now : Date) (txs : list (@Transaction num))
    (c : ascii) (row : ChartData) :
  is_separator c -> In row (processMonthlyData now txs) -> has_char c (name row) = false.
Proof.
  intros Hc Hin. rewrite processMonthlyData_closed in Hin.
  apply in_map_iff in Hin. destruct Hin as (k & <- & Hk).
  unfold windowLabels in Hk. apply in_map_iff in Hk. destruct Hk as (i & <- & _).
  simpl. apply format_MMM_yyyy_clean. assumption.
Qed.

Lemma exportCSV_lines (today : Date) (monthlyData : list (@ChartData num)) :
  (forall row, In row monthlyData -> has_char (ascii_of_nat 10) (name row) = false) ->
  split_on (ascii_of_nat 10) (csvContent (exportCSV Number_toString today monthlyData))
  = "Month,Income,Expense,Net" :: map (csvRow Number_toString) monthlyData.
Proof.
  intros Hnames. unfold exportCSV; cbn [csvContent]. unfold LF.
  change (join "," ["Month"; "Income"; "Expense"; "Net"]) with "Month,Income,Expense,Net".
  apply split_on_join. constructor; [reflexivity|].
  apply List.Forall_forall. intros line Hl.
  apply in_map_iff in Hl. destruct Hl as (row & <- & Hrow).
  apply csvRow_one_line, Hnames, Hrow.
Qed.

End ExportFacts.

(** Two digits, as [MM] and [dd] print a number from 0 to 99. *)
Definition twoDigits (n : Z) : string := (if n <? 10 then "0" else "") ++ decimal n.

Lemma addLeadingZeros_two_digits (n : Z) :
  0 <= n <= 99 -> addLeadingZeros n 2 = twoDigits n.
Proof.
  intros Hn.
  assert (Hall : forallb (fun i => String.eqb (addLeadingZeros (Z.of_nat i) 2)
                                               (twoDigits (Z.of_nat i)))
                   (seq 0 100) = true) by (vm_compute; reflexivity).
  rewrite forallb_forall in Hall.
  specialize (Hall (Z.to_nat n)). rewrite Z2Nat.id in Hall by lia.
  apply String.eqb_eq, Hall, in_seq. lia.
Qed.

Lemma format_yyyy_MM_dd_text (d : Date) :
  1000 <= getFullYear d <= 9999 -> 0 <= getMonth d < 12 -> 1 <= getDate d <= 31 ->
  format_yyyy_MM_dd d
  = decimal (getFullYear d) ++ "-" ++ twoDigits (getMonth d + 1)
    ++ "-" ++ twoDigits (getDate d).
Proof.
  intros Hy Hm Hd. unfold format_yyyy_MM_dd, format_yyyy.
  destruct (Z.gtb_spec (getFullYear d) 0); [|lia].
  rewrite addLeadingZeros_four_digits, !addLeadingZeros_two_digits by lia.
  reflexivity.
Qed.

Lemma decimal_clean (c : ascii) (n : Z) : is_separator c -> has_char c (decimal n) = false.
Proof. intros Hc. apply (addLeadingZeros_clean c n 0 Hc). Qed.

Module SampleExport.

(** The text of a binary64 number whose value is a whole number below
    10^21, as [Number.prototype.toString] gives it (the examples print no
    other number), and of the numbers that are not finite. *)
Definition wholeNumber_toString (x : float) : string :=
  match Prim2SF x with
  | S754_zero _ => "0"
  | S754_finite s m e =>
      (if s then "-" else "")
      ++ decimal (if e <? 0 then Zpos m / 2 ^ (- e) else Zpos m * 2 ^ e)
  | S754_infinity s => if s then "-Infinity" else "Infinity"
  | S754_nan => "NaN"
  end.

Lemma wholeNumber_toString_clean (x : float) (c : ascii) :
  is_separator c -> has_char c (wholeNumber_toString x) = false.
Proof.
  intros Hc. unfold wholeNumber_toString.
  destruct (Prim2SF x) as [s|s| |s m e].
  - destruct Hc as [-> | ->]; reflexivity.
  - destruct s, Hc as [-> | ->]; reflexivity.
  - destruct Hc as [-> | ->]; reflexivity.
  - rewrite has_char_append, decimal_clean by assumption.
    destruct s, Hc as [-> | ->]; reflexivity.
Qed.

(** The six buckets of the whole amounts of [SampleWhole.rows], in Kolkata
    on 15 June 2024. *)
Definition monthlyData : list (@Reports.ChartData float) :=
  Reports.processMonthlyData (tz := Asia_Kolkata) Sample.now
    (map toBinary64 SampleWhole.rows).

End SampleExport.

(** C5, as amended.  Whatever the view holds, the exported text, cut at
    line feeds, is the header [Month,Income,Expense,Net] followed by one
    line per bucket of the view, in the order of the view; a line is the
    name, the income, the expense and the income minus the expense of its
    bucket, separated by commas; the view that a fetch with data leaves has
    six buckets, oldest month first, so the text then has six data lines;
    the file has type [text/csv] and is named
    [financial-report-<yyyy-MM-dd>.csv] after the local date. *)
Theorem exportCSV_header_and_rows :
  (forall num (N : JSNumber num) (tz : TimeZone) (Number_toString : num -> string)
          (now today : Date) (txs : list (@Reports.Transaction num))
          (state : list (@Reports.ChartData num)),
      (forall (x : num) (c : ascii),
          is_separator c -> has_char c (Number_toString x) = false) ->
      let monthlyData := Reports.processMonthlyData now txs in
      let file := Reports.exportCSV Number_toString today state in
      ((forall row, In row state -> has_char (ascii_of_nat 10) (Reports.name row) = false) ->
       split_on (ascii_of_nat 10) (Reports.csvContent file)
       = "Month,Income,Expense,Net" :: map (Reports.csvRow Number_toString) state)
      /\ (forall row : @Reports.ChartData num,
            Reports.csvRow Number_toString row
            = Reports.name row ++ "," ++ Number_toString (Reports.income row)
              ++ "," ++ Number_toString (Reports.expense row)
              ++ "," ++ Number_toString (sub (Reports.income row) (Reports.expense row)))
      /\ (forall row, has_char ","%char (Reports.name row) = false ->
            split_on ","%char (Reports.csvRow Number_toString row)
            = [Reports.name row; Number_toString (Reports.income row);
               Number_toString (Reports.expense row);
               Number_toString (sub (Reports.income row) (Reports.expense row))])
      /\ split_on (ascii_of_nat 10)
           (Reports.csvContent (Reports.exportCSV Number_toString today monthlyData))
         = "Month,Income,Expense,Net" :: map (Reports.csvRow Number_toString) monthlyData
      /\ length (map (Reports.csvRow Number_toString) monthlyData) = 6%nat
      /\ (12000 <= monthIndex now - 5 -> monthIndex now < 120000 ->
          map Reports.name monthlyData
          = map monthLabel [monthIndex now - 5; monthIndex now - 4; monthIndex now - 3;
                            monthIndex now - 2; monthIndex now - 1; monthIndex now])
      /\ Reports.blob_type file = "text/csv"
      /\ (1000 <= getFullYear today <= 9999 -> 0 <= getMonth today < 12 ->
          1 <= getDate today <= 31 ->
          Reports.download file
          = "financial-report-" ++ decimal (getFullYear today)
            ++ "-" ++ twoDigits (getMonth today + 1)
            ++ "-" ++ twoDigits (getDate today) ++ ".csv"))
  /\ Reports.exportCSV SampleExport.wholeNumber_toString (Sample.mkDate 2024 5 5)
       SampleExport.monthlyData
     = {| Reports.csvContent :=
            "Month,Income,Expense,Net" ++ String (ascii_of_nat 10)
              "Jan 2024,200,0,200" ++ String (ascii_of_nat 10)
              "Feb 2024,0,75,-75" ++ String (ascii_of_nat 10)
              "Mar 2024,0,0,0" ++ String (ascii_of_nat 10)
              "Apr 2024,0,0,0" ++ String (ascii_of_nat 10)
              "May 2024,1250,0,1250" ++ String (ascii_of_nat 10)
              "Jun 2024,9007199254739426,40,9007199254739386";
          Reports.blob_type := "text/csv";
          Reports.download := "financial-report-2024-06-05.csv" |}
  /\ Reports.download
       (Reports.exportCSV SampleExport.wholeNumber_toString (Sample.mkDate 2023 11 31)
          SampleExport.monthlyData)
     = "financial-report-2023-12-31.csv".
Proof.
  split.
  { intros num N tz Number_toString now today txs state Hclean. cbv zeta.
    split; [apply exportCSV_lines; assumption|].
    split; [reflexivity|].
    split; [intros row; apply csvRow_fields; assumption|].
    split.
    { apply exportCSV_lines; [assumption|]. intros row Hrow.
      apply (monthly_names_clean now txs); [left; reflexivity|assumption]. }
    split; [rewrite length_map, processMonthlyData_closed, length_map; reflexivity|].
    split.
    { intros Hlo Hhi. rewrite processMonthlyData_names.
      apply windowLabels_monthLabel; assumption. }
    split; [reflexivity|].
    intros Hy Hm Hd. unfold Reports.exportCSV; cbn [Reports.download].
    rewrite format_yyyy_MM_dd_text by assumption.
    rewrite !append_associative. reflexivity. }
  split; vm_compute; reflexivity.
Qed.

Lemma exportCSV_header_and_rows_witness :
  let monthlyData := SampleExport.monthlyData in
  split_on (ascii_of_nat 10)
    (Reports.csvContent
       (Reports.exportCSV SampleExport.wholeNumber_toString (Sample.mkDate 2024 5 5)
          monthlyData))
  = "Month,Income,Expense,Net"
    :: map (Reports.csvRow SampleExport.wholeNumber_toString) monthlyData
  /\ length (map (Reports.csvRow SampleExport.wholeNumber_toString) monthlyData) = 6%nat.
Proof.
  pose proof (proj1 exportCSV_header_and_rows float binary64 Asia_Kolkata
                SampleExport.wholeNumber_toString Sample.now (Sample.mkDate 2024 5 5)
                (map toBinary64 SampleWhole.rows) []
                SampleExport.wholeNumber_toString_clean) as Hall.
  cbv zeta in Hall. destruct Hall as (_ & _ & _ & Hlines & Hlen & _).
  split; [exact Hlines|exact Hlen].
Defined.

(** ** The snapshot of the assistant *)

Section SnapshotFacts.
Import AIAssistant.
Context {num : Type} `{JSNumber num}.

(** The order of [.order('date', { ascending: false })], the query of the
    dashboard for its recent transactions: latest date first.  The store
    fixes no order among rows of one date; here they come in the reverse of
    their stored order. *)
Definition dateKey (d : Date) : Z :=
  (getFullYear d * 12 + getMonth d) * 32 + getDate d.

Fixpoint insertByDateDesc (t : @Transaction num) (l : list (@Transaction num))
  : list (@Transaction num) :=
  match l with
  | [] => [t]
  | x :: r =>
      if dateKey (date x) <? dateKey (date t) then t :: x :: r
      else x :: insertByDateDesc t r
  end.

Definition orderByDateDesc (l : list (@Transaction num)) : list (@Transaction num) :=
  fold_right insertByDateDesc [] l.

(** The [n] most recent transactions, in the words of the specification. *)
Definition mostRecent (n : nat) (l : list (@Transaction num)) : list (@Transaction num) :=
  firstn n (orderByDateDesc l).

(** What the snapshot holds: the number of wallets, the sum of their
    balances, and the income and expense sums of the first 20 rows of the
    transactions table in the order the store returns them. *)
Lemma getFinancialContext_fields (ws : list (@Wallet num)) (txs : list (@Transaction num)) :
  getFinancialContext ws txs
  = {| walletsCount := length ws;
       totalBalance := sumFrom zero (map balance ws);
       recentIncome :=
         sumFrom zero (map amount
           (List.filter (fun t => String.eqb (type t) "income") (firstn 20 txs)));
       recentExpenses :=
         sumFrom zero (map amount
           (List.filter (fun t => String.eqb (type t) "expense") (firstn 20 txs)));
       transactionsCount := Nat.min 20 (length txs) |}.
Proof.
  unfold getFinancialContext, financialContextOf, limit, select; simpl.
  rewrite !reduce_sum_map, length_firstn. reflexivity.
Qed.

End SnapshotFacts.

Module SampleSnapshot.
Import AIAssistant.

Definition january (day : Z) (a : float) : @Transaction float :=
  {| type := "income"; amount := a; date := Sample.mkDate 2024 0 day |}.

(** Twenty-one incomes, stored oldest first: 100 on 1 January 2024, then 1
    on each day from 2 to 21 January. *)
Definition table : list (@Transaction float) :=
  january 1 100%float :: map (fun i => january (Z.of_nat i) 1%float) (seq 2 20).

End SampleSnapshot.

(** C7 at a store of 21 transactions: the snapshot sums the first 20 rows
    of the table as returned (no [order] is given), here the 20 oldest,
    income 119; the 20 most recent transactions have income 20. *)
Theorem getFinancialContext_takes_first_rows :
  (forall num (N : JSNumber num) (ws : list (@AIAssistant.Wallet num))
          (txs : list (@AIAssistant.Transaction num)),
      AIAssistant.recentIncome (AIAssistant.getFinancialContext ws txs)
      = sumFrom zero (map AIAssistant.amount
           (List.filter (fun t => String.eqb (AIAssistant.type t) "income") (firstn 20 txs)))
      /\ AIAssistant.recentExpenses (AIAssistant.getFinancialContext ws txs)
         = sumFrom zero (map AIAssistant.amount
              (List.filter (fun t => String.eqb (AIAssistant.type t) "expense")
                 (firstn 20 txs)))
      /\ AIAssistant.walletsCount (AIAssistant.getFinancialContext ws txs) = length ws
      /\ AIAssistant.totalBalance (AIAssistant.getFinancialContext ws txs)
         = sumFrom zero (map AIAssistant.balance ws))
  /\ length SampleSnapshot.table = 21%nat
  /\ AIAssistant.recentIncome (AIAssistant.getFinancialContext [] SampleSnapshot.table)
     = 119%float
  /\ reduce_sum AIAssistant.amount
       (List.filter (fun t => String.eqb (AIAssistant.type t) "income")
          (mostRecent 20 SampleSnapshot.table))
     = 20%float
  /\ AIAssistant.recentIncome (AIAssistant.getFinancialContext [] SampleSnapshot.table)
     <> reduce_sum AIAssistant.amount
          (List.filter (fun t => String.eqb (AIAssistant.type t) "income")
             (mostRecent 20 SampleSnapshot.table)).
Proof.
  split.
  { intros num N ws txs. rewrite getFinancialContext_fields. simpl. auto. }
  split; [reflexivity|].
  split; [vm_compute; reflexivity|].
  split; [vm_compute; reflexivity|].
  intros E. apply (f_equal (PrimFloat.ltb 20%float)) in E.
  vm_compute in E. discriminate E.
Qed.

(** * Further properties of the code *)

(** ** Calendar months *)

Section CalendarMonths.
Import Reports.
Context {num : Type} `{JSNumber num} {tz : TimeZone}.

(** The amounts of the transactions of type [ty] dated, in the store, in
    the calendar month of number [mi], in list order. *)
Definition amountsDatedIn (ty : string) (mi : Z) (txs : list (@Transaction num)) : list num :=
  map amount
    (List.filter (fun t => String.eqb (type t) ty && (monthIndex (date t) =? mi)) txs).

(** X1.  In a time zone at or ahead of UTC, when the window lies in the
    years AD and so do the transactions, each bucket holds exactly the
    transactions dated in its calendar month: the bucket [i] months before the current
    month sums those dated in that month of that year, whatever the other
    months of the same name. *)
Theorem buckets_are_calendar_months (now : Date) (txs : list (@Transaction num)) :
  (forall d, getTimezoneOffset d <= 0) ->
  12 <= monthIndex now - 5 ->
  (forall t, In t txs -> 1 <= getFullYear (date t) /\ 0 <= getMonth (date t) < 12) ->
  map (fun m => (income m, expense m)) (processMonthlyData now txs)
  = map (fun i => (sumFrom zero (amountsDatedIn "income" (monthIndex now - i) txs),
                   sumFrom zero (amountsDatedIn "expense" (monthIndex now - i) txs)))
        [5; 4; 3; 2; 1; 0].
Proof.
  intros Heast Hw Htx.
  rewrite processMonthlyData_by_month.
  - rewrite map_map. apply map_ext. intros i. cbn [income expense].
    assert (Hsame : forall ty mi, amountsInMonth ty mi txs = amountsDatedIn ty mi txs).
    { intros ty mi. unfold amountsInMonth, amountsDatedIn. f_equal.
      apply List.filter_ext. intros t. rewrite new_Date_east by apply Heast. reflexivity. }
    rewrite !Hsame. reflexivity.
  - exact Hw.
  - intros t Ht. rewrite new_Date_east by apply Heast. apply Htx, Ht.
Qed.

End CalendarMonths.

Lemma buckets_are_calendar_months_witness :
  map (fun m => (Reports.income m, Reports.expense m))
    (Reports.processMonthlyData (tz := Asia_Kolkata) Sample.now Sample.tenths)
  = map (fun i => (sumFrom zero
                     (amountsDatedIn "income" (monthIndex Sample.now - i) Sample.tenths),
                   sumFrom zero
                     (amountsDatedIn "expense" (monthIndex Sample.now - i) Sample.tenths)))
        [5; 4; 3; 2; 1; 0].
Proof.
  apply (buckets_are_calendar_months (tz := Asia_Kolkata) Sample.now Sample.tenths).
  - intros d. simpl. lia.
  - vm_compute. discriminate.
  - intros t Ht. simpl in Ht.
    repeat (destruct Ht as [<-|Ht]; [simpl; lia|]). destruct Ht.
Defined.


(** ** The category chart *)

Section ChartFacts.
Import Reports.
Context {num : Type} `{JSNumber num}.
Implicit Types (t : @Transaction num) (txs : list (@Transaction num))
  (cm : gmap string (@Slice num)) (k : string).

Lemma categoryMapOf_is_Some txs k :
  is_Some (categoryMapOf txs !! k)
  <-> inherited k = false
      /\ exists t, In t txs /\ isCategorizedExpense t = true /\ categoryNameOf t = k.
Proof.
  rewrite categoryMapOf_lookup. unfold groupOf.
  destruct (inherited k).
  { split; [intros [x Hx]; discriminate Hx|intros [Hk _]; discriminate Hk]. }
  split.
  - intros Hs. split; [reflexivity|].
    destruct (List.filter _ (List.filter isCategorizedExpense txs)) as [|t0 g] eqn:E.
    + destruct Hs as [x Hx]. discriminate Hx.
    + assert (Hin : In t0 (t0 :: g)) by (left; reflexivity).
      rewrite <- E in Hin. apply List.filter_In in Hin. destruct Hin as [Hin Hk].
      apply List.filter_In in Hin. destruct Hin as [Hin Hc].
      apply String.eqb_eq in Hk. eauto.
  - intros (_ & t & Hin & Hc & Hk).
    assert (Hg : In t (List.filter (fun t => String.eqb (categoryNameOf t) k)
                         (List.filter isCategorizedExpense txs))).
    { apply List.filter_In. split; [apply List.filter_In; auto|].
      apply String.eqb_eq. exact Hk. }
    destruct (List.filter _ (List.filter isCategorizedExpense txs)); [destruct Hg|eauto].
Qed.

Lemma processCategoryData_name_In txs k :
  In k (map cd_name (processCategoryData txs)) <-> is_Some (categoryMapOf txs !! k).
Proof.
  rewrite in_map_iff. split.
  - intros (d & <- & Hd). apply list_elem_of_In, processCategoryData_elem in Hd. eauto.
  - intros [[v c] Hk].
    exists {| cd_name := k; cd_value := v; cd_color := c |}. split; [reflexivity|].
    apply list_elem_of_In, processCategoryData_elem. exact Hk.
Qed.

Lemma category_chart_names txs k :
  In k (map cd_name (processCategoryData txs))
  <-> inherited k = false
      /\ exists t, In t txs /\ type t = "expense"
                   /\ exists c, category t = Some c /\ category_name c = k.
Proof.
  rewrite processCategoryData_name_In, categoryMapOf_is_Some. split.
  - intros (Hk & t & Hin & Hc & Hn). split; [exact Hk|]. exists t. split; [assumption|].
    apply isCategorizedExpense_true in Hc. destruct Hc as [Ht Hc]. split; [assumption|].
    unfold categoryNameOf in Hn. destruct (category t) as [c|]; [eauto|contradiction].
  - intros (Hk & t & Hin & Ht & c & Hc & Hn). split; [exact Hk|]. exists t.
    split; [assumption|]. split.
    + apply isCategorizedExpense_true. rewrite Hc. split; [assumption|discriminate].
    + unfold categoryNameOf. rewrite Hc. exact Hn.
Qed.

Lemma category_chart_empty txs :
  length (processCategoryData txs) = 0%nat
  <-> forall t c, In t txs -> type t = "expense" -> category t = Some c ->
                  inherited (category_name c) = true.
Proof.
  split.
  - intros Hlen t c Hin Ht Hc.
    destruct (inherited (category_name c)) eqn:Hk; [reflexivity|].
    assert (Hn : In (category_name c) (map cd_name (processCategoryData txs)))
      by (apply category_chart_names; eauto 8).
    destruct (processCategoryData txs); [destruct Hn|discriminate Hlen].
  - intros Hnone.
    destruct (processCategoryData txs) as [|d l] eqn:E; [reflexivity|].
    assert (Hk : In (cd_name d) (map cd_name (d :: l))) by (left; reflexivity).
    rewrite <- E in Hk.
    apply category_chart_names in Hk. destruct Hk as (Hk & t & Hin & Ht & c & Hc & Hn).
    rewrite <- Hn, (Hnone t c Hin Ht Hc) in Hk. discriminate Hk.
Qed.

(** Addition without rounding. *)
Hypothesis add_assoc : forall a b c : num, add a (add b c) = add (add a b) c.
Hypothesis add_comm : forall a b : num, add a b = add b a.
Hypothesis add_zero_l : forall a : num, add zero a = a.

Lemma sumFrom_Permutation (l l' : list num) :
  Permutation l l' -> sumFrom zero l = sumFrom zero l'.
Proof.
  induction 1 as [|x l l' _ IH|x y l|l l' l'' _ IH1 _ IH2].
  - reflexivity.
  - rewrite !(sumFrom_cons add_assoc add_comm add_zero_l), IH. reflexivity.
  - rewrite !(sumFrom_cons add_assoc add_comm add_zero_l), !add_assoc, (add_comm y x).
    reflexivity.
  - rewrite IH1. exact IH2.
Qed.

(** The values of the slices of a category map, added up. *)
Definition chartTotal cm : num :=
  sumFrom zero (map (fun e => value (snd e)) (map_to_list cm)).

Lemma chartTotal_insert cm k (x : @Slice num) :
  cm !! k = None -> chartTotal (<[k := x]> cm) = add (value x) (chartTotal cm).
Proof.
  intros Hk. unfold chartTotal.
  rewrite (sumFrom_Permutation _ (map (fun e => value (snd e)) ((k, x) :: map_to_list cm))).
  - cbn [map snd]. apply (sumFrom_cons add_assoc add_comm add_zero_l).
  - apply Permutation_map, map_to_list_insert. exact Hk.
Qed.

Lemma chartTotal_addToCategory cm t c :
  category t = Some c -> inherited (category_name c) = false ->
  chartTotal (addToCategory cm t) = add (chartTotal cm) (amount t).
Proof.
  intros Hc Hk. unfold addToCategory. rewrite Hc, Hk.
  destruct (cm !! category_name c) as [e|] eqn:Hl.
  - rewrite <- (insert_delete_id cm (category_name c) e Hl) at 1.
    rewrite alter_insert_eq.
    rewrite chartTotal_insert by apply lookup_delete_eq.
    rewrite <- (insert_delete_id cm (category_name c) e Hl) at 2.
    rewrite chartTotal_insert by apply lookup_delete_eq.
    cbn [value]. rewrite <- !add_assoc. f_equal. apply add_comm.
  - rewrite alter_insert_eq, chartTotal_insert by exact Hl.
    cbn [value]. rewrite add_zero_l. apply add_comm.
Qed.

Lemma chartTotal_fold (l : list (@Transaction num)) cm :
  Forall (fun t => exists c, category t = Some c /\ inherited (category_name c) = false) l ->
  chartTotal (fold_left addToCategory l cm) = sumFrom (chartTotal cm) (map amount l).
Proof.
  intros Hall. revert cm. induction Hall as [|t l Ht Hall IH]; intros cm; [reflexivity|].
  destruct Ht as (c & Hc & Hk).
  cbn [fold_left map]. rewrite IH, (chartTotal_addToCategory cm t c Hc Hk). reflexivity.
Qed.

Lemma processCategoryData_total txs :
  reduce_sum cd_value (processCategoryData txs) = chartTotal (categoryMapOf txs).
Proof.
  rewrite reduce_sum_map. unfold processCategoryData, chartTotal. f_equal.
  induction (map_to_list (categoryMapOf txs)) as [|e l IH]; [reflexivity|].
  cbn [fmap list_fmap map cd_value] in *. f_equal. exact IH.
Qed.

(** With exact addition and no category named like a member of
    [Object.prototype], the slices add up to the categorized expenses. *)
Lemma category_chart_total_exact txs :
  (forall t c, In t txs -> type t = "expense" -> category t = Some c ->
               inherited (category_name c) = false) ->
  chartTotal (categoryMapOf txs)
  = sumFrom zero (map amount (List.filter isCategorizedExpense txs)).
Proof.
  intros Hown. unfold categoryMapOf. rewrite chartTotal_fold.
  - unfold chartTotal. rewrite map_to_list_empty. reflexivity.
  - apply List.Forall_forall. intros t Ht. apply List.filter_In in Ht.
    destruct Ht as [Hin Ht]. apply isCategorizedExpense_true in Ht.
    destruct Ht as [Hty Hc]. destruct (category t) as [c|] eqn:Ec; [|contradiction].
    exists c. split; [reflexivity|]. apply (Hown t c Hin Hty Ec).
Qed.

End ChartFacts.

Module SampleChart.
Import Reports.

Definition spend {num} (name : string) (a : num) : @Transaction num :=
  {| type := "expense"; amount := a; date := Sample.mkDate 2024 4 2;
     category := Some {| category_name := name; category_color := Some "#EF4444" |} |}.

(** Three categorized expenses in two categories, and an income, in whole
    amounts. *)
Definition rows : list (@Transaction Z) :=
  [spend "Food" 25; Sample.tx "income" 100 (Sample.mkDate 2024 4 1);
   spend "Rent" 700; spend "Food" 15].

End SampleChart.

(** X2.  The chart has a slice for a name exactly when some expense
    transaction carries a category of that name and the name is not one that
    every object inherits from [Object.prototype]: an expense whose category
    is named [constructor], [toString], [__proto__] and so on gets no slice.
    The chart is empty, and the page shows its "No expense data available"
    placeholder ([categoryData.length === 0]), exactly when every expense
    that has a category has such a name, in particular when no expense has a
    category. *)
Theorem category_chart_slices :
  (forall num (N : JSNumber num) (txs : list (@Reports.Transaction num)),
      (forall k, In k (map Reports.cd_name (Reports.processCategoryData txs))
                 <-> inherited k = false
                     /\ exists t, In t txs /\ Reports.type t = "expense"
                                  /\ exists c, Reports.category t = Some c
                                               /\ Reports.category_name c = k)
      /\ (length (Reports.processCategoryData txs) = 0%nat
          <-> forall t c, In t txs -> Reports.type t = "expense" ->
                          Reports.category t = Some c ->
                          inherited (Reports.category_name c) = true)
      /\ ((forall t, In t txs -> Reports.type t = "expense" -> Reports.category t = None) ->
          Reports.processCategoryData txs = [])
      /\ (forall k, In k ["constructor"; "toString"; "valueOf"; "hasOwnProperty";
                          "isPrototypeOf"; "propertyIsEnumerable"; "toLocaleString";
                          "__proto__"; "__defineGetter__"; "__defineSetter__";
                          "__lookupGetter__"; "__lookupSetter__"] ->
                    ~ In k (map Reports.cd_name (Reports.processCategoryData txs))))
  /\ (forall k, inherited k = true
                <-> In k ["constructor"; "toString"; "valueOf"; "hasOwnProperty";
                          "isPrototypeOf"; "propertyIsEnumerable"; "toLocaleString";
                          "__proto__"; "__defineGetter__"; "__defineSetter__";
                          "__lookupGetter__"; "__lookupSetter__"])
  /\ Reports.processCategoryData [SampleChart.spend "constructor" 10%float] = []
  /\ Reports.processCategoryData
       [SampleChart.spend "constructor" 10%float; SampleChart.spend "Food" 25%float;
        SampleChart.spend "__proto__" 5%float; SampleChart.spend "Food" 15%float]
     = [{| Reports.cd_name := "Food"; Reports.cd_value := 40%float;
           Reports.cd_color := "#EF4444" |}].
Proof.
  assert (Hinh : forall k, inherited k = true
                <-> In k ["constructor"; "toString"; "valueOf"; "hasOwnProperty";
                          "isPrototypeOf"; "propertyIsEnumerable"; "toLocaleString";
                          "__proto__"; "__defineGetter__"; "__defineSetter__";
                          "__lookupGetter__"; "__lookupSetter__"]).
  { intros k. unfold inherited, Object_prototype. rewrite existsb_exists. split.
    - intros (x & Hx & E). apply String.eqb_eq in E. subst x. simpl in *. tauto.
    - intros Hk. exists k. rewrite String.eqb_refl. split; [simpl in *; tauto|reflexivity]. }
  split; [|split; [exact Hinh|split; vm_compute; reflexivity]].
  intros num N txs.
  split; [intros k; apply category_chart_names|].
  split; [apply category_chart_empty|].
  split.
  { intros Hnone.
    assert (Hlen : length (Reports.processCategoryData txs) = 0%nat).
    { apply category_chart_empty. intros t c Hin Ht Hc.
      rewrite (Hnone t Hin Ht) in Hc. discriminate Hc. }
    destruct (Reports.processCategoryData txs); [reflexivity|discriminate Hlen]. }
  intros k Hk Hin. apply category_chart_names in Hin. destruct Hin as [Hf _].
  apply Hinh in Hk. rewrite Hk in Hf. discriminate Hf.
Qed.

(** *** Whole amounts in the category chart *)

Section WholeChart.
Import Reports.
Implicit Types (txs : list (@Transaction Z)) (cm : gmap string (@Slice Z)).

Definition slice64 (e : @Slice Z) : @Slice float :=
  {| value := Number_of_Z (value e); color := color e |}.

Lemma groupOf_toBinary64 (k : string) txs :
  groupOf k (map toBinary64 txs) = map toBinary64 (groupOf k txs).
Proof.
  unfold groupOf. induction txs as [|t txs IH]; [reflexivity|].
  cbn [map List.filter].
  change (isCategorizedExpense (toBinary64 t)) with (isCategorizedExpense t).
  destruct (isCategorizedExpense t); [|exact IH].
  cbn [map List.filter].
  change (categoryNameOf (toBinary64 t)) with (categoryNameOf t).
  destruct (String.eqb (categoryNameOf t) k); cbn [map]; rewrite IH; reflexivity.
Qed.

(** The category map of whole amounts, computed on binary64 numbers, is the
    exact category map. *)
Lemma categoryMapOf_whole txs :
  absSum (map amount txs) < 2 ^ 53 ->
  categoryMapOf (map toBinary64 txs) = slice64 <$> categoryMapOf txs.
Proof.
  intros Hb. apply map_eq. intros k.
  rewrite lookup_fmap, !categoryMapOf_lookup, groupOf_toBinary64.
  destruct (inherited k); [reflexivity|].
  assert (Hg : absSum (map amount (groupOf k txs)) < 2 ^ 53).
  { unfold groupOf. eapply Z.le_lt_trans; [apply absSum_filter|].
    eapply Z.le_lt_trans; [apply absSum_filter|exact Hb]. }
  assert (Hs : sumFrom zero (map amount (map toBinary64 (groupOf k txs)))
               = Number_of_Z (sumFrom zero (map amount (groupOf k txs)))).
  { rewrite map_map.
    rewrite (map_ext (fun x => amount (toBinary64 x)) (fun x => Number_of_Z (amount x)))
      by reflexivity.
    rewrite <- (map_map amount Number_of_Z).
    apply sumFrom_zero_whole. exact Hg. }
  destruct (groupOf k txs) as [|t0 g]; [reflexivity|].
  cbn [fmap option_fmap option_map]. unfold slice64; cbn [value color].
  rewrite <- Hs. reflexivity.
Qed.

(** The absolute values of the slices of an exact category map. *)
Definition chartAbs cm : Z := absSum (map (fun e => value (snd e)) (map_to_list cm)).

Lemma chartAbs_insert cm (k : string) (x : @Slice Z) :
  cm !! k = None -> chartAbs (<[k := x]> cm) = Z.abs (value x) + chartAbs cm.
Proof.
  intros Hk. unfold chartAbs.
  rewrite (absSum_Permutation _ (map (fun e => value (snd e)) ((k, x) :: map_to_list cm))).
  - reflexivity.
  - apply Permutation_map, map_to_list_insert. exact Hk.
Qed.

Lemma chartAbs_addToCategory cm (t : @Transaction Z) :
  chartAbs (addToCategory cm t) <= chartAbs cm + Z.abs (amount t).
Proof.
  unfold addToCategory. destruct (category t) as [c|]; [|lia].
  destruct (cm !! category_name c) as [e|] eqn:Hl.
  - rewrite <- (insert_delete_id cm (category_name c) e Hl) at 1.
    rewrite alter_insert_eq.
    rewrite chartAbs_insert by apply lookup_delete_eq.
    rewrite <- (insert_delete_id cm (category_name c) e Hl) at 2.
    rewrite chartAbs_insert by apply lookup_delete_eq.
    cbn [value]. unfold add; cbn [exactZ]. lia.
  - destruct (inherited (category_name c)).
    + rewrite alter_id' by exact Hl. lia.
    + rewrite alter_insert_eq, chartAbs_insert by exact Hl.
      cbn [value]. unfold add, zero; cbn [exactZ]. lia.
Qed.

Lemma chartAbs_fold (l : list (@Transaction Z)) cm :
  chartAbs (fold_left addToCategory l cm) <= chartAbs cm + absSum (map amount l).
Proof.
  revert cm. induction l as [|t l IH]; intros cm; cbn [fold_left map absSum fold_right].
  - lia.
  - fold (absSum (map amount l)).
    specialize (IH (addToCategory cm t)). pose proof (chartAbs_addToCategory cm t). lia.
Qed.

Lemma categoryMapOf_Z_bound txs : chartAbs (categoryMapOf txs) <= absSum (map amount txs).
Proof.
  unfold categoryMapOf.
  pose proof (chartAbs_fold (List.filter isCategorizedExpense txs) ∅) as Hf.
  unfold chartAbs at 2 in Hf. rewrite map_to_list_empty in Hf. simpl in Hf.
  pose proof (absSum_filter amount isCategorizedExpense txs). lia.
Qed.

End WholeChart.

(** X3.  For whole amounts whose absolute values add up to less than 2^53,
    when no expense has a category named like a member of
    [Object.prototype], the values of the slices of the chart add up, on
    binary64 numbers, to the sum of the amounts of the expense transactions
    that have a category, whatever the order in which the object lists its
    entries; when every expense transaction has a category this sum is the
    total expense of the page. *)
Theorem category_chart_total (txs : list (@Reports.Transaction Z)) :
  absSum (map Reports.amount txs) < 2 ^ 53 ->
  (forall t c, In t txs -> Reports.type t = "expense" -> Reports.category t = Some c ->
               inherited (Reports.category_name c) = false) ->
  let transactions : list (@Reports.Transaction float) := map toBinary64 txs in
  (forall slices, Permutation slices (Reports.processCategoryData transactions) ->
     reduce_sum Reports.cd_value slices
     = reduce_sum Reports.amount (List.filter Reports.isCategorizedExpense transactions))
  /\ ((forall t, In t txs -> Reports.type t = "expense" -> Reports.category t <> None) ->
      reduce_sum Reports.cd_value (Reports.processCategoryData transactions)
      = Reports.totalExpense (Reports.calculateStats transactions)).
Proof.
  intros Hb Hown. cbv zeta.
  assert (Hsum : forall slices,
            Permutation slices (Reports.processCategoryData (map toBinary64 txs)) ->
            reduce_sum Reports.cd_value slices
            = reduce_sum Reports.amount
                (List.filter Reports.isCategorizedExpense (map toBinary64 txs))).
  { intros slices Hp.
    rewrite !reduce_sum_map.
    rewrite (filter_toBinary64 (fun num => @Reports.isCategorizedExpense num)) by reflexivity.
    rewrite sumFrom_zero_whole
      by (eapply Z.le_lt_trans; [apply absSum_filter|exact Hb]).
    rewrite <- (category_chart_total_exact exactZ_add_assoc exactZ_add_comm
                  exactZ_add_zero_l txs Hown).
    assert (Hvals : Permutation (map Reports.cd_value slices)
                      (map Number_of_Z
                         (map (fun e => Reports.value (snd e))
                            (map_to_list (Reports.categoryMapOf txs))))).
    { etransitivity; [apply Permutation_map, Hp|].
      unfold Reports.processCategoryData.
      rewrite categoryMapOf_whole, map_to_list_fmap by exact Hb.
      induction (map_to_list (Reports.categoryMapOf txs)) as [|e l IH]; [reflexivity|].
      cbn [fmap list_fmap map Reports.cd_value prod_map snd slice64 Reports.value] in *.
      constructor. exact IH. }
    apply Permutation_map_inv in Hvals.
    destruct Hvals as (zs & E & Hzs). rewrite E.
    pose proof (categoryMapOf_Z_bound txs) as Hbound. unfold chartAbs in Hbound.
    rewrite sumFrom_zero_whole
      by (rewrite <- (absSum_Permutation _ _ Hzs); lia).
    f_equal. unfold chartTotal.
    symmetry. apply (sumFrom_Permutation exactZ_add_assoc exactZ_add_comm exactZ_add_zero_l).
    exact Hzs. }
  split; [exact Hsum|].
  intros Hall. rewrite (Hsum _ (Permutation_refl _)).
  unfold Reports.calculateStats; cbn [Reports.totalExpense]. f_equal.
  apply List.filter_ext_in. intros t Ht. unfold Reports.isCategorizedExpense.
  destruct (String.eqb_spec (Reports.type t) "expense") as [Ee|Ee]; [|reflexivity].
  simpl. apply bool_decide_eq_true.
  apply in_map_iff in Ht. destruct Ht as (t0 & <- & Ht0).
  cbn [toBinary64 Reports.category Reports.type] in *.
  destruct (Reports.category t0) as [c|] eqn:Hc; [eauto|].
  exfalso. apply (Hall t0 Ht0 Ee). exact Hc.
Qed.

Lemma category_chart_total_witness :
  let transactions := map toBinary64 SampleChart.rows in
  (forall slices, Permutation slices (Reports.processCategoryData transactions) ->
     reduce_sum Reports.cd_value slices
     = reduce_sum Reports.amount (List.filter Reports.isCategorizedExpense transactions))
  /\ ((forall t, In t SampleChart.rows -> Reports.type t = "expense" ->
                 Reports.category t <> None) ->
      reduce_sum Reports.cd_value (Reports.processCategoryData transactions)
      = Reports.totalExpense (Reports.calculateStats transactions)).
Proof.
  apply (category_chart_total SampleChart.rows).
  - vm_compute. reflexivity.
  - intros t c Ht Hty Hc. simpl in Ht.
    repeat (destruct Ht as [<-|Ht]; [simpl in Hc; first [discriminate Hc
              | injection Hc as <-; reflexivity]|]).
    destruct Ht.
Defined.


(** ** The Net column of the export *)

Section NetColumn.
Import Reports.
Context {num : Type} `{JSNumber num} {tz : TimeZone}.

(** Addition and subtraction without rounding. *)
Hypothesis add_assoc : forall a b c : num, add a (add b c) = add (add a b) c.
Hypothesis add_comm : forall a b : num, add a b = add b a.
Hypothesis add_zero_l : forall a : num, add zero a = a.
Hypothesis sub_add : forall a b c d : num, sub (add a b) (add c d) = add (sub a c) (sub b d).
Hypothesis sub_zero : sub zero zero = zero.

Lemma sum_of_differences {A} (g h : A -> num) (l : list A) :
  sumFrom zero (map (fun x => sub (g x) (h x)) l)
  = sub (sumFrom zero (map g l)) (sumFrom zero (map h l)).
Proof.
  induction l as [|x l IH]; cbn [map].
  - unfold sumFrom; simpl. symmetry. exact sub_zero.
  - rewrite !(sumFrom_cons add_assoc add_comm add_zero_l), IH. symmetry. apply sub_add.
Qed.

Lemma net_column_total_exact (now : Date) (txs : list (@Transaction num)) :
  (forall t, In t txs -> In (format_MMM_yyyy (new_Date (date t))) (windowLabels now)) ->
  sumFrom zero (map (fun row => sub (income row) (expense row)) (processMonthlyData now txs))
  = netBalance (calculateStats txs).
Proof.
  intros Hwin. rewrite sum_of_differences.
  rewrite (monthly_income_sum add_assoc add_comm add_zero_l now txs Hwin).
  rewrite (monthly_expense_sum add_assoc add_comm add_zero_l now txs Hwin).
  unfold calculateStats; cbn [netBalance]. rewrite !reduce_sum_map. reflexivity.
Qed.

End NetColumn.

Lemma exactZ_sub_add (a b c d : Z) : sub (add a b) (add c d) = add (sub a c) (sub b d).
Proof. unfold add, sub; cbn [exactZ]. lia. Qed.

Lemma absSum_In (x : Z) (l : list Z) : In x l -> Z.abs x <= absSum l.
Proof.
  induction l as [|y l IH]; simpl; [tauto|].
  pose proof (absSum_nonneg l). intros [->|Hin]; [lia|]. specialize (IH Hin). lia.
Qed.

Lemma absSum_differences {A} (g h : A -> Z) (l : list A) :
  absSum (map (fun x => g x - h x) l) <= absSum (map g l) + absSum (map h l).
Proof. induction l as [|x l IH]; simpl; lia. Qed.

(** X4.  In a time zone at or ahead of UTC, for whole amounts whose absolute
    values add up to less than 2^53 and transactions dated in the months of
    the window, the six values that the export writes in its Net column
    (income minus expense of each row) add up, on binary64 numbers, to the
    net balance of the page. *)
Theorem net_column_total (tz : TimeZone) (now : Date) (txs : list (@Reports.Transaction Z)) :
  (forall d, getTimezoneOffset d <= 0) ->
  12 <= monthIndex now - 5 ->
  (forall t, In t txs ->
     0 <= getMonth (Reports.date t) < 12
     /\ monthIndex now - 5 <= monthIndex (Reports.date t) <= monthIndex now) ->
  absSum (map Reports.amount txs) < 2 ^ 53 ->
  let transactions : list (@Reports.Transaction float) := map toBinary64 txs in
  reduce_sum (fun row => sub (Reports.income row) (Reports.expense row))
    (Reports.processMonthlyData now transactions)
  = Reports.netBalance (Reports.calculateStats transactions).
Proof.
  intros Heast Hw Hin Hb. cbv zeta.
  assert (Hwin : forall t, In t txs ->
            In (format_MMM_yyyy (new_Date (Reports.date t))) (windowLabels now)).
  { intros t Ht. destruct (Hin t Ht) as [Hm Hmi].
    apply label_in_window; assumption. }
  pose proof (processMonthlyData_Z_bounds now txs) as Hbs.
  set (bs := Reports.processMonthlyData now txs) in *.
  pose proof (absSum_nonneg (map Reports.income bs)).
  pose proof (absSum_nonneg (map Reports.expense bs)).
  rewrite processMonthlyData_whole, calculateStats_whole by assumption.
  fold bs. rewrite reduce_sum_map, map_map.
  rewrite (map_ext_in _ (fun m => Number_of_Z (Reports.income m - Reports.expense m))).
  - rewrite <- (map_map (fun m => Reports.income m - Reports.expense m) Number_of_Z).
    rewrite sumFrom_zero_whole.
    + cbn [stats64 Reports.netBalance]. f_equal.
      apply (net_column_total_exact exactZ_add_assoc exactZ_add_comm exactZ_add_zero_l
               exactZ_sub_add eq_refl now txs Hwin).
    + pose proof (absSum_differences Reports.income Reports.expense bs). lia.
  - intros m Hm. cbn [bucket64 Reports.income Reports.expense].
    pose proof (absSum_In _ _ (in_map Reports.income _ _ Hm)).
    pose proof (absSum_In _ _ (in_map Reports.expense _ _ Hm)).
    unfold sub; cbn [binary64]. apply binary64_sub_whole; lia.
Qed.

Lemma net_column_total_witness :
  let transactions := map toBinary64 SampleWhole.rows in
  reduce_sum (fun row => sub (Reports.income row) (Reports.expense row))
    (Reports.processMonthlyData (tz := Asia_Kolkata) Sample.now transactions)
  = Reports.netBalance (Reports.calculateStats transactions).
Proof.
  apply (net_column_total Asia_Kolkata Sample.now SampleWhole.rows).
  - intros d. simpl. lia.
  - vm_compute. discriminate.
  - intros t Ht. simpl in Ht.
    repeat (destruct Ht as [<-|Ht]; [vm_compute; intuition discriminate|]).
    destruct Ht.
  - vm_compute. reflexivity.
Defined.

(** ** The state of the Reports page *)

Module ReportsPage.
Section ReportsPage.
Import Reports.
Context {num : Type} `{JSNumber num} {tz : TimeZone}.

(** The state of the component: [loading], [monthlyData], [categoryData]
    and [stats]. *)
Record State := {
  loading : bool;
  monthlyData : list (@ChartData num);
  categoryData : list (@CategoryData num);
  stats : @Stats num
}.

(** The values given to [useState]. *)
Definition initialState : State :=
  {| loading := true;
     monthlyData := [];
     categoryData := [];
     stats := {| totalIncome := zero; totalExpense := zero; netBalance := zero |} |}.

(** [fetchReportData]: [transactions] is the [data] of the query, [None]
    when it is null or when the query threw (the error is logged only);
    [now] is the clock read by [processMonthlyData]. *)
Definition fetchReportData (now : Date) (transactions : option (list (@Transaction num)))
    (st : State) : State :=
  match transactions with
  | Some transactions =>
      {| loading := false;
         monthlyData := processMonthlyData now transactions;
         categoryData := processCategoryData transactions;
         stats := calculateStats transactions |}
  | None =>
      {| loading := false;
         monthlyData := monthlyData st;
         categoryData := categoryData st;
         stats := stats st |}
  end.

(** The state after a sequence of fetches, each with its clock and result. *)
Definition afterFetches (fetches : list (Date * option (list (@Transaction num))))
    (st : State) : State :=
  fold_left (fun st f => fetchReportData (fst f) (snd f) st) fetches st.

(** The last fetch of the sequence that returned data. *)
Fixpoint lastData (fetches : list (Date * option (list (@Transaction num))))
  : option (Date * list (@Transaction num)) :=
  match fetches with
  | [] => None
  | (now, r) :: rest =>
      match lastData rest with
      | Some f => Some f
      | None => match r with Some txs => Some (now, txs) | None => None end
      end
  end.

End ReportsPage.
End ReportsPage.

Section ReportsPageFacts.
Import Reports ReportsPage.
Context {num : Type} `{JSNumber num} {tz : TimeZone}.
Variable Number_toString : num -> string.

Lemma afterFetches_data (fetches : list (Date * option (list (@Transaction num))))
    (st : @State num) :
  let final := afterFetches fetches st in
  match lastData fetches with
  | Some (now, txs) =>
      monthlyData final = processMonthlyData now txs
      /\ categoryData final = processCategoryData txs
      /\ stats final = calculateStats txs
  | None =>
      monthlyData final = monthlyData st
      /\ categoryData final = categoryData st
      /\ stats final = stats st
  end.
Proof.
  revert st. induction fetches as [|[now r] rest IH]; intros st; cbn [lastData].
  - simpl. auto.
  - unfold afterFetches in *. cbn [fold_left fst snd].
    specialize (IH (fetchReportData now r st)). cbv zeta in *.
    destruct (lastData rest) as [[now' txs']|]; [exact IH|].
    destruct r as [txs|]; exact IH.
Qed.

(** A fetch that returns no data never blanks the report.  After any
    sequence of fetches the page shows the monthly buckets, the category
    slices and the totals of the last fetch that returned data, all three
    from the same transaction list; when no fetch returned data it still
    shows the empty initial aggregates, and Export CSV then writes the
    header line alone.  The spinner is gone after the first fetch, whatever
    its result. *)
Theorem report_shows_last_data (today : Date)
    (fetches : list (Date * option (list (@Transaction num)))) :
  let final := afterFetches fetches initialState in
  (fetches <> [] -> loading final = false)
  /\ match lastData fetches with
     | Some (now, txs) =>
         monthlyData final = processMonthlyData now txs
         /\ categoryData final = processCategoryData txs
         /\ stats final = calculateStats txs
     | None =>
         monthlyData final = [] /\ categoryData final = []
         /\ stats final = {| totalIncome := zero; totalExpense := zero; netBalance := zero |}
         /\ split_on (ascii_of_nat 10)
              (csvContent (exportCSV Number_toString today (monthlyData final)))
            = ["Month,Income,Expense,Net"]
     end.
Proof.
  cbv zeta. split.
  - intros Hne. destruct fetches as [|f rest] using rev_ind; [contradiction|].
    unfold afterFetches. rewrite fold_left_app. cbn [fold_left].
    destruct (snd f); reflexivity.
  - pose proof (afterFetches_data fetches initialState) as Hd. cbv zeta in Hd.
    destruct (lastData fetches) as [[now txs]|]; [exact Hd|].
    destruct Hd as (Hm & Hc & Hs). repeat split; try assumption.
    rewrite Hm. reflexivity.
Qed.

End ReportsPageFacts.

(** C5 as stated fails for the view that the page holds until a fetch has
    returned data: [monthlyData] is then the empty list, also after a fetch
    that failed, and Export CSV writes the header line alone, with no data
    row where the claim says six. *)
Lemma exportCSV_before_data :
  let view := ReportsPage.monthlyData (ReportsPage.initialState (num := float)) in
  let failed :=
    ReportsPage.monthlyData
      (ReportsPage.fetchReportData (tz := UTC) Sample.now None ReportsPage.initialState) in
  let text :=
    Reports.csvContent
      (Reports.exportCSV SampleExport.wholeNumber_toString (Sample.mkDate 2024 5 5) view) in
  view = [] /\ failed = view
  /\ text = "Month,Income,Expense,Net"
  /\ split_on (ascii_of_nat 10) text = ["Month,Income,Expense,Net"]
  /\ length (tl (split_on (ascii_of_nat 10) text)) = 0%nat
  /\ length (tl (split_on (ascii_of_nat 10) text)) <> 6%nat.
Proof. cbv zeta. repeat split; try reflexivity. discriminate. Qed.

(** ** The figures of the dashboard and of the assistant *)

Lemma filter_Permutation_list {A} (p : A -> bool) (l l' : list A) :
  Permutation l l' -> Permutation (List.filter p l) (List.filter p l').
Proof.
  induction 1 as [|x l l' _ IH|x y l|l l' l'' _ IH1 _ IH2]; simpl.
  - constructor.
  - destruct (p x); [constructor|]; exact IH.
  - destruct (p x), (p y); try reflexivity. apply perm_swap.
  - etransitivity; eassumption.
Qed.

Section FiguresFacts.
Context {num : Type} `{JSNumber num}.

(** The projection [select('type, amount')] of a transaction row, and a
    wallet row as the dashboard reads it. *)
Definition statRowOf (t : @AIAssistant.Transaction num) : @Dashboard.StatRow num :=
  {| Dashboard.type := AIAssistant.type t; Dashboard.amount := AIAssistant.amount t |}.

Definition walletDataOf (w : @AIAssistant.Wallet num) : @Dashboard.WalletData num :=
  {| Dashboard.balance := AIAssistant.balance w |}.

Lemma reduce_sum_over_map {A B} (g : A -> B) (f : B -> num) (l : list A) :
  reduce_sum f (map g l) = reduce_sum (fun x => f (g x)) l.
Proof. rewrite !reduce_sum_map, map_map. reflexivity. Qed.

Lemma filter_of_map {A B} (g : A -> B) (p : B -> bool) (l : list A) :
  List.filter p (map g l) = map g (List.filter (fun x => p (g x)) l).
Proof.
  induction l as [|x l IH]; simpl; [reflexivity|].
  destruct (p (g x)); simpl; rewrite IH; reflexivity.
Qed.

(** When both pages receive the same rows in the same order. *)
Lemma figures_same_order
    (ws : list (@AIAssistant.Wallet num)) (table : list (@AIAssistant.Transaction num))
    (st : @Dashboard.Stats num) :
  (length table <= 20)%nat ->
  let context := AIAssistant.getFinancialContext ws table in
  let shown := Dashboard.fetchData (Some (map walletDataOf ws))
                 (Some (map statRowOf table)) st in
  AIAssistant.recentIncome context = Dashboard.income shown
  /\ AIAssistant.recentExpenses context = Dashboard.expenses shown
  /\ AIAssistant.transactionsCount context = length table
  /\ Dashboard.totalBalance shown
     = (if truthy (AIAssistant.totalBalance context)
        then AIAssistant.totalBalance context else zero).
Proof.
  intros Hlen. cbv zeta.
  unfold AIAssistant.getFinancialContext, AIAssistant.financialContextOf,
    AIAssistant.limit, AIAssistant.select, Dashboard.fetchData.
  cbn [option_map AIAssistant.recentIncome AIAssistant.recentExpenses
       AIAssistant.transactionsCount AIAssistant.totalBalance
       Dashboard.income Dashboard.expenses Dashboard.totalBalance].
  rewrite firstn_all2 by exact Hlen.
  rewrite !filter_of_map, !reduce_sum_over_map. auto.
Qed.

End FiguresFacts.

(** A sum of whole numbers on binary64 numbers is the exact sum. *)
Lemma reduce_sum_whole {A} (f : A -> Z) (g : A -> float) (l : list A) :
  (forall x, g x = Number_of_Z (f x)) -> absSum (map f l) < 2 ^ 53 ->
  reduce_sum g l = Number_of_Z (reduce_sum f l).
Proof.
  intros Hg Hb. rewrite !reduce_sum_map.
  rewrite (map_ext g (fun x => Number_of_Z (f x))) by exact Hg.
  rewrite <- (map_map f Number_of_Z). apply sumFrom_zero_whole. exact Hb.
Qed.

Lemma reduce_sum_Z_Permutation {A} (f : A -> Z) (l l' : list A) :
  Permutation l l' -> reduce_sum f l = reduce_sum f l'.
Proof.
  intros Hp. rewrite !reduce_sum_map.
  apply (sumFrom_Permutation exactZ_add_assoc exactZ_add_comm exactZ_add_zero_l).
  apply Permutation_map, Hp.
Qed.

Module SampleFigures.
Import AIAssistant.

(** A wallet and a transaction with whole amounts, as binary64 numbers. *)
Definition wallet64 (w : @Wallet Z) : @Wallet float :=
  {| balance := Number_of_Z (balance w) |}.

Definition transaction64 (t : @Transaction Z) : @Transaction float :=
  {| type := type t; amount := Number_of_Z (amount t); date := date t |}.

(** Balances of 0.1, 0.2 and 0.3, as the assistant's query returns them,
    and as the dashboard's query returns them when the wallet of 0.1 was
    created last. *)
Definition unordered : list (@Wallet float) :=
  [{| balance := 0x1.999999999999ap-4%float |};
   {| balance := 0x1.999999999999ap-3%float |};
   {| balance := 0x1.3333333333333p-2%float |}].

Definition byCreation : list (@Wallet float) :=
  [{| balance := 0x1.999999999999ap-3%float |};
   {| balance := 0x1.3333333333333p-2%float |};
   {| balance := 0x1.999999999999ap-4%float |}].

End SampleFigures.

(** X7.  While the store holds at most 20 transactions, the assistant's
    recent income and recent expenses equal the dashboard's income and
    expenses, its transaction count is the number of rows, and the
    dashboard's total balance equals the assistant's, except that a total
    that is 0 or NaN is shown as 0, in two cases: when both pages receive
    the rows in the same order, and, for whole amounts whose absolute values
    add up to less than 2^53, in whatever order each query returns the rows
    (the dashboard orders the wallets by creation time, the assistant does
    not).  With other amounts the figures can differ when the orders
    differ: for balances 0.1, 0.2, 0.3 the assistant has 0.6000000000000001
    where the dashboard, which receives 0.2, 0.3, 0.1, shows 0.6. *)
Theorem assistant_agrees_with_dashboard :
  (forall num (N : JSNumber num) (ws : list (@AIAssistant.Wallet num))
          (table : list (@AIAssistant.Transaction num)) (st : @Dashboard.Stats num),
      (length table <= 20)%nat ->
      let context := AIAssistant.getFinancialContext ws table in
      let shown := Dashboard.fetchData (Some (map walletDataOf ws))
                     (Some (map statRowOf table)) st in
      AIAssistant.recentIncome context = Dashboard.income shown
      /\ AIAssistant.recentExpenses context = Dashboard.expenses shown
      /\ AIAssistant.transactionsCount context = length table
      /\ Dashboard.totalBalance shown
         = (if truthy (AIAssistant.totalBalance context)
            then AIAssistant.totalBalance context else zero))
  /\ (forall (ws ws' : list (@AIAssistant.Wallet Z))
             (table table' : list (@AIAssistant.Transaction Z))
             (st : @Dashboard.Stats float),
         Permutation ws ws' -> Permutation table table' ->
         (length table <= 20)%nat ->
         absSum (map AIAssistant.balance ws) < 2 ^ 53 ->
         absSum (map AIAssistant.amount table) < 2 ^ 53 ->
         let context :=
           AIAssistant.getFinancialContext (map SampleFigures.wallet64 ws)
             (map SampleFigures.transaction64 table) in
         let shown :=
           Dashboard.fetchData
             (Some (map walletDataOf (map SampleFigures.wallet64 ws')))
             (Some (map statRowOf (map SampleFigures.transaction64 table'))) st in
         AIAssistant.recentIncome context = Dashboard.income shown
         /\ AIAssistant.recentExpenses context = Dashboard.expenses shown
         /\ AIAssistant.transactionsCount context = length table'
         /\ Dashboard.totalBalance shown
            = (if truthy (AIAssistant.totalBalance context)
               then AIAssistant.totalBalance context else zero))
  /\ Permutation SampleFigures.unordered SampleFigures.byCreation
  /\ AIAssistant.totalBalance (AIAssistant.getFinancialContext SampleFigures.unordered [])
     = 0x1.3333333333334p-1%float
  /\ Dashboard.totalBalance
       (Dashboard.fetchData (Some (map walletDataOf SampleFigures.byCreation)) (Some [])
          Dashboard.initialStats)
     = 0x1.3333333333333p-1%float.
Proof.
  split; [intros; apply figures_same_order; assumption|].
  split.
  { intros ws ws' table table' st Hws Htable Hlen Hbw Hbt. cbv zeta.
    unfold AIAssistant.getFinancialContext, AIAssistant.financialContextOf,
      AIAssistant.limit, AIAssistant.select, Dashboard.fetchData.
    cbn [option_map AIAssistant.recentIncome AIAssistant.recentExpenses
         AIAssistant.transactionsCount AIAssistant.totalBalance
         Dashboard.income Dashboard.expenses Dashboard.totalBalance].
    rewrite firstn_all2 by (rewrite length_map; exact Hlen).
    rewrite !filter_of_map, !reduce_sum_over_map, !length_map.
    cbn [statRowOf walletDataOf Dashboard.type Dashboard.amount Dashboard.balance
         SampleFigures.transaction64 SampleFigures.wallet64
         AIAssistant.type AIAssistant.amount AIAssistant.balance].
    assert (Hbt' : absSum (map AIAssistant.amount table') < 2 ^ 53)
      by (rewrite <- (absSum_Permutation _ _ (Permutation_map AIAssistant.amount Htable));
          exact Hbt).
    assert (Hbw' : absSum (map AIAssistant.balance ws') < 2 ^ 53)
      by (rewrite <- (absSum_Permutation _ _ (Permutation_map AIAssistant.balance Hws));
          exact Hbw).
    assert (HT : forall l p,
              absSum (map AIAssistant.amount l) < 2 ^ 53 ->
              reduce_sum (fun x : @AIAssistant.Transaction Z =>
                            Number_of_Z (AIAssistant.amount x)) (List.filter p l)
              = Number_of_Z (reduce_sum AIAssistant.amount (List.filter p l))).
    { intros l p Hl. apply reduce_sum_whole; [reflexivity|].
      eapply Z.le_lt_trans; [apply absSum_filter|exact Hl]. }
    assert (HW : forall l,
              absSum (map AIAssistant.balance l) < 2 ^ 53 ->
              reduce_sum (fun x : @AIAssistant.Wallet Z =>
                            Number_of_Z (AIAssistant.balance x)) l
              = Number_of_Z (reduce_sum AIAssistant.balance l)).
    { intros l Hl. apply reduce_sum_whole; [reflexivity|exact Hl]. }
    rewrite !(HT table) by exact Hbt. rewrite !(HT table') by exact Hbt'.
    rewrite (HW ws Hbw), (HW ws' Hbw').
    rewrite (reduce_sum_Z_Permutation AIAssistant.balance ws ws' Hws).
    rewrite (reduce_sum_Z_Permutation AIAssistant.amount _ _
               (filter_Permutation_list
                  (fun x => String.eqb (AIAssistant.type x) "income") _ _ Htable)).
    rewrite (reduce_sum_Z_Permutation AIAssistant.amount _ _
               (filter_Permutation_list
                  (fun x => String.eqb (AIAssistant.type x) "expense") _ _ Htable)).
    rewrite (Permutation_length Htable). auto. }
  split.
  { unfold SampleFigures.unordered, SampleFigures.byCreation.
    eapply perm_trans; [apply perm_swap|]. apply perm_skip, perm_swap. }
  split; vm_compute; reflexivity.
Qed.

Lemma assistant_agrees_with_dashboard_witness :
  let ws := [{| AIAssistant.balance := 100%float |}; {| AIAssistant.balance := 50%float |}] in
  let table := firstn 20 SampleSnapshot.table in
  let context := AIAssistant.getFinancialContext ws table in
  let shown := Dashboard.fetchData (Some (map walletDataOf ws))
                 (Some (map statRowOf table)) Dashboard.initialStats in
  AIAssistant.recentIncome context = Dashboard.income shown
  /\ AIAssistant.recentExpenses context = Dashboard.expenses shown
  /\ AIAssistant.transactionsCount context = length table
  /\ Dashboard.totalBalance shown
     = (if truthy (AIAssistant.totalBalance context)
        then AIAssistant.totalBalance context else zero).
Proof.
  apply (proj1 assistant_agrees_with_dashboard float binary64
           [{| AIAssistant.balance := 100%float |}; {| AIAssistant.balance := 50%float |}]
           (firstn 20 SampleSnapshot.table) Dashboard.initialStats).
  simpl. lia.
Defined.

(** On binary64 numbers the total balance of the dashboard is never NaN:
    a sum of balances that is NaN (or 0, or -0) is replaced by 0 there,
    while the assistant's snapshot keeps the NaN. *)
Theorem dashboard_total_balance_is_a_number
    (ws : list (@AIAssistant.Wallet float)) (rows : list (@Dashboard.StatRow float))
    (st : @Dashboard.Stats float) :
  let shown := Dashboard.fetchData (Some (map walletDataOf ws)) (Some rows) st in
  let total := AIAssistant.totalBalance (AIAssistant.getFinancialContext ws []) in
  PrimFloat.is_nan (Dashboard.totalBalance shown) = false
  /\ (PrimFloat.is_nan total = true -> Dashboard.totalBalance shown = 0%float)
  /\ (PrimFloat.is_nan total = false -> PrimFloat.is_zero total = false ->
      Dashboard.totalBalance shown = total).
Proof.
  cbv zeta.
  unfold AIAssistant.getFinancialContext, AIAssistant.financialContextOf,
    AIAssistant.limit, AIAssistant.select, Dashboard.fetchData.
  cbn [option_map AIAssistant.totalBalance Dashboard.totalBalance].
  rewrite reduce_sum_over_map. cbn [walletDataOf Dashboard.balance].
  set (total := reduce_sum (fun x => AIAssistant.balance x) ws).
  unfold truthy; cbn [binary64].
  destruct (PrimFloat.is_nan total) eqn:En; destruct (PrimFloat.is_zero total) eqn:Ez;
    cbn [orb negb]; repeat split; try reflexivity; try assumption; try discriminate.
Qed.

(** ** Settings page *)

(** [s.length]: the number of UTF-16 code units of the text whose UTF-8
    encoding is the byte string [s].  Every character counts for one unit,
    and a character outside the Basic Multilingual Plane, which takes four
    bytes, for two; the bytes 128 to 191 continue a character. *)
Fixpoint length_utf16 (s : string) : nat :=
  match s with
  | EmptyString => 0
  | String c r =>
      let n := nat_of_ascii c in
      ((if (n <? 128) || (192 <=? n) then 1 else 0)
       + (if 240 <=? n then 1 else 0) + length_utf16 r)%nat
  end.

Example length_utf16_example :
  length_utf16 "secret" = 6%nat /\ length_utf16 "ééé" = 3%nat
  /\ length_utf16 "senha€" = 6%nat /\ length_utf16 "abc😀" = 5%nat.
Proof. repeat split; reflexivity. Qed.

Lemma length_utf16_ascii (s : string) :
  Forall (fun c => (nat_of_ascii c < 128)%nat) (list_ascii_of_string s) ->
  length_utf16 s = String.length s.
Proof.
  induction s as [|c s IH]; [reflexivity|].
  cbn [list_ascii_of_string length_utf16 String.length]. intros Hall.
  inversion Hall as [|? ? Hc Hs]; subst. rewrite (IH Hs).
  destruct (Nat.ltb_spec (nat_of_ascii c) 128); [|lia].
  destruct (Nat.leb_spec 240 (nat_of_ascii c)); [lia|]. reflexivity.
Qed.

(** How an awaited call to the store ends: it resolves, with or without an
    error object in its result, or it rejects and control passes to
    [catch]. *)
Inductive Outcome := Resolved (error : option string) | Rejected.

Module Settings.

Record Passwords := { newPassword : string; confirmPassword : string }.

Record Message := { type : string; text : string }.

(** The state cells that the password and account handlers write. *)
Record State := { passwords : Passwords; isSaving : bool; message : Message }.

(** [handlePasswordUpdate].  [updateUser p] is the error message with which
    [supabase.auth.updateUser({ password: p })] fails, if it fails (an
    error in its result is thrown by the handler itself).  The result is
    the new state and the passwords sent to the service. *)
Definition handlePasswordUpdate (updateUser : string -> option string) (st : State)
  : State * list string :=
  let p := passwords st in
  if negb (String.eqb (newPassword p) (confirmPassword p)) then
    ({| passwords := p; isSaving := isSaving st;
        message := {| type := "error"; text := "Passwords do not match" |} |}, [])
  else if (length_utf16 (newPassword p) <? 6)%nat then
    ({| passwords := p; isSaving := isSaving st;
        message := {| type := "error"; text := "Password must be at least 6 characters" |} |},
     [])
  else
    match updateUser (newPassword p) with
    | None =>
        ({| passwords := {| newPassword := ""; confirmPassword := "" |};
            isSaving := false;
            message := {| type := "success"; text := "Password updated successfully!" |} |},
         [newPassword p])
    | Some error_message =>
        ({| passwords := p; isSaving := false;
            message := {| type := "error"; text := error_message |} |},
         [newPassword p])
    end.

(** What [handleDeleteAccount] does, in order. *)
Inductive Effect :=
| Confirm (question : string)
| DeleteProfile
| SignOut
| Navigate (path : string)
| SetMessage (m : Message).

Definition firstQuestion : string :=
  "Are you sure you want to delete your account? This action cannot be undone.".

Definition secondQuestion : string :=
  "This will permanently delete all your data. Are you absolutely sure?".

(** [handleDeleteAccount]: [confirm] is the answer of the user to a
    question, [deleted] how the delete of the profile row ends (its result
    is not read) and [signedOut] how [signOut] ends. *)
Definition handleDeleteAccount (confirm : string -> bool) (deleted signedOut : Outcome)
  : list Effect :=
  if negb (confirm firstQuestion) then [Confirm firstQuestion]
  else if negb (confirm secondQuestion) then [Confirm firstQuestion; Confirm secondQuestion]
  else
    [Confirm firstQuestion; Confirm secondQuestion; DeleteProfile]
    ++ match deleted with
       | Rejected =>
           [SetMessage {| type := "error"; text := "Failed to delete account" |}]
       | Resolved _ =>
           SignOut ::
           match signedOut with
           | Rejected =>
               [SetMessage {| type := "error"; text := "Failed to delete account" |}]
           | Resolved _ => [Navigate "/login"]
           end
       end.

End Settings.

(** Closes the cases of a handler once its branch is fixed. *)
Ltac settle_cases :=
  intros;
  repeat match goal with
         | Hx : _ /\ _ |- _ => destruct Hx
         | Hx : _ \/ _ |- _ => destruct Hx
         | Hx : exists _, _ |- _ => destruct Hx
         | Hx : False |- _ => destruct Hx
         end;
  try discriminate; try congruence; try tauto; try lia; eauto 8.

Section SettingsFacts.
Import Settings.

(** X9.  The password is sent to the service only when the two fields are
    equal and hold at least 6 UTF-16 code units (6 characters of the Basic
    Multilingual Plane), and then it is the one typed; the two fields are
    cleared exactly when the update succeeded and are kept for correction
    otherwise; a mismatch is reported as "Passwords do not match" even when
    the password is also too short, a short password as "Password must be at
    least 6 characters", a success as "Password updated successfully!" and
    an error of the service with its own message; the saving flag is reset
    after every call. *)
Theorem password_update_is_validated :
  (forall (updateUser : string -> option string) (st : State),
      let p := passwords st in
      let valid := newPassword p = confirmPassword p
                   /\ (6 <= length_utf16 (newPassword p))%nat in
      let st' := fst (handlePasswordUpdate updateUser st) in
      let sent := snd (handlePasswordUpdate updateUser st) in
      (valid -> sent = [newPassword p])
      /\ (~ valid -> sent = [] /\ passwords st' = p /\ type (message st') = "error"
                     /\ isSaving st' = isSaving st)
      /\ (newPassword p <> confirmPassword p ->
          message st' = {| type := "error"; text := "Passwords do not match" |})
      /\ (newPassword p = confirmPassword p -> (length_utf16 (newPassword p) < 6)%nat ->
          message st'
          = {| type := "error"; text := "Password must be at least 6 characters" |})
      /\ (type (message st') = "success" <-> valid /\ updateUser (newPassword p) = None)
      /\ (valid -> updateUser (newPassword p) = None ->
          st' = {| passwords := {| newPassword := ""; confirmPassword := "" |};
                   isSaving := false;
                   message := {| type := "success";
                                 text := "Password updated successfully!" |} |})
      /\ (type (message st') <> "success" -> passwords st' = p)
      /\ (forall e, valid -> updateUser (newPassword p) = Some e ->
                    message st' = {| type := "error"; text := e |} /\ isSaving st' = false))
  /\ (forall s, Forall (fun c => (nat_of_ascii c < 128)%nat) (list_ascii_of_string s) ->
                length_utf16 s = String.length s)
  /\ (forall updateUser isSaving message,
         handlePasswordUpdate updateUser
           {| passwords := {| newPassword := "ééé"; confirmPassword := "ééé" |};
              isSaving := isSaving; message := message |}
         = ({| passwords := {| newPassword := "ééé"; confirmPassword := "ééé" |};
               isSaving := isSaving;
               message := {| type := "error";
                             text := "Password must be at least 6 characters" |} |}, []))
  /\ (forall isSaving message,
         handlePasswordUpdate (fun _ => None)
           {| passwords := {| newPassword := "açúcar"; confirmPassword := "açúcar" |};
              isSaving := isSaving; message := message |}
         = ({| passwords := {| newPassword := ""; confirmPassword := "" |};
               isSaving := false;
               message := {| type := "success";
                             text := "Password updated successfully!" |} |}, ["açúcar"])).
Proof.
  split; [|split; [exact length_utf16_ascii|split; reflexivity]].
  intros updateUser st. cbv zeta. unfold handlePasswordUpdate.
  destruct (String.eqb_spec (newPassword (passwords st)) (confirmPassword (passwords st)))
    as [Eq|Ne]; cbn [negb].
  - destruct (Nat.ltb_spec (length_utf16 (newPassword (passwords st))) 6) as [Hs|Hl].
    + cbn [fst snd passwords message type text isSaving].
      repeat split; settle_cases.
    + destruct (updateUser (newPassword (passwords st))) as [e|] eqn:Eu;
        cbn [fst snd passwords message type text isSaving];
        repeat split; settle_cases.
  - cbn [fst snd passwords message type text isSaving].
    repeat split; settle_cases.
Qed.

(** X10.  The profile is deleted only after both questions were confirmed,
    and the second question is asked only after the first was confirmed;
    the user is signed out whenever the delete call resolves, also when its
    result carries an error, which is not read, and is sent to the login
    page when the sign-out resolves as well; the message "Failed to delete
    account" is set only when one of the two calls rejects.  The five
    courses of the handler are listed in full. *)
Theorem account_deletion_needs_two_confirmations
    (confirm : string -> bool) (deleted signedOut : Outcome) :
  let trace := handleDeleteAccount confirm deleted signedOut in
  let first :=
    Confirm "Are you sure you want to delete your account? This action cannot be undone." in
  let second :=
    Confirm "This will permanently delete all your data. Are you absolutely sure?" in
  let failure := SetMessage {| type := "error"; text := "Failed to delete account" |} in
  let yes1 := confirm "Are you sure you want to delete your account? This action cannot be undone." in
  let yes2 := confirm "This will permanently delete all your data. Are you absolutely sure?" in
  (In DeleteProfile trace <-> yes1 = true /\ yes2 = true)
  /\ (In second trace <-> yes1 = true)
  /\ (In SignOut trace <-> yes1 = true /\ yes2 = true /\ deleted <> Rejected)
  /\ (In (Navigate "/login") trace
      <-> yes1 = true /\ yes2 = true /\ deleted <> Rejected /\ signedOut <> Rejected)
  /\ (forall e e', handleDeleteAccount confirm (Resolved e) signedOut
                   = handleDeleteAccount confirm (Resolved e') signedOut)
  /\ ((exists m, In (SetMessage m) trace)
      <-> yes1 = true /\ yes2 = true /\ (deleted = Rejected \/ signedOut = Rejected))
  /\ (yes1 = false -> trace = [first])
  /\ (yes1 = true -> yes2 = false -> trace = [first; second])
  /\ (yes1 = true -> yes2 = true -> deleted = Rejected ->
      trace = [first; second; DeleteProfile; failure])
  /\ (yes1 = true -> yes2 = true -> deleted <> Rejected -> signedOut = Rejected ->
      trace = [first; second; DeleteProfile; SignOut; failure])
  /\ (yes1 = true -> yes2 = true -> deleted <> Rejected -> signedOut <> Rejected ->
      trace = [first; second; DeleteProfile; SignOut; Navigate "/login"]).
Proof.
  cbv zeta. unfold handleDeleteAccount, firstQuestion, secondQuestion.
  destruct (confirm "Are you sure you want to delete your account? This action cannot be undone."),
    (confirm "This will permanently delete all your data. Are you absolutely sure?"),
    deleted as [e|], signedOut as [e'|]; cbn [negb app In];
    repeat split; settle_cases.
Qed.

End SettingsFacts.

(** ** Transactions page: the list and the form *)

Module TransactionsPage.
Section TransactionsPage.
Import Transactions.
Context {num : Type}.

(** [n.toString()] and [parseFloat(s)]. *)
Variable Number_toString : num -> string.
Variable parseFloat : string -> num.

(** A row of the list, with the columns that the filter and the form read. *)
Record Transaction := {
  id : string;
  t_type : string;
  t_amount : num;
  t_description : string;
  t_date : string;
  t_wallet_id : string;
  t_category_id : option string
}.

(** A row of [select('id, name')] on wallets. *)
Record Wallet := { w_id : string; w_name : string }.

(** [transactions.filter(...)] under the filter buttons All, Income and
    Expenses. *)
Definition filteredTransactions (filterType : string) (transactions : list Transaction)
  : list Transaction :=
  List.filter
    (fun t => if String.eqb filterType "all" then true else String.eqb (t_type t) filterType)
    transactions.

(** The state cells of the modal. *)
Record Modal := {
  isModalOpen : bool;
  editingTransaction : option Transaction;
  formData : FormData
}.

(** [openModal(transaction?)]; [now] is the clock and [wallets] the state
    of the wallet list. *)
Definition openModal (now : Date) (wallets : list Wallet) (transaction : option Transaction)
  : Modal :=
  match transaction with
  | Some transaction =>
      {| isModalOpen := true;
         editingTransaction := Some transaction;
         formData := {| type := t_type transaction;
                        amount := Number_toString (t_amount transaction);
                        description := t_description transaction;
                        date := t_date transaction;
                        wallet_id := t_wallet_id transaction;
                        category_id := or_else (t_category_id transaction) "" |} |}
  | None =>
      {| isModalOpen := true;
         editingTransaction := None;
         formData := {| type := "expense";
                        amount := "";
                        description := "";
                        date := format_yyyy_MM_dd now;
                        wallet_id := or_else (option_map w_id (head wallets)) "";
                        category_id := "" |} |}
  end.

Definition closeModal (m : Modal) : Modal :=
  {| isModalOpen := false; editingTransaction := None; formData := formData m |}.

(** The object [transactionData] that [handleSubmit] sends. *)
Record TransactionData := {
  d_type : string;
  d_amount : num;
  d_description : string;
  d_date : string;
  d_wallet_id : string;
  d_category_id : option string;
  d_user_id : option string
}.

Definition transactionDataOf (user_id : option string) (f : FormData) : TransactionData :=
  {| d_type := type f;
     d_amount := parseFloat (amount f);
     d_description := description f;
     d_date := date f;
     d_wallet_id := wallet_id f;
     d_category_id := match category_id f with EmptyString => None | c => Some c end;
     d_user_id := user_id |}.

(** The call that [handleSubmit] makes on the store. *)
Inductive StoreCall :=
| Update (row_id : string) (data : TransactionData)
| Insert (data : TransactionData).

(** [handleSubmit]: the call made, then the modal.  [saved] is how the
    call and the refetch that follows end; the result of the call is not
    read, and only a rejection keeps [closeModal] from running. *)
Definition handleSubmit (user_id : option string) (saved : Outcome) (m : Modal)
  : StoreCall * Modal :=
  let transactionData := transactionDataOf user_id (formData m) in
  let call := match editingTransaction m with
              | Some editing => Update (id editing) transactionData
              | None => Insert transactionData
              end in
  (call, match saved with Resolved _ => closeModal m | Rejected => m end).

End TransactionsPage.
End TransactionsPage.

Section TransactionsPageFacts.
Import Transactions TransactionsPage.
Context {num : Type}.
Variable Number_toString : num -> string.
Variable parseFloat : string -> num.
Implicit Types (t : @Transaction num) (txs : list (@Transaction num)).

(** Under All every transaction is listed; under another filter exactly
    those whose type is the filter, so a transaction whose type is neither
    income nor expense is listed under All only; the listed rows keep their
    order; and when all types are income or expense the two tabs split the
    list: counts add up. *)
Theorem filter_tabs_partition txs :
  filteredTransactions "all" txs = txs
  /\ (forall f t, f <> "all" ->
        (In t (filteredTransactions f txs) <-> In t txs /\ t_type t = f))
  /\ (forall f, sublist (filteredTransactions f txs) txs)
  /\ (length (filteredTransactions "income" txs)
      + length (filteredTransactions "expense" txs) <= length txs)%nat
  /\ ((forall t, In t txs -> t_type t = "income" \/ t_type t = "expense") ->
      (length (filteredTransactions "income" txs)
       + length (filteredTransactions "expense" txs) = length txs)%nat).
Proof.
  unfold filteredTransactions. split; [|split; [|split; [|split]]].
  - simpl. induction txs as [|t l IH]; simpl; [reflexivity|]. rewrite IH. reflexivity.
  - intros f t Hf. rewrite List.filter_In.
    destruct (String.eqb_spec f "all") as [E|_]; [contradiction|].
    rewrite String.eqb_eq. tauto.
  - intros f. induction txs as [|t l IH]; simpl; [constructor|].
    destruct (if String.eqb f "all" then true else String.eqb (t_type t) f).
    + apply sublist_skip. exact IH.
    + apply sublist_cons. exact IH.
  - simpl. induction txs as [|t l IH]; simpl; [lia|].
    destruct (String.eqb_spec (t_type t) "income") as [E|E].
    + rewrite E. simpl. lia.
    + destruct (String.eqb (t_type t) "expense"); simpl; lia.
  - simpl. induction txs as [|t l IH]; simpl; intros Hall; [reflexivity|].
    assert (IH' := IH (fun t' Ht' => Hall t' (or_intror Ht'))).
    destruct (Hall t (or_introl eq_refl)) as [E|E]; rewrite E; simpl; lia.
Qed.

(** Opening a transaction for edit and saving the form as it is updates
    that very row (never inserts), with its type, description, date and
    wallet unchanged, its amount passed through [toString] and
    [parseFloat], and its category unchanged, a null (or empty) category
    going out as null.  A new form inserts (never updates) an expense dated
    today on the first wallet, or on no wallet when there is none.  The
    modal closes whenever the call resolves, also with an error in its
    result, and stays open with the typed data when the call rejects. *)
Theorem edit_form_round_trip (now : Date) (wallets : list Wallet)
    (user_id : option string) (saved : Outcome) :
  (forall t,
      let opened := openModal Number_toString now wallets (Some t) in
      fst (handleSubmit parseFloat user_id saved opened)
      = Update (id t)
          {| d_type := t_type t;
             d_amount := parseFloat (Number_toString (t_amount t));
             d_description := t_description t;
             d_date := t_date t;
             d_wallet_id := t_wallet_id t;
             d_category_id := match t_category_id t with
                              | Some EmptyString => None
                              | c => c
                              end;
             d_user_id := user_id |})
  /\ (let opened := openModal Number_toString now wallets None in
      fst (handleSubmit parseFloat user_id saved opened)
      = Insert
          {| d_type := "expense";
             d_amount := parseFloat "";
             d_description := "";
             d_date := format_yyyy_MM_dd now;
             d_wallet_id := match wallets with
                            | w :: _ => w_id w
                            | [] => ""
                            end;
             d_category_id := None;
             d_user_id := user_id |})
  /\ (forall m : @Modal num,
        isModalOpen m = true ->
        (isModalOpen (snd (handleSubmit parseFloat user_id saved m)) = false
         <-> saved <> Rejected)
        /\ formData (snd (handleSubmit parseFloat user_id saved m)) = formData m).
Proof.
  split; [|split].
  - intros t. cbv zeta. unfold handleSubmit, openModal, transactionDataOf.
    cbn [fst editingTransaction formData type amount description date wallet_id category_id].
    f_equal. f_equal.
    destruct (t_category_id t) as [[|c r]|]; reflexivity.
  - cbv zeta. unfold handleSubmit, openModal, transactionDataOf.
    cbn [fst editingTransaction formData type amount description date wallet_id category_id].
    f_equal. f_equal.
    destruct wallets as [|w l]; cbn [head option_map or_else]; [reflexivity|].
    destruct (w_id w); reflexivity.
  - intros m Hopen. unfold handleSubmit, closeModal. cbn [snd].
    destruct saved as [e|]; cbn [isModalOpen formData]; split; try reflexivity.
    + split; [discriminate|reflexivity].
    + rewrite Hopen. split; [discriminate|intros Hn; contradiction].
Qed.

End TransactionsPageFacts.

(** ** The chat of the assistant *)

(** The byte string of the given byte values. *)
Definition bytes (l : list nat) : string := string_of_list_ascii (map ascii_of_nat l).

(** The characters that [trim] removes, in UTF-8: the WhiteSpace and
    LineTerminator code points of ECMAScript, U+0009 to U+000D, U+0020,
    U+00A0, U+1680, U+2000 to U+200A, U+2028, U+2029, U+202F, U+205F, U+3000
    and U+FEFF. *)
Definition whiteSpace : list string :=
  map bytes
    ([[9]; [10]; [11]; [12]; [13]; [32]; [194; 160]; [225; 154; 128]]
     ++ map (fun n => [226; 128; n]) (seq 128 11)
     ++ [[226; 128; 168]; [226; 128; 169]; [226; 128; 175]; [226; 129; 159];
         [227; 128; 128]; [239; 187; 191]])%nat%list.

Definition isWhiteSpace (u : string) : bool := existsb (String.eqb u) whiteSpace.

(** [s.trimStart()]: a white-space character takes one, two or three bytes. *)
Fixpoint trimStart (s : string) : string :=
  match s with
  | EmptyString => EmptyString
  | String a r =>
      if isWhiteSpace (String a "") then trimStart r
      else
        match r with
        | EmptyString => s
        | String b r2 =>
            if isWhiteSpace (String a (String b "")) then trimStart r2
            else
              match r2 with
              | EmptyString => s
              | String c r3 =>
                  if isWhiteSpace (String a (String b (String c ""))) then trimStart r3
                  else s
              end
        end
  end.

(** [s.trimEnd()]: with the white space at the end of the rest removed, the
    first byte is dropped too when what is left is one white-space
    character. *)
Fixpoint trimEnd (s : string) : string :=
  match s with
  | EmptyString => EmptyString
  | String c r =>
      let u := String c (trimEnd r) in
      if isWhiteSpace u then EmptyString else u
  end.

(** [s.trim()] *)
Definition trim (s : string) : string := trimEnd (trimStart s).

Module Chat.
Section Chat.
Import AIAssistant.
Context {num : Type} `{JSNumber num}.
Variable toLocaleString_ptBR : num -> string.
Variable toFixed_1 : num -> string.

Inductive Role := user | assistant.

Record Message := { role : Role; content : string; timestamp : Date }.

(** The state cells [messages], [input] and [isLoading]. *)
Record State := { messages : list Message; input : string; isLoading : bool }.

(** The initial value of [messages]. *)
Definition greeting (opened : Date) : Message :=
  {| role := assistant;
     content := "Hello! I'm your financial assistant. I can help you with insights about your finances, answer questions, and provide recommendations. How can I assist you today?";
     timestamp := opened |}.

(** A row inserted in [ai_chat_logs]. *)
Record ChatLog := { log_user_id : string; log_message : string; log_response : string }.

(** What one submission meets: the snapshot, the random tip index, the
    session, how the insert of the log ends, and the clock when the message
    is sent, when the reply arrives and when the insert fails. *)
Record Environment := {
  context : option (@FinancialContext num);
  tipIndex : nat;
  session : option string;
  logged : Outcome;
  sentAt : Date;
  repliedAt : Date;
  failedAt : Date
}.

Definition apology (at_ : Date) : Message :=
  {| role := assistant;
     content := "I apologize, but I encountered an error. Please try again.";
     timestamp := at_ |}.

(** [handleSubmit]: the new state and the rows sent to [ai_chat_logs]. *)
Definition handleSubmit (env : Environment) (st : State) : State * list ChatLog :=
  if String.eqb (trim (input st)) "" || isLoading st then (st, [])
  else
    let userMessage := trim (input st) in
    let aiResponse :=
      generateAIResponse toLocaleString_ptBR toFixed_1 (context env) (tipIndex env)
        userMessage in
    let shown :=
      (messages st
       ++ [{| role := user; content := userMessage; timestamp := sentAt env |};
           {| role := assistant; content := aiResponse; timestamp := repliedAt env |}])%list in
    match session env with
    | None => ({| messages := shown; input := ""; isLoading := false |}, [])
    | Some uid =>
        let row := {| log_user_id := uid; log_message := userMessage;
                      log_response := aiResponse |} in
        match logged env with
        | Resolved _ => ({| messages := shown; input := ""; isLoading := false |}, [row])
        | Rejected =>
            ({| messages := (shown ++ [apology (failedAt env)])%list;
                input := ""; isLoading := false |}, [row])
        end
    end.

(** A conversation: the text typed before each submission, and what the
    submission meets. *)
Fixpoint converse (turns : list (string * Environment)) (st : State) : State :=
  match turns with
  | [] => st
  | (typed, env) :: rest =>
      converse rest
        (fst (handleSubmit env
                {| messages := messages st; input := typed; isLoading := isLoading st |}))
  end.

End Chat.
End Chat.

Lemma isWhiteSpace_In (u : string) : isWhiteSpace u = true <-> In u whiteSpace.
Proof.
  unfold isWhiteSpace. rewrite existsb_exists. split.
  - intros (w & Hw & E). apply String.eqb_eq in E. subst. exact Hw.
  - intros Hu. exists u. split; [exact Hu|apply String.eqb_refl].
Qed.

(** A white-space character is one to three bytes long. *)
Lemma whiteSpace_shape (w : string) :
  In w whiteSpace ->
  exists a, w = String a ""
            \/ (isWhiteSpace (String a "") = false
                /\ exists b, w = String a (String b "")
                     \/ (isWhiteSpace (String a (String b "")) = false
                         /\ exists c, w = String a (String b (String c "")))).
Proof.
  intros Hw. vm_compute in Hw.
  repeat (destruct Hw as [<-|Hw];
          [match goal with |- exists a, String ?x _ = _ \/ _ => exists x end;
           first
             [ left; reflexivity
             | right; split; [reflexivity|];
               match goal with
               | |- exists b, String _ (String ?y _) = _ \/ _ => exists y
               end;
               first
                 [ left; reflexivity
                 | right; split; [reflexivity|]; eexists; reflexivity ] ]|]).
  contradiction.
Qed.

Lemma trimStart_whiteSpace (w s : string) :
  In w whiteSpace -> trimStart (w ++ s) = trimStart s.
Proof.
  intros Hw. pose proof (proj2 (isWhiteSpace_In w) Hw) as Ew.
  destruct (whiteSpace_shape w Hw) as (a & [->|(E1 & b & [->|(E2 & c & ->)])]);
    rewrite !append_String, append_empty_l.
  - destruct s; cbn [trimStart]; rewrite Ew; reflexivity.
  - cbn [trimStart]. rewrite E1, Ew. reflexivity.
  - destruct s; cbn [trimStart]; rewrite E1, E2, Ew; reflexivity.
Qed.

Lemma trimStart_kept (s : string) :
  (forall w r, In w whiteSpace -> s <> w ++ r) -> trimStart s = s.
Proof.
  intros Hs.
  assert (Hno : forall u r, s = u ++ r -> isWhiteSpace u = false).
  { intros u r E. destruct (isWhiteSpace u) eqn:Eu; [|reflexivity].
    apply isWhiteSpace_In in Eu. destruct (Hs u r Eu E). }
  destruct s as [|a [|b [|c r]]]; cbn [trimStart]; [reflexivity|..].
  - rewrite (Hno (String a "") ""); reflexivity.
  - rewrite (Hno (String a "") (String b "")) by reflexivity.
    rewrite (Hno (String a (String b "")) ""); reflexivity.
  - rewrite (Hno (String a "") (String b (String c r))) by reflexivity.
    rewrite (Hno (String a (String b "")) (String c r)) by reflexivity.
    rewrite (Hno (String a (String b (String c ""))) r); reflexivity.
Qed.

Lemma trimEnd_one (w : string) : In w whiteSpace -> trimEnd w = "".
Proof.
  intros Hw. vm_compute in Hw.
  repeat (destruct Hw as [<-|Hw]; [reflexivity|]). contradiction.
Qed.

Lemma trimEnd_whiteSpace (w s : string) :
  In w whiteSpace -> trimEnd (s ++ w) = trimEnd s.
Proof.
  intros Hw. induction s as [|c s IH].
  - rewrite append_empty_l. apply trimEnd_one, Hw.
  - rewrite append_String. cbn [trimEnd]. rewrite IH. reflexivity.
Qed.

Lemma trimEnd_kept (s : string) :
  (forall w r, In w whiteSpace -> s <> r ++ w) -> trimEnd s = s.
Proof.
  induction s as [|c s IH]; intros Hs; [reflexivity|].
  cbn [trimEnd]. rewrite IH.
  - destruct (isWhiteSpace (String c s)) eqn:E; [|reflexivity].
    apply isWhiteSpace_In in E. destruct (Hs (String c s) "" E). reflexivity.
  - intros w r Hw ->. apply (Hs w (String c r) Hw). reflexivity.
Qed.

Section ChatFacts.
Import AIAssistant Chat.
Context {num : Type} `{JSNumber num}.
Variable toLocaleString_ptBR : num -> string.
Variable toFixed_1 : num -> string.

Lemma handleSubmit_appends (env : @Environment num) (st : State) :
  exists added,
    messages (fst (handleSubmit toLocaleString_ptBR toFixed_1 env st))
    = (messages st ++ added)%list
    /\ (length added <= 3)%nat.
Proof.
  unfold handleSubmit.
  destruct (String.eqb (trim (input st)) "" || isLoading st).
  - exists []. rewrite app_nil_r. simpl. split; [reflexivity|lia].
  - destruct (session env) as [uid|]; [destruct (logged env)|]; cbn [fst messages];
      rewrite <- ?app_assoc; eexists; (split; [reflexivity|simpl; lia]).
Qed.

(** X13.  The chat only ever grows at its end.  A submission changes
    nothing when the input trims to the empty text or a reply is pending;
    otherwise it appends the trimmed input and the reply computed from it,
    and nothing else unless the insert of the log rejects, in which case an
    apology follows the reply that is already shown.  A log row is sent
    exactly when a message goes out in a session, and it holds the text and
    the reply that the chat shows.  Through a whole conversation the earlier
    messages stay in place, the greeting first.  Trimming removes the white
    space of ECMAScript at both ends, the no-break space, the ideographic
    space and the byte order mark among it, and nothing else. *)
Theorem chat_grows_at_its_end :
  (forall (env : @Environment num) (st : State) (turns : list (string * @Environment num)),
      let st' := fst (handleSubmit toLocaleString_ptBR toFixed_1 env st) in
      let rows := snd (handleSubmit toLocaleString_ptBR toFixed_1 env st) in
      let reply := generateAIResponse toLocaleString_ptBR toFixed_1 (context env)
                     (tipIndex env) (trim (input st)) in
      (trim (input st) = "" \/ isLoading st = true -> st' = st /\ rows = [])
      /\ (trim (input st) <> "" -> isLoading st = false ->
          input st' = "" /\ isLoading st' = false
          /\ messages st'
             = (messages st
                ++ [{| role := user; content := trim (input st); timestamp := sentAt env |};
                    {| role := assistant; content := reply; timestamp := repliedAt env |}]
                ++ match session env, logged env with
                   | Some _, Rejected => [apology (failedAt env)]
                   | _, _ => []
                   end)%list
          /\ rows = match session env with
                    | Some uid => [{| log_user_id := uid; log_message := trim (input st);
                                      log_response := reply |}]
                    | None => []
                    end)
      /\ messages st `prefix_of` messages (converse toLocaleString_ptBR toFixed_1 turns st)
      /\ (length (messages (converse toLocaleString_ptBR toFixed_1 turns st))
          <= length (messages st) + 3 * length turns)%nat)
  /\ (forall w s, In w whiteSpace ->
                  trimStart (w ++ s) = trimStart s /\ trimEnd (s ++ w) = trimEnd s)
  /\ (forall s, (forall w r, In w whiteSpace -> s <> w ++ r) -> trimStart s = s)
  /\ (forall s, (forall w r, In w whiteSpace -> s <> r ++ w) -> trimEnd s = s)
  /\ (forall u, In u whiteSpace
                <-> In u (map bytes
                            [[9]; [10]; [11]; [12]; [13]; [32]; [194; 160]; [225; 154; 128];
                             [226; 128; 128]; [226; 128; 129]; [226; 128; 130];
                             [226; 128; 131]; [226; 128; 132]; [226; 128; 133];
                             [226; 128; 134]; [226; 128; 135]; [226; 128; 136];
                             [226; 128; 137]; [226; 128; 138]; [226; 128; 168];
                             [226; 128; 169]; [226; 128; 175]; [226; 129; 159];
                             [227; 128; 128]; [239; 187; 191]]%nat))
  /\ trim ("  saldo da carteira " ++ bytes [9; 13; 10]%nat) = "saldo da carteira"
  /\ trim (bytes [194; 160; 32]%nat ++ "quanto gastei?" ++ bytes [227; 128; 128; 226; 128; 175]%nat)
     = "quanto gastei?"
  /\ trim (bytes [239; 187; 191; 194; 160; 226; 128; 139]%nat) = bytes [226; 128; 139]%nat
  /\ trim ("a" ++ bytes [194; 160]%nat ++ "b") = "a" ++ bytes [194; 160]%nat ++ "b"
  /\ (forall (env : @Environment num) messages,
         handleSubmit toLocaleString_ptBR toFixed_1 env
           {| messages := messages; input := bytes [194; 160; 32; 227; 128; 128]%nat;
              isLoading := false |}
         = ({| messages := messages; input := bytes [194; 160; 32; 227; 128; 128]%nat;
               isLoading := false |}, [])).
Proof.
  split; [|split; [|split; [|split; [|split; [|repeat split]]]]];
    try reflexivity.
  - intros env st turns. cbv zeta. split; [|split; [|split]].
    + intros Hskip. unfold handleSubmit.
      assert (E : String.eqb (trim (input st)) "" || isLoading st = true).
      { destruct Hskip as [Hw|Hl].
        - rewrite Hw. reflexivity.
        - rewrite Hl. apply orb_true_r. }
      rewrite E. auto.
    + intros Hw Hl. unfold handleSubmit.
      assert (E : String.eqb (trim (input st)) "" = false).
      { destruct (String.eqb_spec (trim (input st)) "") as [Et|_]; [|reflexivity].
        contradiction. }
      rewrite E, Hl. cbn [orb].
      destruct (session env) as [uid|]; [destruct (logged env)|];
        cbn [fst snd messages input isLoading];
        rewrite <- ?app_assoc; repeat split; reflexivity.
    + revert st. induction turns as [|[typed e] rest IH]; intros st; cbn [converse].
      * reflexivity.
      * etransitivity; [|apply IH].
        destruct (handleSubmit_appends e
                    {| messages := messages st; input := typed; isLoading := isLoading st |})
          as (added & -> & _).
        cbn [messages]. apply prefix_app_r. reflexivity.
    + revert st. induction turns as [|[typed e] rest IH]; intros st; cbn [converse length].
      * lia.
      * etransitivity; [apply IH|].
        destruct (handleSubmit_appends e
                    {| messages := messages st; input := typed; isLoading := isLoading st |})
          as (added & -> & Hlen).
        cbn [messages]. rewrite length_app. lia.
  - intros w s Hw. split; [apply trimStart_whiteSpace|apply trimEnd_whiteSpace]; exact Hw.
  - exact trimStart_kept.
  - exact trimEnd_kept.
Qed.

End ChatFacts.

(** ** The order of the rows *)

Section RowOrder.
Import Reports.
Context {num : Type} `{JSNumber num} {tz : TimeZone}.

(** Addition without rounding. *)
Hypothesis add_assoc : forall a b c : num, add a (add b c) = add (add a b) c.
Hypothesis add_comm : forall a b : num, add a b = add b a.
Hypothesis add_zero_l : forall a : num, add zero a = a.

Lemma filtered_sum_Permutation (p : @Transaction num -> bool) (txs txs' : list Transaction) :
  Permutation txs txs' ->
  sumFrom zero (map amount (List.filter p txs))
  = sumFrom zero (map amount (List.filter p txs')).
Proof.
  intros Hp. apply (sumFrom_Permutation add_assoc add_comm add_zero_l).
  apply Permutation_map, filter_Permutation_list, Hp.
Qed.

Lemma aggregates_exact_order (now : Date) (txs txs' : list (@Transaction num)) :
  Permutation txs txs' ->
  calculateStats txs = calculateStats txs'
  /\ processMonthlyData now txs = processMonthlyData now txs'
  /\ (forall k, value <$> (categoryMapOf txs !! k) = value <$> (categoryMapOf txs' !! k)).
Proof.
  intros Hp. split; [|split].
  - unfold calculateStats. rewrite !reduce_sum_map.
    rewrite (filtered_sum_Permutation _ txs txs' Hp).
    rewrite (filtered_sum_Permutation (fun t => String.eqb (type t) "expense") txs txs' Hp).
    reflexivity.
  - rewrite !processMonthlyData_closed. apply map_ext. intros k.
    unfold bucketAfter, amountsOf, emptyBucket; cbn [name income expense].
    rewrite (filtered_sum_Permutation _ txs txs' Hp).
    rewrite (filtered_sum_Permutation
               (fun t => String.eqb (type t) "expense"
                         && String.eqb k (format_MMM_yyyy (new_Date (date t)))) txs txs' Hp).
    reflexivity.
  - intros k. rewrite !categoryMapOf_lookup. unfold groupOf.
    destruct (inherited k); [reflexivity|].
    assert (Hg : Permutation
              (List.filter (fun t => String.eqb (categoryNameOf t) k)
                 (List.filter isCategorizedExpense txs))
              (List.filter (fun t => String.eqb (categoryNameOf t) k)
                 (List.filter isCategorizedExpense txs')))
      by (do 2 apply filter_Permutation_list; exact Hp).
    pose proof (sumFrom_Permutation add_assoc add_comm add_zero_l _ _
                  (Permutation_map amount Hg)) as Es.
    destruct (List.filter _ (List.filter isCategorizedExpense txs)) as [|t0 g],
             (List.filter _ (List.filter isCategorizedExpense txs')) as [|t0' g'].
    + reflexivity.
    + apply Permutation_nil in Hg. discriminate Hg.
    + symmetry in Hg. apply Permutation_nil in Hg. discriminate Hg.
    + cbn [fmap option_fmap option_map value]. rewrite Es. reflexivity.
Qed.

End RowOrder.

(** X5.  For whole amounts whose absolute values add up to less than 2^53,
    the order in which the store returns the transactions matters for
    nothing but colours: the totals, the six monthly buckets, and the set
    and the values of the category slices, all on binary64 numbers, are the
    same for every order of the same rows.  (The colour of a slice is that
    of the first row of its name, so it may change with the order.)  With
    fractions the order shows: incomes of 0.1, 0.2 and 0.3 total
    0.6000000000000001 in this order and 0.6 in the reverse order. *)
Theorem aggregates_ignore_row_order :
  (forall (tz : TimeZone) (now : Date) (txs txs' : list (@Reports.Transaction Z)),
      Permutation txs txs' ->
      absSum (map Reports.amount txs) < 2 ^ 53 ->
      Reports.calculateStats (map toBinary64 txs)
      = Reports.calculateStats (map toBinary64 txs')
      /\ Reports.processMonthlyData now (map toBinary64 txs)
         = Reports.processMonthlyData now (map toBinary64 txs')
      /\ (forall k, Reports.value <$> (Reports.categoryMapOf (map toBinary64 txs) !! k)
                    = Reports.value <$> (Reports.categoryMapOf (map toBinary64 txs') !! k)))
  /\ Reports.totalIncome (Reports.calculateStats Sample.tenths)
     = 0x1.3333333333334p-1%float
  /\ Reports.totalIncome (Reports.calculateStats (rev Sample.tenths))
     = 0x1.3333333333333p-1%float
  /\ Reports.totalIncome (Reports.calculateStats Sample.tenths)
     <> Reports.totalIncome (Reports.calculateStats (rev Sample.tenths)).
Proof.
  split; [|split; [reflexivity|split; [reflexivity|]]].
  - intros tz now txs txs' Hp Hb.
    assert (Hb' : absSum (map Reports.amount txs') < 2 ^ 53).
    { rewrite <- (absSum_Permutation _ _ (Permutation_map Reports.amount Hp)). exact Hb. }
    destruct (aggregates_exact_order (H := exactZ)
                exactZ_add_assoc exactZ_add_comm exactZ_add_zero_l now txs txs' Hp)
      as (Hs & Hm & Hc).
    rewrite !calculateStats_whole, !processMonthlyData_whole by assumption.
    rewrite Hs, Hm. split; [reflexivity|split; [reflexivity|]].
    intros k. rewrite !categoryMapOf_whole by assumption.
    rewrite !lookup_fmap. specialize (Hc k).
    destruct (Reports.categoryMapOf txs !! k), (Reports.categoryMapOf txs' !! k);
      cbn [fmap option_fmap option_map] in *; try discriminate; [|reflexivity].
    injection Hc as Hc. unfold slice64; cbn [Reports.value]. rewrite Hc. reflexivity.
  - intros E. apply (f_equal (PrimFloat.ltb 0x1.3333333333333p-1%float)) in E.
    vm_compute in E. discriminate E.
Qed.

Lemma aggregates_ignore_row_order_witness :
  Reports.calculateStats (map toBinary64 SampleChart.rows)
  = Reports.calculateStats (map toBinary64 (rev SampleChart.rows))
  /\ Reports.processMonthlyData (tz := UTC) Sample.now (map toBinary64 SampleChart.rows)
     = Reports.processMonthlyData (tz := UTC) Sample.now
         (map toBinary64 (rev SampleChart.rows))
  /\ (forall k,
         Reports.value <$> (Reports.categoryMapOf (map toBinary64 SampleChart.rows) !! k)
         = Reports.value
             <$> (Reports.categoryMapOf (map toBinary64 (rev SampleChart.rows)) !! k)).
Proof.
  apply (proj1 aggregates_ignore_row_order UTC Sample.now
           SampleChart.rows (rev SampleChart.rows)).
  - apply Permutation_rev.
  - vm_compute. reflexivity.
Defined.

(** ** Wallets page: [src/pages/Wallets.tsx] *)

Module WalletsPage.
Section WalletsPage.
Context {num : Type}.

Record WalletData := {
  id : string;
  w_name : string;
  w_balance : num;
  w_type : string;
  w_color : string;
  w_currency : string
}.

Definition WALLET_COLORS : list string :=
  ["#3B82F6"; "#10B981"; "#F59E0B"; "#EF4444"; "#8B5CF6"; "#EC4899"; "#06B6D4"; "#84CC16"].

Definition WALLET_TYPES : list string := ["personal"; "business"; "investment"].

(** The state [formData] of the wallet form. *)
Record FormData := { name : string; type : string; color : string; currency : string }.

Record Modal := {
  isModalOpen : bool;
  editingWallet : option WalletData;
  formData : FormData
}.

(** [openModal(wallet?)] *)
Definition openModal (wallet : option WalletData) : Modal :=
  match wallet with
  | Some wallet =>
      {| isModalOpen := true;
         editingWallet := Some wallet;
         formData := {| name := w_name wallet; type := w_type wallet;
                        color := w_color wallet; currency := w_currency wallet |} |}
  | None =>
      {| isModalOpen := true;
         editingWallet := None;
         formData := {| name := ""; type := "personal"; color := "#3B82F6";
                        currency := "BRL" |} |}
  end.

Definition closeModal (m : Modal) : Modal :=
  {| isModalOpen := false; editingWallet := None; formData := formData m |}.

(** The calls of the page on the store. *)
Inductive StoreCall :=
| Update (row_id : string) (data : FormData)
| Insert (data : FormData) (user_id : option string)
| Delete (row_id : string).

(** [handleSubmit]: the call made, then the modal; only a rejection keeps
    [closeModal] from running. *)
Definition handleSubmit (user_id : option string) (saved : Outcome) (m : Modal)
  : StoreCall * Modal :=
  let call := match editingWallet m with
              | Some editing => Update (id editing) (formData m)
              | None => Insert (formData m) user_id
              end in
  (call, match saved with Resolved _ => closeModal m | Rejected => m end).

Definition deleteQuestion : string := "Are you sure you want to delete this wallet?".

(** [handleDelete(id)]: the calls made on the store. *)
Definition handleDelete (confirm : string -> bool) (row_id : string) : list StoreCall :=
  if negb (confirm deleteQuestion) then [] else [Delete row_id].

End WalletsPage.
End WalletsPage.

Section WalletsPageFacts.
Import WalletsPage.
Context {num : Type}.

(** The rows of [wallets] after [update(data).eq('id', row_id)]: the rows
    of that id take the four columns of [data], every other column and
    every other row stays. *)
Definition walletsAfterUpdate (row_id : string) (data : FormData)
    (rows : list (@WalletData num)) : list (@WalletData num) :=
  map (fun w => if String.eqb (id w) row_id
                then {| id := id w; w_name := name data; w_balance := w_balance w;
                        w_type := type data; w_color := color data;
                        w_currency := currency data |}
                else w) rows.

Lemma walletsAfterUpdate_unchanged (w : @WalletData num) (rows : list (@WalletData num)) :
  List.NoDup (map id rows) -> In w rows ->
  walletsAfterUpdate (id w) (formData (openModal (Some w))) rows = rows.
Proof.
  intros Hnd Hin. unfold walletsAfterUpdate.
  rewrite <- (map_id rows) at 2. apply map_ext_in. intros w' Hin'.
  destruct (String.eqb_spec (id w') (id w)) as [E|_]; [|reflexivity].
  assert (w' = w).
  { clear -Hnd Hin Hin' E. induction rows as [|r rows IH]; [destruct Hin|].
    simpl in Hnd. inversion Hnd as [|? ? Hn Hr]; subst.
    destruct Hin as [->|Hin], Hin' as [->|Hin']; auto.
    - exfalso. apply Hn. rewrite <- E. apply in_map. exact Hin'.
    - exfalso. apply Hn. rewrite E. apply in_map. exact Hin. }
  subst w'. destruct w; reflexivity.
Qed.

(** Saving a wallet opened for edit updates that very row with the four
    fields of the form, which are the wallet's own when nothing was typed:
    with unique ids, saving an untouched form leaves the list of wallets as
    it was.  No balance is ever sent, so whatever is typed the balances and
    the ids of the list stay as they are.  A new form inserts a personal
    wallet in BRL with the first colour of the palette, both offered by the
    form.  A wallet is deleted only on confirmation, and then only the one
    asked for. *)
Theorem wallet_form_round_trip (user_id : option string) (saved : Outcome)
    (confirm : string -> bool) :
  (forall w : @WalletData num,
      fst (handleSubmit user_id saved (openModal (Some w)))
      = Update (id w) {| name := w_name w; type := w_type w; color := w_color w;
                         currency := w_currency w |})
  /\ (forall (w : @WalletData num) (f : FormData),
        fst (handleSubmit user_id saved
               {| isModalOpen := true; editingWallet := Some w; formData := f |})
        = Update (id w) f)
  /\ (forall (rows : list (@WalletData num)) row_id f,
        map w_balance (walletsAfterUpdate row_id f rows) = map w_balance rows
        /\ map id (walletsAfterUpdate row_id f rows) = map id rows)
  /\ (forall (rows : list (@WalletData num)) w,
        List.NoDup (map id rows) -> In w rows ->
        walletsAfterUpdate (id w) (formData (openModal (Some w))) rows = rows)
  /\ fst (handleSubmit (num := num) user_id saved (openModal None))
     = Insert {| name := ""; type := "personal"; color := "#3B82F6"; currency := "BRL" |}
         user_id
  /\ In (type (formData (openModal (num := num) None))) WALLET_TYPES
  /\ head WALLET_COLORS = Some (color (formData (openModal (num := num) None)))
  /\ (forall row_id call,
        In call (handleDelete confirm row_id)
        <-> confirm deleteQuestion = true /\ call = Delete row_id).
Proof.
  split; [reflexivity|]. split; [reflexivity|].
  split.
  { intros rows row_id f. unfold walletsAfterUpdate. rewrite !map_map.
    split; apply map_ext; intros w; destruct (String.eqb (id w) row_id); reflexivity. }
  split; [intros rows w; apply walletsAfterUpdate_unchanged|].
  split; [reflexivity|].
  split; [simpl; auto|]. split; [reflexivity|].
  intros row_id call. unfold handleDelete.
  destruct (confirm deleteQuestion); cbn [negb In]; split; settle_cases.
Qed.

End WalletsPageFacts.
